(** * A shallow embedding of the REX ETP tracker's extraction, rollup,
      name-history and fetch code (src/etp_tracker), with the properties of
      its specification.

    Strings are Rocq strings of ASCII characters; Python's [str.upper],
    [str.casefold], [str.strip], [str.title] and [re]'s [\s] are modelled on
    that alphabet.  A CSV cell read back by [pd.read_csv(dtype=str)] is a
    [cell]: [None] is NaN (what pandas makes of an empty field), [Some s] a
    non-empty string. *)

From Stdlib Require Import ZArith Lia Ascii String List Bool Sorting.Permutation Sorting.Sorted.
From stdpp Require Import gmap strings.
Import ListNotations.
Local Open Scope Z_scope.

(* ------------------------------------------------------------------ *)
(** ** Python string primitives on ASCII *)

Module Py.

Definition code (c : ascii) : nat := nat_of_ascii c.

Definition is_upper_c (c : ascii) : bool := (65 <=? code c)%nat && (code c <=? 90)%nat.
Definition is_lower_c (c : ascii) : bool := (97 <=? code c)%nat && (code c <=? 122)%nat.
Definition is_alpha_c (c : ascii) : bool := is_upper_c c || is_lower_c c.
Definition is_digit_c (c : ascii) : bool := (48 <=? code c)%nat && (code c <=? 57)%nat.

(** [str.isspace] on ASCII: \t \n \v \f \r, \x1c-\x1f and the space. *)
Definition is_space_c (c : ascii) : bool :=
  ((9 <=? code c)%nat && (code c <=? 13)%nat)
  || ((28 <=? code c)%nat && (code c <=? 32)%nat).

Definition upper_c (c : ascii) : ascii :=
  if is_lower_c c then ascii_of_nat (code c - 32) else c.
Definition lower_c (c : ascii) : ascii :=
  if is_upper_c c then ascii_of_nat (code c + 32) else c.

Fixpoint smap (f : ascii -> ascii) (s : string) : string :=
  match s with
  | EmptyString => EmptyString
  | String c s' => String (f c) (smap f s')
  end.

(** [str.upper] and [str.casefold]. *)
Definition upper (s : string) : string := smap upper_c s.
Definition casefold (s : string) : string := smap lower_c s.

Fixpoint sany (p : ascii -> bool) (s : string) : bool :=
  match s with
  | EmptyString => false
  | String c s' => p c || sany p s'
  end.

Fixpoint sall (p : ascii -> bool) (s : string) : bool :=
  match s with
  | EmptyString => true
  | String c s' => p c && sall p s'
  end.

Fixpoint sfilter (p : ascii -> bool) (s : string) : string :=
  match s with
  | EmptyString => EmptyString
  | String c s' => if p c then String c (sfilter p s') else sfilter p s'
  end.

Fixpoint lstrip (s : string) : string :=
  match s with
  | EmptyString => EmptyString
  | String c s' => if is_space_c c then lstrip s' else s
  end.

Fixpoint srev (s : string) (acc : string) : string :=
  match s with
  | EmptyString => acc
  | String c s' => srev s' (String c acc)
  end.

(** [str.strip()]. *)
Definition strip (s : string) : string :=
  srev (lstrip (srev (lstrip s) EmptyString)) EmptyString.

(** [str.startswith]. *)
Definition startswith (s p : string) : bool := String.prefix p s.

(** [str.title]: a cased character is upper-cased after an uncased one and
    lower-cased after a cased one. *)
Fixpoint title_go (prev_cased : bool) (s : string) : string :=
  match s with
  | EmptyString => EmptyString
  | String c s' =>
      if is_alpha_c c
      then String (if prev_cased then lower_c c else upper_c c) (title_go true s')
      else String c (title_go false s')
  end.
Definition title (s : string) : string := title_go false s.

(** [re.sub(r"\s+", " ", s)]. *)
Fixpoint squash_go (in_space : bool) (s : string) : string :=
  match s with
  | EmptyString => EmptyString
  | String c s' =>
      if is_space_c c
      then (if in_space then squash_go true s' else String " " (squash_go true s'))
      else String c (squash_go false s')
  end.
Definition squash_spaces (s : string) : string := squash_go false s.

(** [str.replace(old, new)], left to right, non-overlapping ([old] non-empty). *)
Fixpoint replace_go (fuel : nat) (old new s : string) : string :=
  match fuel with
  | O => s
  | S fuel' =>
      match s with
      | EmptyString => EmptyString
      | String c s' =>
          if String.prefix old s
          then String.append new
                 (replace_go fuel' old new (substring (String.length old) (String.length s) s))
          else String c (replace_go fuel' old new s')
      end
  end.
Definition replace (s old new : string) : string :=
  replace_go (String.length s) old new s.

(** Python's [<] on strings (code point order). *)
Definition lt (a b : string) : bool := String.ltb a b.

End Py.

(* ------------------------------------------------------------------ *)
(** ** CSV cells as pandas reads them *)

(** [None] is NaN. *)
Definition cell := option string.

(** [pd.read_csv(dtype=str)] turns an empty field into NaN. *)
Definition read_cell (s : string) : cell := if String.eqb s "" then None else Some s.

(** [Series.fillna("")] on one value. *)
Definition fillna (c : cell) : string := match c with None => "" | Some s => s end.

(** [str(x)]: [str(nan)] is ["nan"]. *)
Definition pystr (c : cell) : string := match c with None => "nan" | Some s => s end.

(** Python truthiness of a cell: NaN is a non-zero float, hence truthy. *)
Definition truthy (c : cell) : bool := match c with None => true | Some s => negb (String.eqb s "") end.

(** [a or b]. *)
Definition py_or (a b : cell) : cell := if truthy a then a else b.

(* ------------------------------------------------------------------ *)
(** ** Dates: [pd.to_datetime] on "YYYY-MM-DD" strings and [date_plus_days] *)

Module Date.

Definition digit (c : ascii) : option Z :=
  if Py.is_digit_c c then Some (Z.of_nat (Py.code c) - 48) else None.

Definition digits2 (a b : ascii) : option Z :=
  match digit a, digit b with Some x, Some y => Some (10 * x + y) | _, _ => None end.

Definition leap (y : Z) : bool :=
  (Z.eqb (y mod 4) 0 && negb (Z.eqb (y mod 100) 0)) || Z.eqb (y mod 400) 0.

Definition days_in_month (y m : Z) : Z :=
  if Z.eqb m 2 then (if leap y then 29 else 28)
  else if (Z.eqb m 4 || Z.eqb m 6 || Z.eqb m 9 || Z.eqb m 11) then 30 else 31.

(** Days since 1970-01-01 of a proleptic Gregorian date. *)
Definition days_from_civil (y m d : Z) : Z :=
  let y' := if m <=? 2 then y - 1 else y in
  let era := y' / 400 in
  let yoe := y' - era * 400 in
  let mp := if m >? 2 then m - 3 else m + 9 in
  let doy := (153 * mp + 2) / 5 + d - 1 in
  let doe := yoe * 365 + yoe / 4 - yoe / 100 + doy in
  era * 146097 + doe - 719468.

Definition civil_from_days (z0 : Z) : Z * Z * Z :=
  let z := z0 + 719468 in
  let era := z / 146097 in
  let doe := z - era * 146097 in
  let yoe := (doe - doe / 1460 + doe / 36524 - doe / 146096) / 365 in
  let doy := doe - (365 * yoe + yoe / 4 - yoe / 100) in
  let mp := (5 * doy + 2) / 153 in
  let d := doy - (153 * mp + 2) / 5 + 1 in
  let m := if mp <? 10 then mp + 3 else mp - 9 in
  let y := yoe + era * 400 in
  ((if m <=? 2 then y + 1 else y), m, d).

(** The first and the last whole day of pandas' nanosecond [Timestamp]
    range (1677-09-21 00:12:43 to 2262-04-11 23:47:16): outside it
    [to_datetime(errors="coerce")] gives NaT and adding a [Timedelta]
    raises. *)
Definition ts_first_day : Z := days_from_civil 1677 9 22.
Definition ts_last_day : Z := days_from_civil 2262 4 11.

(** The day of a "YYYY-MM-DD" string naming a calendar day. *)
Definition parse_iso (s : string) : option Z :=
  match s with
  | String y1 (String y2 (String y3 (String y4 (String h1
      (String m1 (String m2 (String h2 (String d1 (String d2 EmptyString))))))))) =>
      match digits2 y1 y2, digits2 y3 y4, digits2 m1 m2, digits2 d1 d2 with
      | Some ya, Some yb, Some m, Some d =>
          let y := 100 * ya + yb in
          if Ascii.eqb h1 "-" && Ascii.eqb h2 "-" && (1 <=? m) && (m <=? 12)
             && (1 <=? d) && (d <=? days_in_month y m)
          then Some (days_from_civil y m d) else None
      | _, _, _, _ => None
      end
  | _ => None
  end.

(** [pd.to_datetime(x, errors="coerce")] on a NaN or on a date written
    "YYYY-MM-DD", the form the filing-date columns hold: the day, or NaT for
    NaN, for an invalid day and for a day outside the [Timestamp] range.
    pandas also reads other spellings ("2024/01/05", "20240105", ...) and
    converts a column in the format it infers from its first entry; the
    model reads only the "YYYY-MM-DD" form (NaT for the rest), and the
    statements whose truth depends on parsed dates assume that form. *)
Definition to_datetime (c : cell) : option Z :=
  match c with
  | None => None
  | Some s =>
      match parse_iso s with
      | Some z => if (ts_first_day <=? z) && (z <=? ts_last_day) then Some z else None
      | None => None
      end
  end.

(** [pd.Timedelta(days=n)] exists ([|n|] days fit in a signed 64-bit count
    of nanoseconds). *)
Definition timedelta_ok (n : Z) : bool := (-106751 <=? n) && (n <=? 106751).

Definition digit_char (n : Z) : ascii := ascii_of_nat (Z.to_nat (n + 48)).

Definition pad2 (n : Z) : string :=
  String (digit_char (n / 10)) (String (digit_char (n mod 10)) EmptyString).

Definition pad4 (n : Z) : string :=
  String (digit_char (n / 1000)) (String (digit_char ((n / 100) mod 10))
    (String (digit_char ((n / 10) mod 10)) (String (digit_char (n mod 10)) EmptyString))).

(** [strftime("%Y-%m-%d")]. *)
Definition format_iso (z : Z) : string :=
  let '(y, m, d) := civil_from_days z in
  String.append (pad4 y) (String "-" (String.append (pad2 m) (String "-" (pad2 d)))).

End Date.

(** utils.date_plus_days: NaT gives ""; so do the exceptions caught by
    [except Exception]: an overflowing [Timedelta] and a sum outside the
    [Timestamp] range. *)
Definition date_plus_days (iso : cell) (days : Z) : string :=
  match Date.to_datetime iso with
  | None => ""
  | Some z =>
      if Date.timedelta_ok days && (Date.ts_first_day <=? z + days) && (z + days <=? Date.ts_last_day)
      then Date.format_iso (z + days) else ""
  end.

(* ------------------------------------------------------------------ *)
(** ** Generic list helpers shared by the pandas models *)

(** [drop_duplicates(subset=..., keep="last")]: an element survives iff no
    later element has the same key; survivors keep their order. *)
Fixpoint dedup_last {A K} `{EqDecision K} (key : A -> K) (l : list A) : list A :=
  match l with
  | [] => []
  | x :: xs =>
      if existsb (fun y => bool_decide (key y = key x)) xs
      then dedup_last key xs else x :: dedup_last key xs
  end.

(** A stable insertion sort: [x] is placed before the first [y] with
    [le x y], so elements that compare equal keep their input order. *)
Fixpoint stable_insert {A} (le : A -> A -> bool) (x : A) (l : list A) : list A :=
  match l with
  | [] => [x]
  | y :: l' => if le x y then x :: l else y :: stable_insert le x l'
  end.

Fixpoint stable_sort {A} (le : A -> A -> bool) (l : list A) : list A :=
  match l with
  | [] => []
  | x :: xs => stable_insert le x (stable_sort le xs)
  end.

Fixpoint last_opt {A} (l : list A) : option A :=
  match l with
  | [] => None
  | [x] => Some x
  | _ :: xs => last_opt xs
  end.

(* ------------------------------------------------------------------ *)
(** ** utils.py: name cleaning *)

(** The trademark sign U+2122 as its UTF-8 bytes. *)
Definition trademark : string :=
  String (ascii_of_nat 226) (String (ascii_of_nat 132) (String (ascii_of_nat 162) EmptyString)).

(** [normalize_spacing]: [\s+] to one space, then strip. *)
Definition normalize_spacing (s : string) : string := Py.strip (Py.squash_spaces s).

Definition is_paren (c : ascii) : bool := Ascii.eqb c "(" || Ascii.eqb c ")".

(** [clean_fund_name_for_rollup] on a [str]. *)
Definition clean_fund_name_for_rollup (raw : string) : string :=
  let s := Py.replace raw trademark "TM" in
  let s := Py.replace s "- Osprey" "-Osprey" in
  let s := Py.replace s "+Staking" "+ Staking" in
  let s := Py.sfilter (fun c => negb (is_paren c)) s in
  normalize_spacing s.

Definition titlecase_safe (s : string) : string := Py.title s.

(* ------------------------------------------------------------------ *)
(** ** step4.py: the rollup *)

Module Rollup.

(** One row of the extraction CSV as [pd.read_csv(p3, dtype=str)] gives it.
    [x_eff_derived] is the "Effective Date (derived)" column, which step 3
    does not write: [row.get] then yields its default [""] ([Some ""]). *)
Record xrow := mkX {
  x_series_id : cell; x_series_name : cell;
  x_class_id : cell; x_class_name : cell; x_symbol : cell;
  x_form : cell; x_filing_date : cell; x_accession : cell;
  x_primary_link : cell; x_registrant : cell; x_cik : cell;
  x_effective : cell; x_eff_derived : cell }.

(** The derived columns of lines 12-20. *)
Definition fdt (r : xrow) : option Z := Date.to_datetime r.(x_filing_date).
Definition formU (r : xrow) : string := Py.upper (fillna r.(x_form)).
Definition tickerU (r : xrow) : string := Py.upper (fillna r.(x_symbol)).
Definition disp_raw (r : xrow) : string :=
  let c := fillna r.(x_class_name) in
  if String.eqb c "" then fillna r.(x_series_name) else c.
Definition disp_clean (r : xrow) : string := clean_fund_name_for_rollup (disp_raw r).
Definition disp_key (r : xrow) : string := Py.casefold (disp_clean r).

(** [__gkey], lines 26-28. *)
Definition gkey (r : xrow) : string :=
  let cid := fillna r.(x_class_id) in
  if negb (String.eqb cid "") then String.append "C:" cid
  else let sid := fillna r.(x_series_id) in
  if negb (String.eqb sid "") then String.append "S:" sid
  else String.append (disp_key r) (String.append "|T:" (tickerU r)).

(** [sort_values("_fdt", kind="stable")]: ascending, NaT last. *)
Definition fdt_le (a b : option Z) : bool :=
  match a, b with
  | Some x, Some y => Z.leb x y
  | Some _, None => true
  | None, Some _ => false
  | None, None => true
  end.
Definition sort_fdt (g : list xrow) : list xrow :=
  stable_sort (fun a b => fdt_le (fdt a) (fdt b)) g.

(** [_latest_nonempty] after [fillna("").astype(str)]. *)
Definition latest_nonempty (l : list string) : string :=
  match last_opt (List.filter (fun s => negb (String.eqb s "")) l) with
  | Some s => s | None => "" end.

Definition is485B (r : xrow) : bool := Py.startswith (formU r) "485B".
Definition is485A (r : xrow) : bool := Py.startswith (formU r) "485A".
Definition is497 (r : xrow) : bool := Py.startswith (formU r) "497".

(** One row of the Fund Status table. *)
Record fund_status := mkFS {
  fs_key : string; fs_registrant : string; fs_cik : string;
  fs_canonical : string; fs_ticker : string;
  fs_first_date : string; fs_first_form : string; fs_first_link : string;
  fs_apos_date : string; fs_apos_link : string;
  fs_bpos_date : string; fs_bpos_link : string;
  fs_497_date : string; fs_497_link : string;
  fs_lp_form : cell; fs_lp_date : cell; fs_lp_eff : cell; fs_lp_link : cell;
  fs_lp_src : string; fs_status : string }.

Definition opt_field (o : option xrow) (f : xrow -> cell) : string :=
  match o with Some r => pystr (f r) | None => "" end.

(** The latest-prospectus choice of lines 42-55 on the sorted group:
    (form, date, effective, link, source, status). *)
Definition choose (latestB latestA latestS : option xrow)
  : cell * cell * cell * cell * string * string :=
  match latestB with
  | Some row =>
      let lp_date := row.(x_filing_date) in
      let eff_parsed := py_or (py_or row.(x_effective) row.(x_eff_derived)) (Some "") in
      let lp_eff := if truthy eff_parsed then eff_parsed else lp_date in
      (row.(x_form), lp_date, lp_eff, row.(x_primary_link), "485B", "BPOS chosen")
  | None =>
  match latestA with
  | Some row =>
      let lp_date := row.(x_filing_date) in
      let eff_parsed := py_or (py_or row.(x_effective) row.(x_eff_derived)) (Some "") in
      let lp_eff := if truthy eff_parsed then eff_parsed
                    else Some (date_plus_days lp_date 75) in
      (row.(x_form), lp_date, lp_eff, row.(x_primary_link), "485A",
       if truthy eff_parsed then "APOS chosen (eff=parsed)" else "APOS chosen (eff=+75d)")
  | None =>
      (Some "", Some "", Some "", Some "", "",
       match latestS with Some _ => "Supplements only" | None => "No prospectus form found" end)
  end
  end.

(** [_pick_latest(g, key)] on a group in input order. *)
Definition pick_latest (g : list xrow) (key : string) : fund_status :=
  let gg := sort_fdt g in
  let latestB := last_opt (List.filter is485B gg) in
  let latestA := last_opt (List.filter is485A gg) in
  let latestS := last_opt (List.filter is497 gg) in
  let first := head gg in
  let '(lp_form, lp_date, lp_eff, lp_link, lp_src, status) := choose latestB latestA latestS in
  {| fs_key := key;
     fs_registrant := latest_nonempty (map (fun r => fillna r.(x_registrant)) gg);
     fs_cik := latest_nonempty (map (fun r => pystr r.(x_cik)) gg);
     fs_canonical := titlecase_safe (latest_nonempty (map disp_clean gg));
     fs_ticker := latest_nonempty (map tickerU gg);
     fs_first_date := opt_field first x_filing_date;
     fs_first_form := opt_field first x_form;
     fs_first_link := opt_field first x_primary_link;
     fs_apos_date := opt_field latestA x_filing_date;
     fs_apos_link := opt_field latestA x_primary_link;
     fs_bpos_date := opt_field latestB x_filing_date;
     fs_bpos_link := opt_field latestB x_primary_link;
     fs_497_date := opt_field latestS x_filing_date;
     fs_497_link := opt_field latestS x_primary_link;
     fs_lp_form := lp_form; fs_lp_date := lp_date; fs_lp_eff := lp_eff;
     fs_lp_link := lp_link; fs_lp_src := lp_src; fs_status := status |}.

(** [groupby("__gkey")] lists its keys in sorted order, each once. *)
Fixpoint insert_uniq (k : string) (l : list string) : list string :=
  match l with
  | [] => [k]
  | k' :: l' =>
      if String.eqb k k' then l
      else if Py.lt k k' then k :: l else k' :: insert_uniq k l'
  end.
Definition group_keys (rows : list xrow) : list string :=
  fold_right (fun r acc => insert_uniq (gkey r) acc) [] rows.
Definition group_of (rows : list xrow) (k : string) : list xrow :=
  List.filter (fun r => String.eqb (gkey r) k) rows.

(** Line 97. *)
Definition roll (rows : list xrow) : list fund_status :=
  map (fun k => pick_latest (group_of rows k) k) (group_keys rows).

(** Line 98: [Registrant] and [Canonical Fund Name] ascending, [Latest
    Prospectus Date] descending, NaN last, stable. *)
Definition desc_le (a b : cell) : bool :=
  match a, b with
  | Some x, Some y => String.leb y x
  | Some _, None => true
  | None, Some _ => false
  | None, None => true
  end.
Definition roll_le (a b : fund_status) : bool :=
  if negb (String.eqb a.(fs_registrant) b.(fs_registrant))
  then Py.lt a.(fs_registrant) b.(fs_registrant)
  else if negb (String.eqb a.(fs_canonical) b.(fs_canonical))
  then Py.lt a.(fs_canonical) b.(fs_canonical)
  else desc_le a.(fs_lp_date) b.(fs_lp_date).

(** Lines 99-101. *)
Definition dedup_key (f : fund_status) : string * string :=
  (Py.casefold f.(fs_canonical), Py.upper f.(fs_ticker)).
Definition final_pass (rs : list fund_status) : list fund_status :=
  dedup_last dedup_key (stable_sort roll_le rs).

(** [step4_rollup_for_trust] on the rows of the extraction CSV (the table it
    writes). *)
Definition rollup (rows : list xrow) : list fund_status := final_pass (roll rows).

End Rollup.

(* ------------------------------------------------------------------ *)
(** ** Ticker validation: step3._valid_ticker and the body extractors *)

Module Ticker.

Definition stopwords : list string :=
  ["THE"; "AND"; "FOR"; "WITH"; "ETF"; "FUND"; "RISK"; "USD"; "MEMBER"].

Definition in_stopwords (t : string) : bool := existsb (String.eqb t) stopwords.

(** step3._valid_ticker. *)
Definition valid_ticker (tok : string) : bool :=
  let t := Py.upper (Py.strip tok) in
  if negb ((1 <=? String.length t)%nat && (String.length t <=? 6)%nat) then false
  else if in_stopwords t then false
  else Py.sany Py.is_alpha_c t.

(** [re.fullmatch(r"[A-Z0-9]{1,6}", t)]. *)
Definition fullmatch_ticker (t : string) : bool :=
  (1 <=? String.length t)%nat && (String.length t <=? 6)%nat
  && Py.sall (fun c => Py.is_upper_c c || Py.is_digit_c c) t.

(** [" ".join(xs)]. *)
Fixpoint join_space (xs : list string) : string :=
  match xs with
  | [] => ""
  | [x] => x
  | x :: xs' => String.append x (String " " (join_space xs'))
  end.

(** A (name, ticker) row of the body extractors: [Class Contract Name],
    [Class Symbol] and [Extracted From]; its other keys are empty. *)
Record body_row := mkBR { br_name : string; br_symbol : string; br_from : string }.

(** The loop body of extract_from_html_string over one [<tr>] of a
    qualifying table, on the cell texts (already [get_text(strip=True)]). *)
Definition html_table_row (cells : list string) : option body_row :=
  if (2 <=? List.length cells)%nat then
    let tkr := Py.upper (Py.strip (List.last cells "")) in
    if fullmatch_ticker tkr
    then Some (mkBR (Py.strip (join_space (removelast cells))) tkr "PRIMARY-HTML")
    else None
  else None.

(** [re.split(r"\s{2,}", s)]: [sep] is set inside a run of two or more
    whitespace characters. *)
Fixpoint split2_go (sep : bool) (s : string) : string * list string :=
  match s with
  | EmptyString => (EmptyString, [])
  | String c s' =>
      if Py.is_space_c c then
        if sep then split2_go true s'
        else
          match s' with
          | String c2 _ =>
              if Py.is_space_c c2
              then let '(p, ps) := split2_go true s' in (EmptyString, p :: ps)
              else let '(p, ps) := split2_go false s' in (String c p, ps)
          | EmptyString => let '(p, ps) := split2_go false s' in (String c p, ps)
          end
      else let '(p, ps) := split2_go false s' in (String c p, ps)
  end.
Definition split2 (s : string) : list string := let '(p, ps) := split2_go false s in p :: ps.

(** The loop body of the plain-text columnar fallback over one line (the
    same in extract_from_html_string and extract_from_primary_pdf, up to the
    provenance tag). *)
Definition columnar_line (from : string) (ln : string) : option body_row :=
  let parts := split2 (Py.strip ln) in
  if (2 <=? List.length parts)%nat then
    let tkr := Py.upper (Py.strip (List.last parts "")) in
    if fullmatch_ticker tkr
    then Some (mkBR (Py.strip (join_space (removelast parts))) tkr from)
    else None
  else None.

End Ticker.

(* ------------------------------------------------------------------ *)
(** ** step3.py: extraction rows and the accumulated row set *)

Module Extract.

(** A row of [rows_out] / [df_new]: every column is a Python [str]. *)
Record erow := mkE {
  e_series_id : string; e_series_name : string;
  e_class_id : string; e_class_name : string; e_symbol : string;
  e_form : string; e_filing_date : string; e_accession : string;
  e_primary_link : string; e_txt_url : string;
  e_registrant : string; e_cik : string; e_extracted_from : string;
  e_effective : string; e_delaying : string }.

(** One filing of the prospectus base, after [safe_str]. *)
Record filing := mkF {
  f_form : string; f_filing_date : string; f_cik : string; f_registrant : string;
  f_accession : string; f_primary_link : string; f_txt_url : string }.

(** A row of parse_sgml_series_classes (sgml.py is not in the source tree;
    an absent key is taken as [""]). *)
Record sgml_row := mkS {
  s_series_id : string; s_series_name : string; s_class_id : string;
  s_class_name : string; s_symbol : string; s_extracted_from : string }.

(** What step 3 has computed for a filing by line 163: the SGML rows, the
    rows returned by extract_from_primary_html / extract_from_primary_pdf
    (bound to [_] at lines 145 and 155), the plain texts collected for the
    ticker search, the effective date and the delaying flag. *)
Record filing_view := mkV {
  v_sgml : list sgml_row;
  v_html_rows : list Ticker.body_row;
  v_pdf_rows : list Ticker.body_row;
  v_texts : list string;
  v_eff : string;
  v_delaying : bool }.

Section PerFiling.

(** _extract_ticker_for_series_from_texts (a regex search over the texts):
    (ticker, strategy tag), ("", "") when nothing validates. *)
Variable ticker_for_series : string -> list string -> string * string.

Definition delaying_str (b : bool) : string := if b then "Y" else "".

(** Lines 164-179: an SGML row enriched with a ticker and the filing fields. *)
Definition enrich (f : filing) (v : filing_view) (base : sgml_row) : erow :=
  let nm := if negb (String.eqb base.(s_class_name) "") then base.(s_class_name)
            else base.(s_series_name) in
  let '(tkr, tkr_src) := ticker_for_series nm v.(v_texts) in
  let sym := if negb (String.eqb tkr "") then tkr else base.(s_symbol) in
  let from :=
    if negb (String.eqb tkr "") then
      let src := if negb (String.eqb base.(s_extracted_from) "") then base.(s_extracted_from)
                 else "SGML-TXT" in
      String.append src (String "|" tkr_src)
    else base.(s_extracted_from) in
  {| e_series_id := base.(s_series_id); e_series_name := base.(s_series_name);
     e_class_id := base.(s_class_id); e_class_name := base.(s_class_name);
     e_symbol := sym; e_form := f.(f_form); e_filing_date := f.(f_filing_date);
     e_accession := f.(f_accession); e_primary_link := f.(f_primary_link);
     e_txt_url := f.(f_txt_url); e_registrant := f.(f_registrant); e_cik := f.(f_cik);
     e_extracted_from := from; e_effective := v.(v_eff);
     e_delaying := delaying_str v.(v_delaying) |}.

(** Lines 181-189: the placeholder row of a filing without SGML rows. *)
Definition none_row (f : filing) (v : filing_view) : erow :=
  {| e_series_id := ""; e_series_name := ""; e_class_id := ""; e_class_name := "";
     e_symbol := ""; e_form := f.(f_form); e_filing_date := f.(f_filing_date);
     e_accession := f.(f_accession); e_primary_link := f.(f_primary_link);
     e_txt_url := f.(f_txt_url); e_registrant := f.(f_registrant); e_cik := f.(f_cik);
     e_extracted_from := "NONE"; e_effective := v.(v_eff);
     e_delaying := delaying_str v.(v_delaying) |}.

(** The body of the loop of lines 103-191 for one filing. *)
Definition extract_filing (f : filing) (v : filing_view) : list erow :=
  if String.eqb (Py.upper (Py.strip f.(f_form))) "EFFECT" then []
  else match v.(v_sgml) with
       | [] => [none_row f v]
       | rows => map (enrich f v) rows
       end.

End PerFiling.

(** [__key] of line 202. *)
Definition str_key (r : erow) : string :=
  String.append r.(e_accession) (String "|" (String.append r.(e_class_id)
    (String "|" (String.append r.(e_class_name) (String "|" r.(e_symbol)))))).

(** The key columns of append_dedupe_csv. *)
Definition tuple_key (r : erow) : string * string * string * string :=
  (r.(e_accession), r.(e_class_id), r.(e_class_name), r.(e_symbol)).

(** Modelled from the spec: csvio.append_dedupe_csv (csvio.py is not in the
    source tree).  "a corrected extraction is a new row with the same key
    that supersedes the old one (last-write-wins on that key, ordered by
    accession processing order)": the new rows are appended to the stored
    ones and, per key, the last written row is kept. *)
Definition append_dedupe_csv (stored new : list erow) : list erow :=
  dedup_last tuple_key (stored ++ new).

(** step3_extract_for_trust on the stored row set [acc] and the filings of
    the prospectus base: [extract] is the per-filing extraction (fetches are
    served from the content cache, so it is a function of the filing). *)
Definition step3 (extract : filing -> list erow) (acc : list erow) (fs : list filing)
  : list erow :=
  let rows_out := flat_map extract fs in
  match rows_out with
  | [] => acc
  | _ => append_dedupe_csv acc (dedup_last str_key rows_out)
  end.

End Extract.

(* ------------------------------------------------------------------ *)
(** ** step5.py: the name history *)

Module History.

(** A row of the extraction CSV as step 5 reads it. [h_prosp_name] is the
    "Prospectus Name" column ([Some ""] when the column is absent). *)
Record hrow := mkH {
  h_series_id : cell; h_class_name : cell; h_series_name : cell;
  h_filing_date : cell; h_form : cell; h_accession : cell; h_prosp_name : cell }.

(** A value of [seen_names]; [n_source] is the optional "source" key. *)
Record info := mkI {
  n_name : string; n_first_date : string; n_last_date : string;
  n_first_form : string; n_first_acc : string; n_source : option string }.

(** [seen_names]: a dict, i.e. an association list in insertion order. *)
Definition seen := list (string * info).

Definition mem (k : string) (s : seen) : bool := existsb (fun p => String.eqb p.1 k) s.

Definition set_last (k : string) (d : string) (s : seen) : seen :=
  map (fun p => if String.eqb p.1 k
                then (p.1, {| n_name := p.2.(n_name); n_first_date := p.2.(n_first_date);
                              n_last_date := d; n_first_form := p.2.(n_first_form);
                              n_first_acc := p.2.(n_first_acc); n_source := p.2.(n_source) |})
                else p) s.

(** Lines 50-63. *)
Definition row_name (r : hrow) : string :=
  let c := fillna r.(h_class_name) in
  if String.eqb c "" then fillna r.(h_series_name) else c.
Definition row_name_key (r : hrow) : string := Py.casefold (clean_fund_name_for_rollup (row_name r)).
Definition row_prosp_raw (r : hrow) : string := fillna r.(h_prosp_name).
Definition row_prosp_clean (r : hrow) : string := clean_fund_name_for_rollup (row_prosp_raw r).

(** The body of the loop of lines 77-111. *)
Definition walk_row (s : seen) (r : hrow) : seen :=
  let name_key := row_name_key r in
  let name_raw := row_name r in
  let filing_date := pystr r.(h_filing_date) in
  let form := pystr r.(h_form) in
  let accession := pystr r.(h_accession) in
  let s1 :=
    if negb (String.eqb name_key "") && negb (String.eqb name_raw "") then
      if negb (mem name_key s)
      then s ++ [(name_key, mkI name_raw filing_date filing_date form accession None)]
      else set_last name_key filing_date s
    else s in
  let prosp_name := row_prosp_clean r in
  let prosp_raw := row_prosp_raw r in
  if negb (String.eqb prosp_name "") && negb (String.eqb prosp_raw "") then
    let prosp_key := Py.casefold prosp_name in
    if negb (String.eqb prosp_key "") && negb (mem prosp_key s1)
    then s1 ++ [(prosp_key, mkI prosp_raw filing_date filing_date form accession (Some "PROSPECTUS"))]
    else if mem prosp_key s1 then set_last prosp_key filing_date s1
    else s1
  else s1.

Definition walk (g : list hrow) : seen := fold_left walk_row g [].

(** [max(xs, key=f)]: the first element with the greatest key. *)
Definition py_max_by {A} (f : A -> string) (l : list A) : option A :=
  match l with
  | [] => None
  | x :: xs => Some (fold_left (fun cur y => if Py.lt (f cur) (f y) then y else cur) xs x)
  end.

(** One row of the Name History CSV. *)
Record hist := mkHist {
  o_series_id : string; o_name : string; o_name_clean : string;
  o_first_seen : string; o_last_seen : string; o_is_current : string;
  o_source_form : string; o_source_acc : string; o_name_source : string }.

Definition out_row (sid : string) (latest_key : string) (p : string * info) : hist :=
  let is_current := if String.eqb p.1 latest_key then "Y" else "" in
  {| o_series_id := sid; o_name := p.2.(n_name);
     o_name_clean := clean_fund_name_for_rollup p.2.(n_name);
     o_first_seen := p.2.(n_first_date);
     o_last_seen := if String.eqb is_current "" then p.2.(n_last_date) else "";
     o_is_current := is_current;
     o_source_form := p.2.(n_first_form); o_source_acc := p.2.(n_first_acc);
     o_name_source := match p.2.(n_source) with Some x => x | None => "SGML" end |}.

(** Lines 72-131 for one series, [g] being the group in the order the sort
    left it. *)
Definition history_for_series (sid : string) (g : list hrow) : list hist :=
  let s := walk g in
  match py_max_by (fun p => p.2.(n_last_date)) s with
  | None => []
  | Some (latest_key, _) => map (out_row sid latest_key) s
  end.

(** [sort_values("_fdt")]; pandas' default quicksort leaves ties in an
    unspecified order, of which the stable order is one. *)
Definition sort_rows (rows : list hrow) : list hrow :=
  stable_sort (fun a b => Rollup.fdt_le (Date.to_datetime a.(h_filing_date))
                                        (Date.to_datetime b.(h_filing_date))) rows.

Fixpoint insert_key (k : string) (l : list string) : list string :=
  match l with
  | [] => [k]
  | k' :: l' =>
      if String.eqb k k' then l else if Py.lt k k' then k :: l else k' :: insert_key k l'
  end.

(** The non-NaN group keys of [groupby("Series ID", dropna=False)], sorted;
    the NaN group and [""] are skipped by line 69. *)
Definition series_keys (rows : list hrow) : list string :=
  List.filter (fun k => negb (String.eqb k ""))
    (fold_right (fun r acc => match r.(h_series_id) with
                              | Some k => insert_key k acc | None => acc end) [] rows).

Definition hist_le (a b : hist) : bool :=
  if negb (String.eqb a.(o_series_id) b.(o_series_id)) then Py.lt a.(o_series_id) b.(o_series_id)
  else String.leb a.(o_first_seen) b.(o_first_seen).

(** step5_name_history_for_trust (the table it writes). *)
Definition step5 (rows : list hrow) : list hist :=
  let df := sort_rows rows in
  stable_sort hist_le
    (flat_map (fun k => history_for_series k
                 (sort_rows (List.filter (fun r => bool_decide (r.(h_series_id) = Some k)) df)))
              (series_keys df)).

End History.

(* ------------------------------------------------------------------ *)
(** ** async_client.py: the 429 retry and the submissions batch *)

Module Fetch.

(** An HTTP response: status, the text of its [Retry-After] header (if
    present) and the body. *)
Record response := mkR { r_status : Z; r_retry_after : option string; r_body : string }.

(** The outcome of [_fetch_url]: the text, the exception [raise_for_status]
    throws, or the [ValueError] of [int()] on a [Retry-After] header that is
    not an integer. *)
Inductive outcome := Ok (body : string) | HttpError (status : Z) | ValueError.

(** What the client does on the wire. *)
Inductive event := ERequest | ESleep (seconds : Z).

(** *** [int(s)] on a [str] of ASCII characters, base 10 *)

(** C's [isspace], the blanks [int] skips around the number. *)
Definition c_space (c : ascii) : bool :=
  ((9 <=? Py.code c)%nat && (Py.code c <=? 13)%nat) || (Py.code c =? 32)%nat.

Fixpoint lstrip_c (s : string) : string :=
  match s with
  | EmptyString => EmptyString
  | String c s' => if c_space c then lstrip_c s' else s
  end.

Definition strip_c (s : string) : string :=
  Py.srev (lstrip_c (Py.srev (lstrip_c s) EmptyString)) EmptyString.

(** The digits of the number: decimal digits, an underscore allowed only
    between two digits. *)
Fixpoint int_digits (s : string) (after_digit : bool) (acc : N) : option N :=
  match s with
  | EmptyString => if after_digit then Some acc else None
  | String c s' =>
      if Py.is_digit_c c then int_digits s' true (10 * acc + N.of_nat (Py.code c - 48))%N
      else if Ascii.eqb c "_" && after_digit then int_digits s' false acc
      else None
  end.

(** [sys.get_int_max_str_digits()]: [int] raises on a string of more
    digits. *)
Definition int_max_str_digits : nat := 4300.

Definition int_body (t : string) : option N :=
  if (int_max_str_digits <? String.length (Py.sfilter Py.is_digit_c t))%nat then None
  else int_digits t false 0.

(** [int(s)]: [None] when it raises [ValueError]. *)
Definition py_int (s : string) : option Z :=
  match strip_c s with
  | EmptyString => None
  | String c t =>
      if Ascii.eqb c "-" then option_map (fun n => Z.opp (Z.of_N n)) (int_body t)
      else if Ascii.eqb c "+" then option_map Z.of_N (int_body t)
      else option_map Z.of_N (int_body (String c t))
  end.

(** *** [_fetch_url] *)

(** [int(resp.headers.get("Retry-After", 10))]. *)
Definition retry_after (r : response) : option Z :=
  match r.(r_retry_after) with None => Some 10 | Some h => py_int h end.

(** [_fetch_url] against a server whose [n]-th answer is [server n], called
    when [permits] permits of [self.sem] are free and no other coroutine
    takes or releases one meanwhile.  Each call keeps the permit it takes in
    [async with self.sem] through the recursive retry; with no permit left,
    the call waits on the semaphore forever ([None]).  [async with
    self.limiter] (a leaky bucket that refills with time) only delays the
    requests, and the session's connector (100 connections) is never the
    bound for a default client.  [raise_for_status] raises for every status from 400 on. *)
Fixpoint fetch_url (permits : nat) (server : nat -> response) (n : nat)
  : option outcome * list event :=
  match permits with
  | O => (None, [])
  | S permits' =>
      let resp := server n in
      if Z.eqb resp.(r_status) 429 then
        match retry_after resp with
        | None => (Some ValueError, [ERequest])
        | Some s =>
            let '(res, tr) := fetch_url permits' server (S n) in
            (res, ERequest :: ESleep s :: tr)
        end
      else if 400 <=? resp.(r_status)
      then (Some (HttpError resp.(r_status)), [ERequest])
      else (Some (Ok resp.(r_body)), [ERequest])
  end.

(** *** [f"{int(str(cik)):010d}"] *)

(** The decimal digits of [n] before [acc]; [fuel] bounds their number. *)
Fixpoint decimal (fuel : nat) (n : N) (acc : string) : string :=
  match fuel with
  | O => acc
  | S fuel' =>
      let acc' := String (ascii_of_nat (N.to_nat (n mod 10) + 48)) acc in
      if (n <? 10)%N then acc' else decimal fuel' (n / 10)%N acc'
  end.

(** [str(n)] for [n >= 0] ([n] has fewer decimal digits than bits, plus one). *)
Definition digits_of (n : N) : string := decimal (S (N.to_nat (N.size n))) n "".

Fixpoint zeros (k : nat) : string :=
  match k with O => EmptyString | S k' => String "0" (zeros k') end.

(** Zeros on the left up to [w] characters. *)
Definition zfill (w : nat) (s : string) : string :=
  String.append (zeros (w - String.length s)) s.

(** [format(v, "010d")]: the sign, then zeros up to ten characters in all. *)
Definition format_010d (v : Z) : string :=
  if v <? 0 then String "-" (zfill 9 (digits_of (Z.to_N (- v))))
  else zfill 10 (digits_of (Z.to_N v)).

(** The padded CIK of a [str] identifier. *)
Definition pad_cik (cik : string) : option string := option_map format_010d (py_int cik).

Definition submissions_url (padded : string) : string :=
  String.append "https://data.sec.gov/submissions/CIK" (String.append padded ".json").

(** The network answer to one [_fetch_url] task, awaited to its end: its
    text, or an exception.  (A task that never ends, as [fetch_url] can wait
    on the semaphore forever, keeps the batch from returning at all.) *)
Inductive net_result := NOk (content : string) | NFail.

Section Batch.

(** [int(str(cik))] ([None]: it raises).  [py_int] is its definition on
    ASCII text; the batch is modelled for any such conversion, which also
    covers what [int] makes of other text (such as non-ASCII digits). *)
Variable int_of : string -> option Z.
(** [json.loads(content)] succeeds. *)
Variable json_ok : string -> bool.
(** The submissions cache file of a padded CIK is younger than the
    freshness window. *)
Variable fresh : string -> bool.
(** The outcome of the fetch task of a URL. *)
Variable net : string -> net_result.

(** Line 196. *)
Definition cik_padded (cik : string) : option string := option_map format_010d (int_of cik).

(** The submissions cache: padded CIK to file content. *)
Definition cache := gmap string string.

Definition read_submissions_cache (c : cache) (padded : string) : option string :=
  if fresh padded then c !! padded else None.

(** [cik_map]: a dict from [str(cik)] to the padded CIK, in first-insertion
    order; [None] when some [int(...)] raises. *)
Fixpoint build_cik_map (ciks : list string) (m : list (string * string))
  : option (list (string * string)) :=
  match ciks with
  | [] => Some m
  | cik :: rest =>
      match cik_padded cik with
      | None => None
      | Some p =>
          let m' := if existsb (fun q => String.eqb q.1 cik) m then m else m ++ [(cik, p)] in
          build_cik_map rest m'
      end
  end.

(** The per-key results, the cache and the log of cache writes
    (identifier, padded CIK, content). *)
Record batch_state := mkB {
  b_results : gmap string (option string);
  b_cache : cache;
  b_writes : list (string * string * string) }.

(** Lines 204-209: split into cache hits and the URLs to fetch. *)
Definition split_cached (c : cache) (m : list (string * string))
  : gmap string (option string) * list (string * string) :=
  fold_left (fun acc q =>
      let '(res, to_fetch) := acc in
      match read_submissions_cache c q.2 with
      | Some cached => (<[q.1 := Some cached]> res, to_fetch)
      | None => (res, to_fetch ++ [q])
      end) m (∅, []).

(** Lines 227-237: one awaited task. *)
Definition await_one (st : batch_state) (q : string * string) : batch_state :=
  let '(cik, padded) := q in
  match net (submissions_url padded) with
  | NOk content =>
      if json_ok content
      then {| b_results := <[cik := Some content]> st.(b_results);
              b_cache := <[padded := content]> st.(b_cache);
              b_writes := st.(b_writes) ++ [(cik, padded, content)] |}
      else {| b_results := <[cik := None]> st.(b_results);
              b_cache := st.(b_cache); b_writes := st.(b_writes) |}
  | NFail =>
      {| b_results := <[cik := None]> st.(b_results);
         b_cache := st.(b_cache); b_writes := st.(b_writes) |}
  end.

(** fetch_submissions_batch: [None] when building [cik_map] raises. *)
Definition fetch_submissions_batch (c : cache) (ciks : list string) : option batch_state :=
  match build_cik_map ciks [] with
  | None => None
  | Some m =>
      let '(res, to_fetch) := split_cached c m in
      match to_fetch with
      | [] => Some (mkB res c [])
      | _ => Some (fold_left await_one to_fetch (mkB res c []))
      end
  end.

End Batch.

End Fetch.

(* ------------------------------------------------------------------ *)
(** ** utils.is_html_doc and utils.is_pdf_doc *)

Module Utils.

(** [s.split("?", 1)[0]]. *)
Fixpoint before_q (s : string) : string :=
  match s with
  | EmptyString => EmptyString
  | String c s' => if Ascii.eqb c "?" then EmptyString else String c (before_q s')
  end.

(** [str.lower()]. *)
Definition lower (s : string) : string := Py.smap Py.lower_c s.

(** [str.endswith(suffix)]. *)
Definition endswith (s suffix : string) : bool :=
  let n := String.length s in
  let k := String.length suffix in
  (k <=? n)%nat && String.eqb (substring (n - k) k s) suffix.

(** [(url or "").split("?", 1)[0].strip().lower()]. *)
Definition doc_key (url : string) : string := lower (Py.strip (before_q url)).

Definition is_html_doc (url : string) : bool :=
  let u := doc_key url in endswith u ".htm" || endswith u ".html".

Definition is_pdf_doc (url : string) : bool := endswith (doc_key url) ".pdf".

End Utils.

(* ------------------------------------------------------------------ *)
(** ** async_client: [fetch] and the web cache *)

Module Web.

(** [Path.read_text]: universal newlines mode reads "\r\n" and a lone "\r"
    as "\n" ([write_text] on POSIX writes the text as it is). *)
Fixpoint universal_newlines (s : string) : string :=
  match s with
  | EmptyString => EmptyString
  | String c s' =>
      if Ascii.eqb c "013" then
        match s' with
        | String c2 s'' =>
            if Ascii.eqb c2 "010" then String "010" (universal_newlines s'')
            else String "010" (universal_newlines s')
        | EmptyString => String "010" EmptyString
        end
      else String c (universal_newlines s')
  end.

Section WebCache.

(** [_hash_url]: the SHA-256 hex digest naming the cache file of a URL. *)
Variable hash_url : string -> string.

(** The files of the web/ cache folder: name to content. *)
Definition web_cache := gmap string string.

(** [_read_web_cache]. *)
Definition read_web_cache (c : web_cache) (url : string) : option string :=
  option_map universal_newlines (c !! hash_url url).

(** [_write_web_cache]. *)
Definition write_web_cache (c : web_cache) (url content : string) : web_cache :=
  <[hash_url url := content]> c.

(** [fetch(session, url)] against a server whose [n]-th answer is
    [server n], with [permits] free permits of the semaphore: the outcome,
    the requests and sleeps, and the cache after. *)
Definition fetch (permits : nat) (server : nat -> Fetch.response) (n : nat)
    (c : web_cache) (url : string) : option Fetch.outcome * list Fetch.event * web_cache :=
  match read_web_cache c url with
  | Some cached => (Some (Fetch.Ok cached), [], c)
  | None =>
      let '(res, tr) := Fetch.fetch_url permits server n in
      match res with
      | Some (Fetch.Ok content) => (Some (Fetch.Ok content), tr, write_web_cache c url content)
      | _ => (res, tr, c)
      end
  end.

End WebCache.

End Web.

(* ------------------------------------------------------------------ *)
(** ** step3._extract_effectiveness_from_hdr *)

Module Hdr.

(** [p] (upper case) at the start of [s] under [re.IGNORECASE]: the rest. *)
Fixpoint match_ci (p s : string) : option string :=
  match p with
  | EmptyString => Some s
  | String pc p' =>
      match s with
      | EmptyString => None
      | String c s' => if Ascii.eqb (Py.upper_c c) pc then match_ci p' s' else None
      end
  end.

(** [(\d{8})]: eight digits at the start of [s]. *)
Definition digits8 (s : string) : option string :=
  let d := substring 0 8 s in
  if (8 <=? String.length s)%nat && Py.sall Py.is_digit_c d then Some d else None.

(** [EFFECTIVENESS\s+DATE:\s*(\d{8})] anchored at the start of [s]: group 1.
    [\s+] and [\s*] take the whole whitespace run, as the next item of the
    pattern is never whitespace. *)
Definition match_at (s : string) : option string :=
  match match_ci "EFFECTIVENESS" s with
  | None => None
  | Some r1 =>
      let r2 := Py.lstrip r1 in
      if (String.length r2 <? String.length r1)%nat then
        match match_ci "DATE:" r2 with
        | None => None
        | Some r3 => digits8 (Py.lstrip r3)
        end
      else None
  end.

(** [re.search]: the leftmost match. *)
Fixpoint search (s : string) : option string :=
  match match_at s with
  | Some d => Some d
  | None => match s with EmptyString => None | String _ s' => search s' end
  end.

(** [pd.to_datetime(s, format="%Y%m%d")] on eight digits; a field out of
    range or a day outside pandas' range raises ([None]). *)
Definition to_datetime_ymd (d : string) : option Z :=
  let iso := String.append (substring 0 4 d)
               (String "-" (String.append (substring 4 2 d) (String "-" (substring 6 2 d)))) in
  match Date.parse_iso iso with
  | Some z => if (Date.ts_first_day <=? z) && (z <=? Date.ts_last_day) then Some z else None
  | None => None
  end.

(** [_extract_effectiveness_from_hdr(txt)]. *)
Definition extract_effectiveness_from_hdr (txt : string) : string :=
  match search txt with
  | Some d => match to_datetime_ymd d with Some z => Date.format_iso z | None => "" end
  | None => ""
  end.

End Hdr.

(* ------------------------------------------------------------------ *)
(** ** Sample inputs *)

Module Samples.
Import Rollup.

(** A row of the extraction CSV, every field given as the text of its CSV
    field (an empty field reads back as NaN). *)
Definition xr (cid cname sym form fdate eff link : string) : xrow :=
  mkX None None (read_cell cid) (read_cell cname) (read_cell sym) (read_cell form)
      (read_cell fdate) (Some "0001") (read_cell link) (Some "Sample Trust") (Some "1234")
      (read_cell eff) (Some "").

(** Two class ids of one fund, both named "Alpha Fund" / "ALP". *)
Definition a1 := xr "C1" "Alpha Fund" "ALP" "485BPOS" "2025-06-01" "" "l1".
Definition a2 := xr "C2" "Alpha Fund" "ALP" "485BPOS" "2024-01-01" "" "l2".

(** Two rows of class C1 filed on the same day under different names. *)
Definition b1 := xr "C1" "Alpha Fund" "ALP" "485BPOS" "2024-05-01" "" "l1".
Definition b2 := xr "C1" "Beta Fund" "ALP" "485BPOS" "2024-05-01" "" "l2".

(** A group with a late 485A row and an earlier 485B row. *)
Definition p_b := xr "C7" "Gamma Fund" "GAM" "485BPOS" "2024-02-01" "2024-02-15" "lb".
Definition p_a := xr "C7" "Gamma Fund" "GAM" "485APOS" "2024-09-01" "" "la".

(** A 485A-only row filed 2025-01-01 whose Effective Date field is empty. *)
Definition c1 := xr "C9" "Delta Fund" "" "485APOS" "2025-01-01" "" "l1".


(** A filing without SGML rows, and a view where the HTML table of its
    primary document yielded the row ("Alpha Fund", "ALPH"). *)
Definition f1 : Extract.filing :=
  Extract.mkF "485APOS" "2025-01-01" "1234" "Sample Trust" "0001-25-000001"
    "https://example.invalid/a.htm" "https://example.invalid/a.txt".
Definition v_html : Extract.filing_view :=
  Extract.mkV [] [Ticker.mkBR "Alpha Fund" "ALPH" "PRIMARY-HTML"] [] ["Alpha Fund ALPH"] "" false.

(** The ticker search finding nothing. *)
Definition no_ticker (_ : string) (_ : list string) : string * string := ("", "").

(** The per-filing extraction with the view above for every filing. *)
Definition extract_sample (f : Extract.filing) : list Extract.erow :=
  Extract.extract_filing no_ticker f v_html.

(** A server answering 429 (Retry-After: 1) twice, then 200 with body "x". *)
Definition server_429_twice (n : nat) : Fetch.response :=
  if (n <? 2)%nat then Fetch.mkR 429 (Some "1") "" else Fetch.mkR 200 None "x".

(** A server that always answers 429 without a Retry-After header. *)
Definition server_always_429 (_ : nat) : Fetch.response := Fetch.mkR 429 None "".

(** A row of the extraction CSV as step 5 reads it (no "Prospectus Name"
    column). *)
Definition hr (sid cname fdate form acc : string) : History.hrow :=
  History.mkH (read_cell sid) (read_cell cname) (read_cell cname) (read_cell fdate)
    (read_cell form) (read_cell acc) (Some "").

(** Series S1 named "Alpha Fund" from 2024-01-01 to 2024-06-01, then
    "Beta Fund" from 2024-07-01. *)
Definition alpha_beta : list History.hrow :=
  [hr "S1" "Beta Fund" "2024-07-01" "485BPOS" "0001-24-000003";
   hr "S1" "Alpha Fund" "2024-01-01" "485APOS" "0001-24-000001";
   hr "S1" "Alpha Fund" "2024-06-01" "485BPOS" "0001-24-000002"].

(** JSON validity of a response body, for the batch samples. *)
Definition json_sample (content : string) : bool := String.eqb content "{}".
Definition fresh_none (_ : string) : bool := false.

(** The network: CIK 1 answers an HTML error page, CIK 2 a JSON document. *)
Definition net_sample (url : string) : Fetch.net_result :=
  if String.eqb url (Fetch.submissions_url "0000000001") then Fetch.NOk "<html>busy</html>"
  else Fetch.NOk "{}".

End Samples.

(* ================================================================== *)
(** * Properties *)

(* ------------------------------------------------------------------ *)
(** ** Sorting lemmas *)

Section StableSort.
Context {A : Type} (le : A -> A -> bool).

Lemma stable_insert_perm x l : Permutation (stable_insert le x l) (x :: l).
Proof.
  induction l as [|y l IH]; simpl; [reflexivity|].
  destruct (le x y); [reflexivity|].
  etransitivity; [apply perm_skip, IH|apply perm_swap].
Qed.

Lemma stable_sort_perm l : Permutation (stable_sort le l) l.
Proof.
  induction l as [|x l IH]; simpl; [reflexivity|].
  rewrite stable_insert_perm. now apply perm_skip.
Qed.

Hypothesis le_total : forall a b, le a b = false -> le b a = true.
Hypothesis le_trans : forall a b c, le a b = true -> le b c = true -> le a c = true.

Lemma stable_insert_sorted x l :
  StronglySorted (fun a b => le a b = true) l ->
  StronglySorted (fun a b => le a b = true) (stable_insert le x l).
Proof.
  induction l as [|y l IH]; intros Hs; simpl.
  - repeat constructor.
  - inversion Hs as [|? ? Hs' Hall]; subst.
    destruct (le x y) eqn:Hxy.
    + constructor; [exact Hs|]. constructor; [exact Hxy|].
      eapply Forall_impl; [exact Hall|]. intros z Hz. eauto.
    + constructor; [now apply IH|].
      apply List.Forall_forall. intros z Hz.
      apply (Permutation_in _ (stable_insert_perm x l)) in Hz.
      destruct Hz as [<-|Hz]; [now apply le_total|].
      now apply (proj1 (List.Forall_forall _ _) Hall).
Qed.

Lemma stable_sort_sorted l : StronglySorted (fun a b => le a b = true) (stable_sort le l).
Proof.
  induction l; simpl; [constructor|]. now apply stable_insert_sorted.
Qed.

End StableSort.

Section SortUnique.
Context {A K : Type} (key : A -> K) (lek : K -> K -> bool).
Hypothesis lek_antisym : forall x y, lek x y = true -> lek y x = true -> x = y.

(** Two sorted arrangements of the same rows coincide when no two rows share
    a sort key. *)
Lemma sorted_unique s1 s2 :
  StronglySorted (fun a b => lek (key a) (key b) = true) s1 ->
  StronglySorted (fun a b => lek (key a) (key b) = true) s2 ->
  Permutation s1 s2 -> NoDup (map key s1) -> s1 = s2.
Proof.
  revert s2. induction s1 as [|a l IH]; intros s2 H1 H2 HP HN.
  - now apply Permutation_nil in HP.
  - destruct s2 as [|b m].
    + symmetry in HP. now apply Permutation_nil in HP.
    + inversion H1 as [|? ? H1' Hall1]; subst.
      inversion H2 as [|? ? H2' Hall2]; subst.
      simpl in HN. inversion HN as [|? ? Hnotin HN']; subst.
      assert (Hb : In b (a :: l)) by (apply (Permutation_in _ (Permutation_sym HP)); now left).
      destruct Hb as [->|Hbl].
      * f_equal. apply IH; auto. eapply Permutation_cons_inv; eauto.
      * exfalso. apply Hnotin.
        assert (Hab : lek (key a) (key b) = true)
          by (now apply (proj1 (List.Forall_forall _ _) Hall1)).
        assert (Ha : In a (b :: m)) by (apply (Permutation_in _ HP); now left).
        destruct Ha as [->|Ham].
        -- apply list_elem_of_In. now apply in_map.
        -- assert (Hba : lek (key b) (key a) = true)
             by (now apply (proj1 (List.Forall_forall _ _) Hall2)).
           rewrite (lek_antisym _ _ Hab Hba). apply list_elem_of_In. now apply in_map.
Qed.

End SortUnique.

Lemma fdt_le_total a b : Rollup.fdt_le a b = false -> Rollup.fdt_le b a = true.
Proof. destruct a, b; simpl; try easy. intros H. apply Z.leb_gt in H. apply Z.leb_le. lia. Qed.

Lemma fdt_le_trans a b c :
  Rollup.fdt_le a b = true -> Rollup.fdt_le b c = true -> Rollup.fdt_le a c = true.
Proof.
  destruct a, b, c; simpl; try easy. rewrite !Z.leb_le. lia.
Qed.

Lemma fdt_le_antisym a b : Rollup.fdt_le a b = true -> Rollup.fdt_le b a = true -> a = b.
Proof.
  destruct a, b; simpl; try easy. rewrite !Z.leb_le. intros. f_equal. lia.
Qed.

(** The stable sort of [_pick_latest] gives one arrangement for all orders of
    a group whose filing dates are pairwise distinct. *)
Lemma sort_fdt_perm_eq g1 g2 :
  Permutation g1 g2 -> NoDup (map Rollup.fdt g1) -> Rollup.sort_fdt g1 = Rollup.sort_fdt g2.
Proof.
  intros HP HN. unfold Rollup.sort_fdt.
  apply (sorted_unique Rollup.fdt Rollup.fdt_le fdt_le_antisym).
  - apply stable_sort_sorted; intros; eauto using fdt_le_total, fdt_le_trans.
  - apply stable_sort_sorted; intros; eauto using fdt_le_total, fdt_le_trans.
  - rewrite !stable_sort_perm. exact HP.
  - rewrite (Permutation_map Rollup.fdt (stable_sort_perm _ g1)). exact HN.
Qed.

Lemma perm_list_filter {A} (p : A -> bool) l1 l2 :
  Permutation l1 l2 -> Permutation (List.filter p l1) (List.filter p l2).
Proof.
  induction 1; simpl.
  - constructor.
  - destruct (p x); auto.
  - destruct (p x), (p y); auto using perm_swap.
  - etransitivity; eauto.
Qed.

(* ------------------------------------------------------------------ *)
(** ** Python's string order *)

Lemma str_compare_refl a : String.compare a a = Eq.
Proof.
  pose proof (String.compare_antisym a a) as H.
  destruct (String.compare a a); simpl in H; congruence.
Qed.

Lemma py_lt_iff a b : Py.lt a b = true <-> String.leb a b = true /\ a <> b.
Proof.
  unfold Py.lt, String.ltb, String.leb.
  destruct (String.compare a b) eqn:E; split; intros H; try easy.
  - destruct H as [_ H]. apply String.compare_eq_iff in E. contradiction.
  - split; [reflexivity|]. intros ->. rewrite str_compare_refl in E. discriminate.
Qed.

Lemma str_leb_trans a b c :
  String.leb a b = true -> String.leb b c = true -> String.leb a c = true.
Proof.
  intros H1 H2. apply Is_true_true.
  change (String.le a c).
  transitivity b; apply Is_true_true; assumption.
Qed.

Lemma py_lt_irrefl a : Py.lt a a = false.
Proof. unfold Py.lt, String.ltb. now rewrite str_compare_refl. Qed.

Lemma py_lt_trans a b c : Py.lt a b = true -> Py.lt b c = true -> Py.lt a c = true.
Proof.
  rewrite !py_lt_iff. intros [H1 N1] [H2 N2]. split; [eauto using str_leb_trans|].
  intros ->. apply N1. now apply String.leb_antisym.
Qed.

Lemma py_lt_total a b : a <> b -> Py.lt a b = false -> Py.lt b a = true.
Proof.
  unfold Py.lt, String.ltb. rewrite (String.compare_antisym b a).
  destruct (String.compare a b) eqn:E; simpl; try easy.
  intros N _. apply String.compare_eq_iff in E. contradiction.
Qed.

Definition str_sorted := StronglySorted (fun a b => Py.lt a b = true).

Lemma str_sorted_unique s1 s2 :
  str_sorted s1 -> str_sorted s2 -> (forall x, In x s1 <-> In x s2) -> s1 = s2.
Proof.
  revert s2. induction s1 as [|a l IH]; intros [|b m] H1 H2 Hin.
  - reflexivity.
  - exfalso. apply (proj2 (Hin b)). now left.
  - exfalso. apply (proj1 (Hin a)). now left.
  - inversion H1 as [|? ? H1' A1]; inversion H2 as [|? ? H2' A2]; subst.
    assert (Hab : a = b).
    { destruct (proj1 (Hin a) (or_introl eq_refl)) as [->|Ham]; [reflexivity|].
      destruct (proj2 (Hin b) (or_introl eq_refl)) as [->|Hbl]; [reflexivity|].
      pose proof (proj1 (List.Forall_forall _ _) A2 a Ham).
      pose proof (proj1 (List.Forall_forall _ _) A1 b Hbl).
      cbn beta in *.
      pose proof (py_lt_trans a b a ltac:(assumption) ltac:(assumption)) as Haa.
      now rewrite py_lt_irrefl in Haa. }
    subst b. f_equal. apply IH; auto. intros x; split; intros Hx.
    + destruct (proj1 (Hin x) (or_intror Hx)) as [->|Hx']; [|exact Hx'].
      pose proof (proj1 (List.Forall_forall _ _) A1 _ Hx) as Hxx. cbn beta in Hxx.
      now rewrite py_lt_irrefl in Hxx.
    + destruct (proj2 (Hin x) (or_intror Hx)) as [->|Hx']; [|exact Hx'].
      pose proof (proj1 (List.Forall_forall _ _) A2 _ Hx) as Hxx. cbn beta in Hxx.
      now rewrite py_lt_irrefl in Hxx.
Qed.

(* ------------------------------------------------------------------ *)
(** ** The group keys of the rollup *)

Lemma insert_uniq_in k l x : In x (Rollup.insert_uniq k l) <-> k = x \/ In x l.
Proof.
  induction l as [|a l IH]; simpl; [tauto|].
  destruct (String.eqb k a) eqn:E.
  - apply String.eqb_eq in E. subst. simpl. tauto.
  - destruct (Py.lt k a); simpl; [tauto|]. rewrite IH. tauto.
Qed.

Lemma insert_uniq_sorted k l : str_sorted l -> str_sorted (Rollup.insert_uniq k l).
Proof.
  induction l as [|a l IH]; intros H; simpl.
  - repeat constructor.
  - inversion H as [|? ? H' Ha]; subst.
    destruct (String.eqb k a) eqn:E; [exact H|].
    destruct (Py.lt k a) eqn:L.
    + constructor; [exact H|]. constructor; [exact L|].
      apply List.Forall_forall. intros x Hx.
      eapply py_lt_trans; [exact L|]. now apply (proj1 (List.Forall_forall _ _) Ha).
    + constructor; [now apply IH|].
      apply List.Forall_forall. intros x Hx. apply insert_uniq_in in Hx as [<-|Hx].
      * apply py_lt_total; [|exact L]. intros ->. now rewrite String.eqb_refl in E.
      * now apply (proj1 (List.Forall_forall _ _) Ha).
Qed.

Lemma group_keys_in l k : In k (Rollup.group_keys l) <-> In k (map Rollup.gkey l).
Proof.
  induction l as [|r l IH]; simpl; [tauto|]. rewrite insert_uniq_in, IH. intuition.
Qed.

Lemma group_keys_sorted l : str_sorted (Rollup.group_keys l).
Proof. induction l; simpl; [constructor|]. now apply insert_uniq_sorted. Qed.

Lemma group_keys_perm l1 l2 :
  Permutation l1 l2 -> Rollup.group_keys l1 = Rollup.group_keys l2.
Proof.
  intros HP. apply str_sorted_unique; try apply group_keys_sorted.
  intros k. rewrite !group_keys_in. split; apply Permutation_in.
  - now apply Permutation_map.
  - now apply Permutation_map, Permutation_sym.
Qed.

(* ------------------------------------------------------------------ *)
(** ** Rollup claims *)

Lemma last_opt_in {A} (l : list A) x : last_opt l = Some x -> In x l.
Proof.
  induction l as [|a l IH]; simpl; [discriminate|].
  destruct l as [|b l]; [intros [= ->]; now left|]. intros H. right. now apply IH.
Qed.

Lemma last_opt_some {A} (l : list A) x : In x l -> exists y, last_opt l = Some y.
Proof.
  revert x. induction l as [|a l IH]; intros x; simpl; [easy|].
  destruct l as [|b l]; [eauto|]. intros _. apply (IH b). now left.
Qed.

Lemma startswith_485B_not_A s :
  Py.startswith s "485B" = true -> Py.startswith s "485A" = false.
Proof.
  unfold Py.startswith. intros HB.
  destruct (String.prefix "485A" s) eqn:HA; [|reflexivity].
  apply String.prefix_correct in HB, HA. simpl in HB, HA. congruence.
Qed.

(** C1. In a fund group with a row whose (upper-cased) form starts with
    "485B" and a row whose form starts with "485A", the latest-prospectus
    record (form, filing date, link, source "485B", status "BPOS chosen") is
    that of the last "485B" row of the group sorted by filing date (stable),
    which is not a "485A" row, whatever the filing dates. *)
Theorem C1_bpos_precedence (g : list Rollup.xrow) (k : string)
  (HB : exists r, In r g /\ Rollup.is485B r = true)
  (HA : exists r, In r g /\ Rollup.is485A r = true) :
  exists row,
    last_opt (List.filter Rollup.is485B (Rollup.sort_fdt g)) = Some row /\
    In row g /\ Rollup.is485B row = true /\ Rollup.is485A row = false /\
    let fs := Rollup.pick_latest g k in
    fs.(Rollup.fs_lp_form) = row.(Rollup.x_form) /\
    fs.(Rollup.fs_lp_date) = row.(Rollup.x_filing_date) /\
    fs.(Rollup.fs_lp_link) = row.(Rollup.x_primary_link) /\
    fs.(Rollup.fs_lp_src) = "485B" /\
    fs.(Rollup.fs_status) = "BPOS chosen".
Proof.
  destruct HB as [r [Hr HrB]].
  assert (Hin : In r (List.filter Rollup.is485B (Rollup.sort_fdt g))).
  { apply filter_In. split; [|exact HrB].
    eapply Permutation_in; [symmetry; apply stable_sort_perm|exact Hr]. }
  destruct (last_opt_some _ _ Hin) as [row Hrow].
  pose proof (last_opt_in _ _ Hrow) as Hrow_in.
  apply filter_In in Hrow_in as [Hrow_sorted HrowB].
  exists row. split; [exact Hrow|]. split.
  { eapply Permutation_in; [apply stable_sort_perm|exact Hrow_sorted]. }
  split; [exact HrowB|]. split; [now apply startswith_485B_not_A|].
  unfold Rollup.pick_latest. rewrite Hrow. cbn.
  repeat split; reflexivity.
Qed.

Lemma C1_bpos_precedence_witness :
  exists row,
    last_opt (List.filter Rollup.is485B (Rollup.sort_fdt [Samples.p_b; Samples.p_a])) = Some row /\
    In row [Samples.p_b; Samples.p_a] /\ Rollup.is485B row = true /\ Rollup.is485A row = false /\
    let fs := Rollup.pick_latest [Samples.p_b; Samples.p_a] "C:C7" in
    fs.(Rollup.fs_lp_form) = row.(Rollup.x_form) /\
    fs.(Rollup.fs_lp_date) = row.(Rollup.x_filing_date) /\
    fs.(Rollup.fs_lp_link) = row.(Rollup.x_primary_link) /\
    fs.(Rollup.fs_lp_src) = "485B" /\
    fs.(Rollup.fs_status) = "BPOS chosen".
Proof.
  apply (C1_bpos_precedence [Samples.p_b; Samples.p_a] "C:C7").
  - exists Samples.p_b. split; [now left|vm_compute; reflexivity].
  - exists Samples.p_a. split; [right; now left|vm_compute; reflexivity].
Defined.

(** The group of C1's witness: the 485B row filed 2024-02-01 is chosen over
    the 485A row filed 2024-09-01. *)
Example C1_sample_choice :
  (Rollup.pick_latest [Samples.p_b; Samples.p_a] "C:C7").(Rollup.fs_lp_date) = Some "2024-02-01".
Proof. vm_compute. reflexivity. Qed.

(** C6 (counterexample). Two orderings of the same two rows of class C1,
    filed the same day under different names, give different Fund Status
    tables: the canonical name follows the input order. *)
Lemma C6_order_dependence :
  Permutation [Samples.b1; Samples.b2] [Samples.b2; Samples.b1] /\
  map Rollup.fs_canonical (Rollup.rollup [Samples.b1; Samples.b2]) = ["Beta Fund"] /\
  map Rollup.fs_canonical (Rollup.rollup [Samples.b2; Samples.b1]) = ["Alpha Fund"] /\
  Rollup.rollup [Samples.b1; Samples.b2] <> Rollup.rollup [Samples.b2; Samples.b1].
Proof.
  split; [apply perm_swap|]. split; [vm_compute; reflexivity|].
  split; [vm_compute; reflexivity|].
  intros H. apply (f_equal (map Rollup.fs_canonical)) in H. vm_compute in H. discriminate.
Qed.

(** C6 (amended). When every filing date is empty or a "YYYY-MM-DD" day
    within pandas' [Timestamp] range, and no two rows of a fund group have
    the same parsed filing date (NaT counting as one value), any two
    orderings of the extraction rows give the same Fund Status table. *)
Theorem C6_rollup_perm_invariant (l1 l2 : list Rollup.xrow)
  (HP : Permutation l1 l2)
  (HI : forall r, In r l1 ->
          match r.(Rollup.x_filing_date) with
          | None => True
          | Some s => exists z : Z, (Date.parse_iso s = Some z) /\
                                (Date.ts_first_day <= z <= Date.ts_last_day)
          end)
  (HD : forall k, NoDup (map Rollup.fdt (Rollup.group_of l1 k))) :
  Rollup.rollup l1 = Rollup.rollup l2.
Proof.
  unfold Rollup.rollup, Rollup.roll. rewrite (group_keys_perm _ _ HP).
  f_equal. apply map_ext. intros k. unfold Rollup.pick_latest.
  rewrite (sort_fdt_perm_eq (Rollup.group_of l1 k) (Rollup.group_of l2 k)).
  - reflexivity.
  - now apply perm_list_filter.
  - apply HD.
Qed.

Lemma NoDup_map_filter {A B} (f : A -> B) (p : A -> bool) l :
  NoDup (map f l) -> NoDup (map f (List.filter p l)).
Proof.
  induction l as [|a l IH]; simpl; [auto|]. intros H. inversion H as [|? ? Hn H']; subst.
  destruct (p a); simpl; [|auto]. constructor; [|auto].
  intros Hin. apply Hn. apply list_elem_of_In in Hin. apply list_elem_of_In.
  apply in_map_iff in Hin as (x & Hx & Hxin). apply filter_In in Hxin as [Hxin _].
  rewrite <- Hx. now apply in_map.
Qed.

Lemma C6_rollup_perm_invariant_witness :
  Permutation [Samples.p_b; Samples.p_a] [Samples.p_a; Samples.p_b] /\
  (forall r, In r [Samples.p_b; Samples.p_a] ->
     match r.(Rollup.x_filing_date) with
     | None => True
     | Some s => exists z : Z, (Date.parse_iso s = Some z) /\
                           (Date.ts_first_day <= z <= Date.ts_last_day)
     end) /\
  (forall k, NoDup (map Rollup.fdt (Rollup.group_of [Samples.p_b; Samples.p_a] k))) /\
  Rollup.rollup [Samples.p_b; Samples.p_a] = Rollup.rollup [Samples.p_a; Samples.p_b].
Proof.
  assert (HP : Permutation [Samples.p_b; Samples.p_a] [Samples.p_a; Samples.p_b])
    by apply perm_swap.
  assert (HI : forall r, In r [Samples.p_b; Samples.p_a] ->
     match r.(Rollup.x_filing_date) with
     | None => True
     | Some s => exists z : Z, (Date.parse_iso s = Some z) /\
                           (Date.ts_first_day <= z <= Date.ts_last_day)
     end).
  { intros r [<-|[<-|[]]]; eexists; (split; [reflexivity|]);
      split; apply Z.leb_le; vm_compute; reflexivity. }
  assert (HD : forall k, NoDup (map Rollup.fdt (Rollup.group_of [Samples.p_b; Samples.p_a] k))).
  { intros k. apply NoDup_map_filter. apply (bool_decide_unpack _). vm_compute. exact I. }
  split; [exact HP|]. split; [exact HI|]. split; [exact HD|].
  exact (C6_rollup_perm_invariant _ _ HP HI HD).
Defined.

(** C4 (evaluation). Two groups (class ids C1 and C2) resolve to the same
    fund "Alpha Fund" / "ALP", with latest prospectus dates 2025-06-01 and
    2024-01-01: the final dedup pass keeps the 2024-01-01 row and drops the
    later one, because it keeps the last row of each collision after sorting
    the dates in descending order. *)
Theorem C4_dedup_keeps_earlier :
  map Rollup.fs_key (Rollup.roll [Samples.a1; Samples.a2]) = ["C:C1"; "C:C2"] /\
  map Rollup.fs_lp_date (Rollup.roll [Samples.a1; Samples.a2])
    = [Some "2025-06-01"; Some "2024-01-01"] /\
  map Rollup.dedup_key (Rollup.roll [Samples.a1; Samples.a2])
    = [("alpha fund", "ALP"); ("alpha fund", "ALP")] /\
  map Rollup.fs_key (Rollup.rollup [Samples.a1; Samples.a2]) = ["C:C2"] /\
  map Rollup.fs_lp_date (Rollup.rollup [Samples.a1; Samples.a2]) = [Some "2024-01-01"].
Proof. vm_compute. repeat split; reflexivity. Qed.

(** C8 (evaluation). A 485A-only row filed 2025-01-01 whose Effective Date
    field is empty: read back from the CSV the field is NaN, which is truthy,
    so the +75-day branch is skipped; the derived effective date is NaN
    (written as an empty field) and the status claims a parsed date.  The
    +75-day value 2025-03-17 is produced only when the field holds [""]. *)
Theorem C8_nan_skips_75_day_fallback :
  Samples.c1.(Rollup.x_effective) = None /\
  map Rollup.fs_lp_eff (Rollup.rollup [Samples.c1]) = [None] /\
  map Rollup.fs_status (Rollup.rollup [Samples.c1]) = ["APOS chosen (eff=parsed)"] /\
  date_plus_days (Some "2025-01-01") 75 = "2025-03-17" /\
  (Rollup.pick_latest
     [Rollup.mkX None None (Some "C9") (Some "Delta Fund") None (Some "485APOS")
        (Some "2025-01-01") (Some "0001") (Some "l1") (Some "Sample Trust") (Some "1234")
        (Some "") (Some "")] "C:C9").(Rollup.fs_lp_eff) = Some "2025-03-17".
Proof. vm_compute. repeat split; reflexivity. Qed.

(* ------------------------------------------------------------------ *)
(** ** [drop_duplicates(keep="last")] *)

Section Dedup.
Context {A K : Type} `{EqDecision K} (key : A -> K).

Lemma existsb_key_iff (k : K) (l : list A) :
  existsb (fun y => bool_decide (key y = k)) l = true <-> exists y, In y l /\ key y = k.
Proof.
  rewrite existsb_exists. split; intros (y & Hy & Hk); exists y; split; auto.
  - now apply bool_decide_eq_true in Hk.
  - now apply bool_decide_eq_true.
Qed.

Lemma dedup_last_in x l : In x (dedup_last key l) -> In x l.
Proof.
  induction l as [|a l IH]; simpl; [easy|].
  destruct (existsb _ l); [auto|]. intros [->|Hx]; auto.
Qed.

Lemma dedup_last_keys k l :
  (exists y, In y (dedup_last key l) /\ key y = k) <-> (exists y, In y l /\ key y = k).
Proof.
  induction l as [|a l IH]; simpl; [tauto|].
  destruct (existsb (fun y => bool_decide (key y = key a)) l) eqn:E.
  - rewrite IH. split; [intros (y & Hy & Hk); eauto|].
    intros (y & [->|Hy] & Hk); [|eauto].
    apply existsb_key_iff in E as (z & Hz & Hkz). exists z. split; [auto|congruence].
  - simpl. split; intros (y & [->|Hy] & Hk); eauto.
    + destruct (proj1 IH (ex_intro _ y (conj Hy Hk))) as (z & Hz & Hkz). eauto.
    + destruct (proj2 IH (ex_intro _ y (conj Hy Hk))) as (z & Hz & Hkz). eauto.
Qed.

Lemma NoDup_map_cons (x : A) l :
  NoDup (map key (x :: l)) <->
  existsb (fun y => bool_decide (key y = key x)) l = false /\ NoDup (map key l).
Proof.
  simpl. rewrite NoDup_cons. apply and_iff_compat_r.
  rewrite list_elem_of_In, in_map_iff.
  destruct (existsb _ l) eqn:E.
  - apply existsb_key_iff in E. split; [|discriminate]. intros Hn. exfalso. apply Hn.
    destruct E as (y & Hy & Hk). eauto.
  - split; [reflexivity|]. intros _ (y & Hk & Hy).
    assert (Hc : existsb (fun y => bool_decide (key y = key x)) l = true)
      by (apply existsb_key_iff; eauto).
    congruence.
Qed.

Lemma dedup_last_nodup l : NoDup (map key (dedup_last key l)).
Proof.
  induction l as [|a l IH]; simpl; [constructor|].
  destruct (existsb (fun y => bool_decide (key y = key a)) l) eqn:E; [exact IH|].
  apply NoDup_map_cons. split; [|exact IH].
  destruct (existsb _ (dedup_last key l)) eqn:E'; [|reflexivity].
  apply existsb_key_iff in E'. rewrite dedup_last_keys in E'.
  apply existsb_key_iff in E'. congruence.
Qed.

Lemma dedup_last_id l : NoDup (map key l) -> dedup_last key l = l.
Proof.
  induction l as [|a l IH]; simpl; [auto|].
  intros H. apply (NoDup_map_cons a l) in H as [E H]. rewrite E. f_equal. auto.
Qed.

Definition not_in_keys (B : list A) (x : A) : bool :=
  negb (existsb (fun y => bool_decide (key y = key x)) B).

Lemma dedup_last_app l B :
  dedup_last key (l ++ B) = List.filter (not_in_keys B) (dedup_last key l) ++ dedup_last key B.
Proof.
  induction l as [|a l IH]; simpl; [reflexivity|].
  rewrite existsb_app, IH.
  destruct (existsb (fun y => bool_decide (key y = key a)) l) eqn:E1;
  destruct (existsb (fun y => bool_decide (key y = key a)) B) eqn:E2;
  simpl; unfold not_in_keys at 2; rewrite ?E2; reflexivity.
Qed.

Lemma filter_not_in_keys_sub B C :
  (forall x, In x C -> In x B) -> List.filter (not_in_keys B) C = [].
Proof.
  induction C as [|c C IH]; intros Hsub; simpl; [reflexivity|].
  unfold not_in_keys at 1.
  assert (Hb : existsb (fun y => bool_decide (key y = key c)) B = true).
  { apply existsb_key_iff. exists c. split; [apply Hsub; now left|reflexivity]. }
  rewrite Hb. simpl. apply IH. intros x Hx. apply Hsub. now right.
Qed.

Lemma filter_idem {B} (p : B -> bool) l : List.filter p (List.filter p l) = List.filter p l.
Proof.
  induction l as [|a l IH]; simpl; [reflexivity|].
  destruct (p a) eqn:E; simpl; [rewrite E|]; congruence.
Qed.

(** Per key, [drop_duplicates(keep="last")] keeps exactly the last row. *)
Lemma dedup_last_filter_key k l :
  List.filter (fun y => bool_decide (key y = k)) (dedup_last key l)
  = match last_opt (List.filter (fun y => bool_decide (key y = k)) l) with
    | Some x => [x] | None => [] end.
Proof.
  induction l as [|a l IH]; simpl; [reflexivity|].
  destruct (existsb (fun y => bool_decide (key y = key a)) l) eqn:E.
  - rewrite IH. destruct (bool_decide (key a = k)) eqn:Ha; [|reflexivity].
    apply bool_decide_eq_true in Ha. subst k.
    apply existsb_key_iff in E as (z & Hz & Hkz).
    assert (Hin : In z (List.filter (fun y => bool_decide (key y = key a)) l))
      by (apply filter_In; split; [exact Hz|now apply bool_decide_eq_true]).
    destruct (List.filter (fun y => bool_decide (key y = key a)) l); [easy|reflexivity].
  - simpl. destruct (bool_decide (key a = k)) eqn:Ha; [|exact IH].
    apply bool_decide_eq_true in Ha. subst k.
    assert (Hnil : List.filter (fun y => bool_decide (key y = key a)) l = []).
    { destruct (List.filter (fun y => bool_decide (key y = key a)) l) as [|z zs] eqn:Hf;
        [reflexivity|].
      assert (Hz : In z (List.filter (fun y => bool_decide (key y = key a)) l))
        by (rewrite Hf; now left).
      apply filter_In in Hz as [Hz Hkz].
      assert (Hc : existsb (fun y => bool_decide (key y = key a)) l = true)
        by (apply existsb_key_iff; exists z; split; [exact Hz|now apply bool_decide_eq_true in Hkz]).
      congruence. }
    rewrite IH, Hnil. reflexivity.
Qed.

End Dedup.

(* ------------------------------------------------------------------ *)
(** ** Extraction claims *)

Lemma tuple_key_str_key x y :
  Extract.tuple_key x = Extract.tuple_key y -> Extract.str_key x = Extract.str_key y.
Proof. unfold Extract.tuple_key, Extract.str_key. intros [= -> -> -> ->]. reflexivity. Qed.

Lemma nodup_str_tuple l :
  NoDup (map Extract.str_key l) -> NoDup (map Extract.tuple_key l).
Proof.
  induction l as [|a l IH]; intros H; [constructor|].
  apply (NoDup_map_cons Extract.str_key) in H as [E H].
  apply (NoDup_map_cons Extract.tuple_key). split; [|auto].
  destruct (existsb (fun y => bool_decide (Extract.tuple_key y = Extract.tuple_key a)) l)
    eqn:E'; [|reflexivity].
  apply existsb_key_iff in E' as (y & Hy & Hk).
  assert (Hc : existsb (fun z => bool_decide (Extract.str_key z = Extract.str_key a)) l = true)
    by (apply existsb_key_iff; exists y; split; [exact Hy|now apply tuple_key_str_key]).
  congruence.
Qed.

(** C2. Running the extraction step a second time over the same filings
    leaves the stored row set unchanged (hence its row count too); the
    stored set has one row per (Accession Number, Class-Contract ID, Class
    Contract Name, Class Symbol), and the row kept for a key is the last one
    written with it. *)
Theorem C2_step3_idempotent (extract : Extract.filing -> list Extract.erow)
  (acc : list Extract.erow) (fs : list Extract.filing)
  (Hacc : NoDup (map Extract.tuple_key acc)) :
  let acc1 := Extract.step3 extract acc fs in
  Extract.step3 extract acc1 fs = acc1 /\
  length (Extract.step3 extract acc1 fs) = length acc1 /\
  NoDup (map Extract.tuple_key acc1) /\
  (forall k, List.filter (fun r => bool_decide (Extract.tuple_key r = k)) acc1 =
     match last_opt (List.filter (fun r => bool_decide (Extract.tuple_key r = k))
                       (acc ++ dedup_last Extract.str_key (flat_map extract fs))) with
     | Some x => [x] | None => [] end).
Proof.
  unfold Extract.step3, Extract.append_dedupe_csv.
  destruct (flat_map extract fs) as [|r rs] eqn:Hrows.
  - simpl. rewrite app_nil_r. split; [reflexivity|]. split; [reflexivity|].
    split; [exact Hacc|]. intros k.
    rewrite <- (dedup_last_filter_key Extract.tuple_key k acc), dedup_last_id; auto.
  - set (R := dedup_last Extract.str_key (r :: rs)).
    assert (HR : dedup_last Extract.tuple_key R = R).
    { apply dedup_last_id, nodup_str_tuple, dedup_last_nodup. }
    set (acc1 := dedup_last Extract.tuple_key (acc ++ R)).
    assert (Hacc1 : NoDup (map Extract.tuple_key acc1)) by apply dedup_last_nodup.
    assert (Hfix : dedup_last Extract.tuple_key (acc1 ++ R) = acc1).
    { rewrite dedup_last_app, (dedup_last_id _ acc1 Hacc1), HR.
      unfold acc1 at 1. rewrite dedup_last_app, HR, List.filter_app, filter_idem.
      rewrite (filter_not_in_keys_sub Extract.tuple_key R R); [|auto].
      rewrite app_nil_r. unfold acc1. rewrite dedup_last_app, HR. reflexivity. }
    split; [exact Hfix|]. split; [now rewrite Hfix|]. split; [exact Hacc1|].
    intros k. apply dedup_last_filter_key.
Qed.

Lemma C2_step3_idempotent_witness :
  NoDup (map Extract.tuple_key []) /\
  let acc1 := Extract.step3 Samples.extract_sample [] [Samples.f1; Samples.f1] in
  Extract.step3 Samples.extract_sample acc1 [Samples.f1; Samples.f1] = acc1 /\
  length (Extract.step3 Samples.extract_sample acc1 [Samples.f1; Samples.f1]) = length acc1 /\
  NoDup (map Extract.tuple_key acc1) /\
  (forall k, List.filter (fun r => bool_decide (Extract.tuple_key r = k)) acc1 =
     match last_opt (List.filter (fun r => bool_decide (Extract.tuple_key r = k))
                       ([] ++ dedup_last Extract.str_key
                               (flat_map Samples.extract_sample [Samples.f1; Samples.f1]))) with
     | Some x => [x] | None => [] end).
Proof.
  assert (H0 : NoDup (map Extract.tuple_key ([] : list Extract.erow))) by constructor.
  split; [exact H0|].
  exact (C2_step3_idempotent Samples.extract_sample [] [Samples.f1; Samples.f1] H0).
Defined.

(** The filing processed twice above yields one stored row. *)
Example C2_sample_single_row :
  length (Extract.step3 Samples.extract_sample [] [Samples.f1; Samples.f1]) = 1%nat.
Proof. vm_compute. reflexivity. Qed.

(** C3 (counterexample). A filing without SGML rows whose primary HTML
    document holds a ticker table with the row ("Alpha Fund", "ALPH"): the
    extraction output is the single placeholder row, whose symbol is empty
    and whose provenance is "NONE"; no output row carries "ALPH". *)
Lemma C3_html_rows_dropped :
  Extract.v_sgml Samples.v_html = [] /\
  In (Ticker.mkBR "Alpha Fund" "ALPH" "PRIMARY-HTML") (Extract.v_html_rows Samples.v_html) /\
  Samples.extract_sample Samples.f1 = [Extract.none_row Samples.f1 Samples.v_html] /\
  ~ (exists r, In r (Samples.extract_sample Samples.f1) /\ Extract.e_symbol r = "ALPH").
Proof.
  split; [reflexivity|]. split; [left; reflexivity|].
  assert (E : Samples.extract_sample Samples.f1 = [Extract.none_row Samples.f1 Samples.v_html])
    by (vm_compute; reflexivity).
  split; [exact E|]. rewrite E. intros (r & [<-|[]] & Hs). discriminate Hs.
Qed.

(** C3 (amended). For a filing whose form is not EFFECT and whose SGML stage
    produced no rows, the extraction output is exactly one placeholder row:
    empty series, class and symbol fields and provenance "NONE", whatever
    the HTML-table, columnar or PDF strategies found (their rows are not
    used). *)
Theorem C3_no_sgml_placeholder (tfs : string -> list string -> string * string)
  (f : Extract.filing) (v : Extract.filing_view)
  (Hs : Extract.v_sgml v = [])
  (He : String.eqb (Py.upper (Py.strip f.(Extract.f_form))) "EFFECT" = false) :
  Extract.extract_filing tfs f v = [Extract.none_row f v] /\
  Extract.e_symbol (Extract.none_row f v) = "" /\
  Extract.e_class_name (Extract.none_row f v) = "" /\
  Extract.e_extracted_from (Extract.none_row f v) = "NONE" /\
  (forall html pdf, Extract.extract_filing tfs f
     (Extract.mkV [] html pdf v.(Extract.v_texts) v.(Extract.v_eff) v.(Extract.v_delaying))
     = Extract.extract_filing tfs f v).
Proof.
  unfold Extract.extract_filing. rewrite He, Hs.
  split; [reflexivity|]. do 3 (split; [reflexivity|]).
  intros html pdf. reflexivity.
Qed.

Lemma C3_no_sgml_placeholder_witness :
  Extract.v_sgml Samples.v_html = [] /\
  String.eqb (Py.upper (Py.strip Samples.f1.(Extract.f_form))) "EFFECT" = false /\
  (Extract.extract_filing Samples.no_ticker Samples.f1 Samples.v_html
     = [Extract.none_row Samples.f1 Samples.v_html] /\
   Extract.e_symbol (Extract.none_row Samples.f1 Samples.v_html) = "" /\
   Extract.e_class_name (Extract.none_row Samples.f1 Samples.v_html) = "" /\
   Extract.e_extracted_from (Extract.none_row Samples.f1 Samples.v_html) = "NONE" /\
   (forall html pdf, Extract.extract_filing Samples.no_ticker Samples.f1
      (Extract.mkV [] html pdf Samples.v_html.(Extract.v_texts) Samples.v_html.(Extract.v_eff)
         Samples.v_html.(Extract.v_delaying))
      = Extract.extract_filing Samples.no_ticker Samples.f1 Samples.v_html)).
Proof.
  assert (Hs : Extract.v_sgml Samples.v_html = []) by reflexivity.
  assert (He : String.eqb (Py.upper (Py.strip Samples.f1.(Extract.f_form))) "EFFECT" = false)
    by (vm_compute; reflexivity).
  split; [exact Hs|]. split; [exact He|].
  exact (C3_no_sgml_placeholder Samples.no_ticker Samples.f1 Samples.v_html Hs He).
Defined.

(* ------------------------------------------------------------------ *)
(** ** Fetch claims *)

Lemma fetch_always_429 permits n :
  Fetch.fetch_url permits Samples.server_always_429 n
  = (None, concat (repeat [Fetch.ERequest; Fetch.ESleep 10] permits)).
Proof.
  revert n. induction permits as [|permits IH]; intros n; [reflexivity|].
  simpl. rewrite IH. reflexivity.
Qed.

(** C5. On 429 [_fetch_url] sleeps and calls itself again, with no retry
    counter: with the 8 free permits of a fresh client, two 429 answers
    (Retry-After: 1) are followed by a third request, whose body "x" is
    returned and no error is raised.  Against a server that always answers
    429 (no Retry-After: 10 seconds), each request is followed by a sleep
    and another request until the permits the recursion holds run out; the
    call then waits on the semaphore forever, and no error ever reaches the
    caller. *)
Theorem C5_retry_unbounded :
  Fetch.fetch_url 8 Samples.server_429_twice 0
  = (Some (Fetch.Ok "x"),
     [Fetch.ERequest; Fetch.ESleep 1; Fetch.ERequest; Fetch.ESleep 1; Fetch.ERequest]) /\
  (forall permits, Fetch.fetch_url permits Samples.server_always_429 0
     = (None, concat (repeat [Fetch.ERequest; Fetch.ESleep 10] permits))).
Proof.
  split; [vm_compute; reflexivity|].
  intros permits. apply fetch_always_429.
Qed.

(* ------------------------------------------------------------------ *)
(** ** Ticker claims *)

(** C7 (counterexample). The HTML-table and columnar strategies accept the
    stopword "ETF" (and the letterless "123") as a ticker, which the
    ticker-for-series validator rejects. *)
Lemma C7_body_sites_accept_stopword :
  Ticker.valid_ticker "ETF" = false /\
  Ticker.html_table_row ["Alpha Fund"; "ETF"]
    = Some (Ticker.mkBR "Alpha Fund" "ETF" "PRIMARY-HTML") /\
  Ticker.columnar_line "PRIMARY-HTML" "Alpha Fund  ETF"
    = Some (Ticker.mkBR "Alpha Fund" "ETF" "PRIMARY-HTML") /\
  Ticker.valid_ticker "123" = false /\
  Ticker.html_table_row ["Alpha Fund"; "123"]
    = Some (Ticker.mkBR "Alpha Fund" "123" "PRIMARY-HTML").
Proof. vm_compute. repeat split. Qed.

Lemma sall_In p s : Py.sall p s = true <-> forall c, In c (list_ascii_of_string s) -> p c = true.
Proof.
  induction s as [|a s IH]; simpl; [split; [intros _ c []|reflexivity]|].
  rewrite andb_true_iff, IH. split.
  - intros [Ha Hs] c [<-|Hc]; auto.
  - intros H. split; auto.
Qed.

Lemma sany_In p s : Py.sany p s = true <-> exists c, In c (list_ascii_of_string s) /\ p c = true.
Proof.
  induction s as [|a s IH]; simpl; [split; [discriminate|intros (c & [] & _)]|].
  rewrite orb_true_iff, IH. split.
  - intros [Ha|(c & Hc & Hp)]; eauto.
  - intros (c & [<-|Hc] & Hp); eauto.
Qed.

Lemma fullmatch_ticker_iff t :
  Ticker.fullmatch_ticker t = true <->
  (1 <= String.length t <= 6)%nat /\
  forall c, In c (list_ascii_of_string t) -> Py.is_upper_c c || Py.is_digit_c c = true.
Proof.
  unfold Ticker.fullmatch_ticker. rewrite !andb_true_iff, sall_In, !Nat.leb_le. tauto.
Qed.

(** C7 (amended). The ticker-for-series validator accepts a token iff its
    stripped, upper-cased form has length 1-6, is not a stopword and
    contains a letter.  The HTML-table and columnar strategies accept a last
    cell iff its stripped, upper-cased form has length 1-6 and consists of
    upper-case letters and digits only: there is no stopword and no letter
    check.  "SCCO" is accepted at every site; "ETF" is rejected by the
    validator and accepted by the other two. *)
Theorem C7_ticker_sites :
  (forall tok, Ticker.valid_ticker tok = true <->
     let t := Py.upper (Py.strip tok) in
     (1 <= String.length t <= 6)%nat /\ ~ In t Ticker.stopwords /\
     exists c, In c (list_ascii_of_string t) /\ Py.is_alpha_c c = true) /\
  (forall cells, Ticker.html_table_row cells <> None <->
     (2 <= List.length cells)%nat /\
     Ticker.fullmatch_ticker (Py.upper (Py.strip (List.last cells ""))) = true) /\
  (forall from ln, Ticker.columnar_line from ln <> None <->
     let parts := Ticker.split2 (Py.strip ln) in
     (2 <= List.length parts)%nat /\
     Ticker.fullmatch_ticker (Py.upper (Py.strip (List.last parts ""))) = true) /\
  (forall t, Ticker.fullmatch_ticker t = true <->
     (1 <= String.length t <= 6)%nat /\
     forall c, In c (list_ascii_of_string t) -> Py.is_upper_c c || Py.is_digit_c c = true) /\
  Ticker.valid_ticker "SCCO" = true /\
  Ticker.html_table_row ["Southern Copper"; "SCCO"] <> None /\
  Ticker.columnar_line "PRIMARY-PDF" "Southern Copper  SCCO" <> None /\
  Ticker.valid_ticker "ETF" = false /\
  Ticker.html_table_row ["Alpha Fund"; "ETF"] <> None /\
  Ticker.columnar_line "PRIMARY-PDF" "Alpha Fund  ETF" <> None.
Proof.
  split.
  { intros tok. cbv zeta. unfold Ticker.valid_ticker.
    set (t := Py.upper (Py.strip tok)).
    destruct ((1 <=? String.length t)%nat && (String.length t <=? 6)%nat) eqn:El;
      cbv beta iota delta [negb].
    - apply andb_true_iff in El as [E1 E2]. apply Nat.leb_le in E1, E2.
      destruct (Ticker.in_stopwords t) eqn:Es.
      + split; [discriminate|]. intros (_ & Hn & _). exfalso. apply Hn.
        unfold Ticker.in_stopwords in Es. apply existsb_exists in Es as (w & Hw & Ew).
        apply String.eqb_eq in Ew. now subst.
      + rewrite sany_In. split; [intros H; split; [lia|split; [|exact H]]|intros (_ & _ & H); exact H].
        intros Hin. unfold Ticker.in_stopwords in Es.
        assert (existsb (String.eqb t) Ticker.stopwords = true)
          by (apply existsb_exists; exists t; split; [exact Hin|apply String.eqb_refl]).
        congruence.
    - split; [discriminate|]. intros ([H1 H2] & _).
      apply Nat.leb_le in H1, H2. rewrite H1, H2 in El. discriminate. }
  split.
  { intros cells. unfold Ticker.html_table_row.
    destruct (2 <=? List.length cells)%nat eqn:E; [apply Nat.leb_le in E|apply Nat.leb_nle in E].
    - destruct (Ticker.fullmatch_ticker _); split; try easy; intros [_ H]; discriminate.
    - split; [easy|]. intros [H _]. lia. }
  split.
  { intros from ln. cbv zeta. unfold Ticker.columnar_line.
    destruct (2 <=? List.length (Ticker.split2 (Py.strip ln)))%nat eqn:E;
      [apply Nat.leb_le in E|apply Nat.leb_nle in E].
    - destruct (Ticker.fullmatch_ticker _); split; try easy; intros [_ H]; discriminate.
    - split; [easy|]. intros [H _]. lia. }
  split; [exact fullmatch_ticker_iff|].
  vm_compute. repeat split; discriminate.
Qed.

(* ------------------------------------------------------------------ *)
(** ** Name history claims *)

Section MaxBy.
Context {A : Type} (f : A -> string).

Lemma py_nlt_trans a b c : Py.lt a b = false -> Py.lt b c = false -> Py.lt a c = false.
Proof.
  intros H1 H2. destruct (Py.lt a c) eqn:H3; [|reflexivity].
  destruct (String.eqb a b) eqn:Eab.
  - apply String.eqb_eq in Eab. subst. congruence.
  - apply String.eqb_neq in Eab. pose proof (py_lt_total a b Eab H1) as Hba.
    rewrite (py_lt_trans b a c Hba H3) in H2. discriminate.
Qed.

Lemma fold_max_spec (xs : list A) (cur : A) :
  let m := fold_left (fun cur y => if Py.lt (f cur) (f y) then y else cur) xs cur in
  (m = cur \/ In m xs) /\ Py.lt (f m) (f cur) = false /\
  (forall y, In y xs -> Py.lt (f m) (f y) = false).
Proof.
  revert cur. induction xs as [|y xs IH]; intros cur; simpl.
  - split; [now left|]. split; [apply py_lt_irrefl|]. intros _ [].
  - destruct (Py.lt (f cur) (f y)) eqn:Ecy.
    + destruct (IH y) as (Hm & Hmy & Hall). split; [|split].
      * destruct Hm as [->|Hm]; auto.
      * destruct (Py.lt (f _) (f cur)) eqn:Emc; [|reflexivity].
        rewrite (py_lt_trans _ _ _ Emc Ecy) in Hmy. discriminate.
      * intros z [<-|Hz]; auto.
    + destruct (IH cur) as (Hm & Hmc & Hall). split; [|split].
      * destruct Hm as [->|Hm]; auto.
      * exact Hmc.
      * intros z [<-|Hz]; auto. eapply py_nlt_trans; eauto.
Qed.

Lemma py_max_by_spec (l : list A) :
  l <> [] -> exists m, History.py_max_by f l = Some m /\ In m l /\
  forall y, In y l -> Py.lt (f m) (f y) = false.
Proof.
  destruct l as [|x xs]; [easy|]. intros _. simpl.
  destruct (fold_max_spec xs x) as (Hm & Hmx & Hall).
  eexists. split; [reflexivity|]. split.
  - destruct Hm as [->|Hm]; [now left|now right].
  - intros y [<-|Hy]; auto.
Qed.

End MaxBy.

Module HistoryFacts.
Import History.

(** The invariant of [seen_names] during the walk: its keys are unique and
    every recorded last date is a non-empty string. *)
Definition inv (s : seen) : Prop :=
  NoDup (map fst s) /\ List.Forall (fun p => p.2.(n_last_date) <> "") s.

Lemma set_last_keys k d s : map fst (set_last k d s) = map fst s.
Proof.
  induction s as [|p s IH]; [reflexivity|]. simpl.
  destruct (String.eqb p.1 k); simpl; now rewrite IH.
Qed.

Lemma set_last_length k d s : length (set_last k d s) = length s.
Proof. unfold set_last. apply length_map. Qed.

Lemma inv_set_last k d s : d <> "" -> inv s -> inv (set_last k d s).
Proof.
  intros Hd [Hn Hf]. split; [now rewrite set_last_keys|].
  unfold set_last. apply List.Forall_map. revert Hf. apply List.Forall_impl.
  intros p Hp. destruct (String.eqb p.1 k); simpl; auto.
Qed.

Lemma mem_false_notin k s : mem k s = false -> ~ In k (map fst s).
Proof.
  intros Hm Hin. apply in_map_iff in Hin as (p & <- & Hp).
  assert (Hc : mem p.1 s = true)
    by (apply existsb_exists; exists p; split; [exact Hp|apply String.eqb_refl]).
  congruence.
Qed.

Lemma inv_snoc k i s : mem k s = false -> i.(n_last_date) <> "" -> inv s -> inv (s ++ [(k, i)]).
Proof.
  intros Hm Hi [Hn Hf]. split.
  - rewrite map_app. simpl. apply NoDup_app. split; [exact Hn|]. split.
    + intros x Hx Hx'. apply list_elem_of_In in Hx. apply list_elem_of_singleton in Hx'.
      subst. exact (mem_false_notin _ _ Hm Hx).
    + apply NoDup_singleton.
  - apply List.Forall_app. split; [exact Hf|]. constructor; [exact Hi|constructor].
Qed.

Lemma pystr_nonempty c : c <> Some "" -> pystr c <> "".
Proof. destruct c as [s|]; simpl; [intros H ->; now apply H|discriminate]. Qed.

Lemma inv_walk_row s r : r.(h_filing_date) <> Some "" -> inv s -> inv (walk_row s r).
Proof.
  intros Hr Hs. pose proof (pystr_nonempty _ Hr) as Hd. unfold walk_row. cbv zeta.
  match goal with
  | |- inv (if negb (String.eqb ?pn "") && negb (String.eqb ?pr "") then _ else ?s1) =>
      assert (Hs1 : inv s1); [|generalize dependent s1]
  end.
  { destruct (_ && _); [|exact Hs].
    destruct (mem (row_name_key r) s) eqn:Em; simpl.
    - now apply inv_set_last.
    - now apply inv_snoc. }
  intros s1 Hs1.
  destruct (_ && negb (String.eqb (row_prosp_raw r) "")); [|exact Hs1].
  destruct (negb (String.eqb (Py.casefold (row_prosp_clean r)) "")
            && negb (mem (Py.casefold (row_prosp_clean r)) s1)) eqn:E1.
  - apply andb_true_iff in E1 as [_ E1]. apply negb_true_iff in E1.
    now apply inv_snoc.
  - destruct (mem (Py.casefold (row_prosp_clean r)) s1); [now apply inv_set_last|exact Hs1].
Qed.

Lemma inv_walk g s : List.Forall (fun r => r.(h_filing_date) <> Some "") g -> inv s ->
  inv (fold_left walk_row g s).
Proof.
  revert s. induction g as [|r g IH]; intros s Hg Hs; [exact Hs|].
  inversion Hg; subst. simpl. apply IH; [assumption|]. now apply inv_walk_row.
Qed.

Lemma walk_row_length s r : (length s <= length (walk_row s r))%nat.
Proof.
  unfold walk_row.
  assert (H1 : forall k d s, length s = length (set_last k d s)) by (intros; now rewrite set_last_length).
  assert (H2 : forall (s : seen) x, (length s <= length (s ++ [x]))%nat)
    by (intros; rewrite length_app; simpl; lia).
  destruct (_ && negb (String.eqb (row_name r) "")).
  - destruct (negb (mem _ s)).
    + destruct (_ && negb (String.eqb (row_prosp_raw r) "")); [|apply H2].
      destruct (_ && negb (mem _ _)); [etransitivity; [apply H2|apply H2]|].
      destruct (mem _ _); [rewrite <- H1|]; apply H2.
    + destruct (_ && negb (String.eqb (row_prosp_raw r) "")); [|now rewrite <- H1].
      destruct (_ && negb (mem _ _)); [rewrite <- H2; now rewrite <- H1|].
      destruct (mem _ _); rewrite <- !H1; lia.
  - destruct (_ && negb (String.eqb (row_prosp_raw r) "")); [|lia].
    destruct (_ && negb (mem _ _)); [apply H2|].
    destruct (mem _ _); [rewrite <- H1|]; lia.
Qed.

Lemma walk_row_named s r : row_name_key r <> "" -> row_name r <> "" ->
  (0 < length (walk_row s r))%nat.
Proof.
  intros Hk Hn. unfold walk_row. cbv zeta.
  apply String.eqb_neq in Hk, Hn. rewrite Hk, Hn. simpl negb. cbv iota.
  assert (H1 : forall k d s, length s = length (set_last k d s)) by (intros; now rewrite set_last_length).
  assert (H2 : forall (s : seen) x, (length s <= length (s ++ [x]))%nat)
    by (intros; rewrite length_app; simpl; lia).
  match goal with
  | |- (0 < length (if negb (String.eqb ?pn "") && negb (String.eqb ?pr "") then _ else ?s1))%nat =>
      assert (Hs1 : (0 < length s1)%nat); [|generalize dependent s1]
  end.
  { destruct (mem (row_name_key r) s) eqn:Em; simpl.
    - rewrite set_last_length. destruct s; [discriminate|simpl; lia].
    - rewrite length_app. simpl. lia. }
  intros s1 Hs1.
  destruct (_ && negb (String.eqb (row_prosp_raw r) "")); [|exact Hs1].
  destruct (_ && negb (mem _ _)); [eapply Nat.lt_le_trans; [exact Hs1|apply H2]|].
  destruct (mem _ _); [rewrite <- H1|]; exact Hs1.
Qed.

Lemma walk_length g s : (length s <= length (fold_left walk_row g s))%nat.
Proof.
  revert s. induction g as [|r g IH]; intros s; simpl; [lia|].
  etransitivity; [apply walk_row_length|apply IH].
Qed.

Lemma walk_named g s r : In r g -> row_name_key r <> "" -> row_name r <> "" ->
  fold_left walk_row g s <> [].
Proof.
  intros Hin Hk Hn. revert s. induction g as [|r' g IH]; intros s; [destruct Hin|].
  destruct Hin as [->|Hin]; simpl; [|now apply IH].
  pose proof (walk_row_named s r Hk Hn) as Hl. pose proof (walk_length g (walk_row s r)) as Hl'.
  intros E. rewrite E in Hl'. simpl in Hl'. lia.
Qed.

End HistoryFacts.

(** C9. For a series with at least one named row (and filing dates read
    from the CSV, so never the empty string), the name-history rows are the
    entries of [seen_names], with keys unique, and exactly one of them, the
    entry of key [k], is flagged current: its last-seen date is not smaller
    (in the string order [max] uses) than any other entry's, an entry whose
    last-seen date is strictly greater than every other entry's is that
    one, its Last Seen Date is emitted empty, and every other entry carries
    a non-empty Last Seen Date.  On the series S1 named "Alpha Fund" on
    2024-01-01 and 2024-06-01 and "Beta Fund" on 2024-07-01, "Beta Fund" is
    current and "Alpha Fund" was last seen 2024-06-01. *)
Theorem C9_current_is_latest (sid : string) (g : list History.hrow)
  (Hd : List.Forall (fun r => r.(History.h_filing_date) <> Some "") g)
  (Hn : exists r, In r g /\ History.row_name_key r <> "" /\ History.row_name r <> "") :
  (let s := History.walk g in
   exists k, History.history_for_series sid g = map (History.out_row sid k) s /\
     NoDup (map fst s) /\
     (exists p, In p s /\ p.1 = k /\
        forall q, In q s -> Py.lt p.2.(History.n_last_date) q.2.(History.n_last_date) = false) /\
     (forall q, In q s ->
        (forall q', In q' s -> q'.1 <> q.1 ->
           Py.lt q'.2.(History.n_last_date) q.2.(History.n_last_date) = true) ->
        q.1 = k) /\
     (forall q, In q s ->
        if String.eqb q.1 k
        then (History.out_row sid k q).(History.o_is_current) = "Y" /\
             (History.out_row sid k q).(History.o_last_seen) = ""
        else (History.out_row sid k q).(History.o_is_current) = "" /\
             (History.out_row sid k q).(History.o_last_seen) <> "")) /\
  map (fun h => (h.(History.o_series_id), h.(History.o_name), h.(History.o_first_seen),
                 h.(History.o_last_seen), h.(History.o_is_current)))
      (History.step5 Samples.alpha_beta)
  = [("S1", "Alpha Fund", "2024-01-01", "2024-06-01", "");
     ("S1", "Beta Fund", "2024-07-01", "", "Y")].
Proof.
  split; [|vm_compute; reflexivity].
  cbv zeta. set (s := History.walk g).
  assert (Hi : HistoryFacts.inv s)
    by (apply HistoryFacts.inv_walk; [exact Hd|split; constructor]).
  assert (Hne : s <> []).
  { destruct Hn as (r & Hr & Hk & Hn'). eapply HistoryFacts.walk_named; eauto. }
  destruct (py_max_by_spec (fun p : string * History.info => p.2.(History.n_last_date)) s Hne)
    as (m & Hm & Hms & Hmax).
  destruct m as [k i]. exists k.
  unfold History.history_for_series. cbv zeta. change (History.walk g) with s.
  rewrite Hm. split; [reflexivity|].
  split; [exact (proj1 Hi)|]. split.
  { exists (k, i). split; [exact Hms|]. split; [reflexivity|exact Hmax]. }
  split.
  - intros q Hq Hgt. destruct (String.eqb k q.1) eqn:E.
    + now apply String.eqb_eq in E.
    + apply String.eqb_neq in E.
      pose proof (Hgt (k, i) Hms E) as H1. pose proof (Hmax q Hq) as H2. cbn beta in *.
      simpl in H1, H2. congruence.
  - intros q Hq. unfold History.out_row.
    destruct (String.eqb q.1 k) eqn:E; simpl.
    + split; reflexivity.
    + split; [reflexivity|].
      exact (proj1 (List.Forall_forall _ _) (proj2 Hi) q Hq).
Qed.

Lemma C9_current_is_latest_witness :
  List.Forall (fun r => r.(History.h_filing_date) <> Some "") Samples.alpha_beta /\
  (exists r, In r Samples.alpha_beta /\ History.row_name_key r <> "" /\ History.row_name r <> "") /\
  ((let s := History.walk Samples.alpha_beta in
    exists k, History.history_for_series "S1" Samples.alpha_beta = map (History.out_row "S1" k) s /\
      NoDup (map fst s) /\
      (exists p, In p s /\ p.1 = k /\
         forall q, In q s -> Py.lt p.2.(History.n_last_date) q.2.(History.n_last_date) = false) /\
      (forall q, In q s ->
         (forall q', In q' s -> q'.1 <> q.1 ->
            Py.lt q'.2.(History.n_last_date) q.2.(History.n_last_date) = true) ->
         q.1 = k) /\
      (forall q, In q s ->
         if String.eqb q.1 k
         then (History.out_row "S1" k q).(History.o_is_current) = "Y" /\
              (History.out_row "S1" k q).(History.o_last_seen) = ""
         else (History.out_row "S1" k q).(History.o_is_current) = "" /\
              (History.out_row "S1" k q).(History.o_last_seen) <> "")) /\
   map (fun h => (h.(History.o_series_id), h.(History.o_name), h.(History.o_first_seen),
                  h.(History.o_last_seen), h.(History.o_is_current)))
       (History.step5 Samples.alpha_beta)
   = [("S1", "Alpha Fund", "2024-01-01", "2024-06-01", "");
      ("S1", "Beta Fund", "2024-07-01", "", "Y")]).
Proof.
  assert (Hd : List.Forall (fun r => r.(History.h_filing_date) <> Some "") Samples.alpha_beta)
    by (repeat constructor; discriminate).
  assert (Hn : exists r, In r Samples.alpha_beta /\ History.row_name_key r <> "" /\
                         History.row_name r <> "").
  { exists (Samples.hr "S1" "Beta Fund" "2024-07-01" "485BPOS" "0001-24-000003").
    split; [left; reflexivity|]. split; vm_compute; discriminate. }
  split; [exact Hd|]. split; [exact Hn|].
  exact (C9_current_is_latest "S1" Samples.alpha_beta Hd Hn).
Defined.

(* ------------------------------------------------------------------ *)
(** ** Batch fetch claims *)

Module FetchFacts.
Import Fetch.

Lemma nodup_fst_eq {B} (l : list (string * B)) a b :
  NoDup (map fst l) -> In a l -> In b l -> a.1 = b.1 -> a = b.
Proof.
  induction l as [|x l IH]; intros Hn Ha Hb Hab; [destruct Ha|].
  simpl in Hn. apply NoDup_cons in Hn as [Hx Hn].
  destruct Ha as [<-|Ha], Hb as [<-|Hb]; auto.
  - exfalso. apply Hx. apply list_elem_of_In. rewrite Hab. now apply in_map.
  - exfalso. apply Hx. apply list_elem_of_In. rewrite <- Hab. now apply in_map.
Qed.

Lemma build_spec (int_of : string -> option Z) ciks m0 m :
  build_cik_map int_of ciks m0 = Some m -> NoDup (map fst m0) ->
  (forall q, In q m0 -> cik_padded int_of q.1 = Some q.2) ->
  NoDup (map fst m) /\ (forall q, In q m -> cik_padded int_of q.1 = Some q.2) /\
  (forall cik, In cik ciks \/ In cik (map fst m0) -> In cik (map fst m)).
Proof.
  revert m0. induction ciks as [|cik rest IH]; intros m0 Hb Hn Hp; simpl in Hb.
  - injection Hb as <-. split; [exact Hn|]. split; [exact Hp|]. intros k [[]|H]; exact H.
  - destruct (cik_padded int_of cik) as [p|] eqn:Ep; [|discriminate].
    destruct (existsb (fun q => String.eqb q.1 cik) m0) eqn:Ex.
    + destruct (IH m0 Hb Hn Hp) as (H1 & H2 & H3). split; [exact H1|]. split; [exact H2|].
      intros k [[<-|Hk]|Hk]; apply H3; auto. right.
      apply existsb_exists in Ex as (q & Hq & Eq). apply String.eqb_eq in Eq.
      rewrite <- Eq. now apply in_map.
    + assert (Hn' : NoDup (map fst (m0 ++ [(cik, p)]))).
      { rewrite map_app. apply NoDup_app. split; [exact Hn|]. split; [|apply NoDup_singleton].
        intros x Hx Hx'. apply list_elem_of_singleton in Hx'. simpl in Hx'. subst x.
        apply list_elem_of_In, in_map_iff in Hx as (q & Eq & Hq).
        assert (Hc : existsb (fun q => String.eqb q.1 cik) m0 = true)
          by (apply existsb_exists; exists q; split; [exact Hq|now apply String.eqb_eq]).
        congruence. }
      assert (Hp' : forall q, In q (m0 ++ [(cik, p)]) -> cik_padded int_of q.1 = Some q.2).
      { intros q Hq. apply in_app_or in Hq as [Hq|[<-|[]]]; auto. }
      destruct (IH _ Hb Hn' Hp') as (H1 & H2 & H3). split; [exact H1|]. split; [exact H2|].
      intros k Hk. apply H3. destruct Hk as [[<-|Hk]|Hk].
      * right. rewrite map_app. apply in_or_app. right. now left.
      * now left.
      * right. rewrite map_app. apply in_or_app. now left.
Qed.

Section Facts.
Variable json_ok : string -> bool.
Variable fresh : string -> bool.
Variable net : string -> net_result.
Variable c : cache.

Lemma split_spec (m : list (string * string))
  (acc : gmap string (option string) * list (string * string)) :
  let r := fold_left (fun (acc : gmap string (option string) * list (string * string)) q =>
      let '(res, to_fetch) := acc in
      match read_submissions_cache fresh c q.2 with
      | Some cached => (<[q.1 := Some cached]> res, to_fetch)
      | None => (res, to_fetch ++ [q])
      end) m acc in
  r.2 = acc.2 ++ List.filter (fun q => match read_submissions_cache fresh c q.2 with
                                        | None => true | Some _ => false end) m /\
  (forall k, ~ In k (map fst m) -> r.1 !! k = acc.1 !! k) /\
  (NoDup (map fst m) -> forall q x, In q m -> read_submissions_cache fresh c q.2 = Some x ->
     r.1 !! q.1 = Some (Some x)).
Proof using fresh c.
  revert acc. induction m as [|q m IH]; intros [res tf]; simpl.
  - rewrite app_nil_r. split; [reflexivity|]. split; [reflexivity|]. intros _ q x [].
  - destruct (read_submissions_cache fresh c q.2) as [x|] eqn:E.
    + destruct (IH (<[q.1 := Some x]> res, tf)) as (H1 & H2 & H3). simpl in H1, H2.
      split; [exact H1|]. split.
      * intros k Hk. rewrite H2 by (intros Hx; apply Hk; now right). apply lookup_insert_ne. intros E0. apply Hk. now left.
      * intros Hn q' x' [Eq|Hq'] Ex'.
        -- subst q'. apply NoDup_cons in Hn as [Hq Hn]. rewrite H2.
           ++ rewrite E in Ex'. injection Ex' as <-. apply lookup_insert_eq.
           ++ intros Hin. apply Hq. now apply list_elem_of_In.
        -- apply NoDup_cons in Hn as [_ Hn]. exact (H3 Hn q' x' Hq' Ex').
    + destruct (IH (res, tf ++ [q])) as (H1 & H2 & H3). simpl in H1, H2.
      split; [rewrite H1, <- app_assoc; reflexivity|]. split.
      * intros k Hk. apply H2. intros Hx. apply Hk. now right.
      * intros Hn q' x' [Eq|Hq'] Ex'; [subst q'; congruence|].
        apply NoDup_cons in Hn as [_ Hn]. exact (H3 Hn q' x' Hq' Ex').
Qed.

Lemma await_other tf st k : ~ In k (map fst tf) ->
  (fold_left (await_one json_ok net) tf st).(b_results) !! k = st.(b_results) !! k.
Proof using json_ok net.
  revert st. induction tf as [|[cik p] tf IH]; intros st Hk; [reflexivity|].
  simpl. rewrite IH by (intros Hx; apply Hk; now right).
  assert (Hne : cik <> k) by (intros ->; apply Hk; now left).
  unfold await_one. destruct (net _); [destruct (json_ok _)|]; simpl; now apply lookup_insert_ne.
Qed.

Lemma await_self tf st q : NoDup (map fst tf) -> In q tf ->
  (fold_left (await_one json_ok net) tf st).(b_results) !! q.1 =
  Some (match net (submissions_url q.2) with
        | NOk content => if json_ok content then Some content else None
        | NFail => None end).
Proof using json_ok net.
  revert st. induction tf as [|q' tf IH]; intros st Hn Hq; [destruct Hq|].
  simpl in Hn. apply NoDup_cons in Hn as [Hq' Hn]. simpl.
  destruct Hq as [<-|Hq]; [|now apply IH].
  rewrite await_other by (intros Hin; apply Hq'; now apply list_elem_of_In).
  destruct q' as [cik p]. unfold await_one. simpl.
  destruct (net _); [destruct (json_ok _)|]; simpl; apply lookup_insert_eq.
Qed.

Lemma await_writes_mono tf st w : In w st.(b_writes) ->
  In w (fold_left (await_one json_ok net) tf st).(b_writes).
Proof using json_ok net.
  revert st. induction tf as [|[cik p] tf IH]; intros st Hw; [exact Hw|].
  simpl. apply IH. unfold await_one.
  destruct (net _); [destruct (json_ok _)|]; simpl; auto. apply in_or_app. now left.
Qed.

Lemma await_writes tf st w : In w (fold_left (await_one json_ok net) tf st).(b_writes) ->
  In w st.(b_writes) \/
  (In w.1 tf /\ net (submissions_url w.1.2) = NOk w.2 /\ json_ok w.2 = true).
Proof using json_ok net.
  revert st. induction tf as [|[cik p] tf IH]; intros st Hw; [now left|].
  simpl in Hw. apply IH in Hw as [Hw|(H1 & H2 & H3)]; [|right; split; [now right|auto]].
  unfold await_one in Hw. destruct (net (submissions_url p)) as [content|] eqn:En;
    [destruct (json_ok content) eqn:Ej|]; simpl in Hw; auto.
  apply in_app_or in Hw as [Hw|[<-|[]]]; [now left|].
  right. simpl. split; [now left|]. now split.
Qed.

Lemma await_writes_self tf st q content : In q tf ->
  net (submissions_url q.2) = NOk content -> json_ok content = true ->
  In (q.1, q.2, content) (fold_left (await_one json_ok net) tf st).(b_writes).
Proof using json_ok net.
  revert st. induction tf as [|q' tf IH]; intros st Hq En Ej; [destruct Hq|].
  destruct Hq as [Eq|Hq]; simpl; [subst q'|now apply IH].
  apply await_writes_mono. destruct q as [cik p]. unfold await_one. simpl in En |- *.
  rewrite En, Ej. simpl. apply in_or_app. right. now left.
Qed.

Lemma await_cache tf st p :
  (forall w, In w (fold_left (await_one json_ok net) tf st).(b_writes) -> w.1.2 <> p) ->
  (fold_left (await_one json_ok net) tf st).(b_cache) !! p = st.(b_cache) !! p.
Proof using json_ok net.
  revert st. induction tf as [|[cik p'] tf IH]; intros st Hw; [reflexivity|].
  simpl in *. rewrite IH by exact Hw.
  unfold await_one. destruct (net (submissions_url p')) as [content|] eqn:En;
    [destruct (json_ok content) eqn:Ej|]; simpl; try reflexivity.
  apply lookup_insert_ne. intros E0. subst p'.
  refine (Hw (cik, p, content) _ eq_refl). apply await_writes_mono.
  apply in_or_app. right. now left.
Qed.

End Facts.
End FetchFacts.

(** C10. In the batch submissions fetch, every cache write is of a body
    that parses as JSON (and is what the network returned for its URL).
    Every identifier of the batch has an entry: a fresh cache hit gives the
    cached text; otherwise a body that parses gives that body, written to
    the cache; a body that does not parse (or a failed request) gives
    [None], and nothing is written to the cache file of that identifier,
    whatever happens to the other identifiers.  This holds for any
    conversion [int_of] of the identifiers that does not raise, and for
    any outcome of the fetch tasks once each has completed. *)
Theorem C10_bad_json_not_cached (int_of : string -> option Z) (json_ok fresh : string -> bool)
  (net : string -> Fetch.net_result) (c : Fetch.cache) (ciks : list string)
  (st : Fetch.batch_state)
  (Hst : Fetch.fetch_submissions_batch int_of json_ok fresh net c ciks = Some st) :
  (forall cik p content, In (cik, p, content) st.(Fetch.b_writes) ->
     json_ok content = true /\ net (Fetch.submissions_url p) = Fetch.NOk content) /\
  (forall cik, In cik ciks -> exists p, Fetch.cik_padded int_of cik = Some p /\
     match Fetch.read_submissions_cache fresh c p with
     | Some cached => st.(Fetch.b_results) !! cik = Some (Some cached)
     | None =>
         match net (Fetch.submissions_url p) with
         | Fetch.NOk content =>
             if json_ok content
             then st.(Fetch.b_results) !! cik = Some (Some content) /\
                  In (cik, p, content) st.(Fetch.b_writes)
             else st.(Fetch.b_results) !! cik = Some None /\
                  (forall w, In w st.(Fetch.b_writes) -> w.1.2 <> p) /\
                  st.(Fetch.b_cache) !! p = c !! p
         | Fetch.NFail =>
             st.(Fetch.b_results) !! cik = Some None /\
             (forall w, In w st.(Fetch.b_writes) -> w.1.2 <> p) /\
             st.(Fetch.b_cache) !! p = c !! p
         end
     end).
Proof.
  unfold Fetch.fetch_submissions_batch in Hst.
  destruct (Fetch.build_cik_map int_of ciks []) as [m|] eqn:Hm; [|discriminate].
  destruct (FetchFacts.build_spec int_of ciks [] m Hm ltac:(constructor) ltac:(intros q [])) as (Hn & Hp & Hin).
  pose proof (FetchFacts.split_spec fresh c m (∅, [])) as Hsplit. cbv zeta in Hsplit.
  unfold Fetch.split_cached in Hst.
  destruct (fold_left _ m (∅, [])) as [res tf] eqn:Hf.
  simpl in Hsplit. destruct Hsplit as (Htf & Hres_other & Hres_hit).
  set (ff := List.filter _ m) in Htf.
  assert (Htf_sub : forall q, In q tf <-> In q m /\ Fetch.read_submissions_cache fresh c q.2 = None).
  { intros q. rewrite Htf. unfold ff. rewrite filter_In.
    destruct (Fetch.read_submissions_cache fresh c q.2); split; intros [H1 H2]; auto; discriminate. }
  assert (Hntf : NoDup (map fst tf)).
  { rewrite Htf. unfold ff. clear -Hn. induction m as [|q m IH]; simpl; [constructor|].
    simpl in Hn. apply NoDup_cons in Hn as [Hq Hn].
    destruct (Fetch.read_submissions_cache fresh c q.2); [now apply IH|].
    simpl. apply NoDup_cons. split; [|now apply IH].
    intros Hx. apply Hq. apply list_elem_of_In in Hx. apply list_elem_of_In.
    apply in_map_iff in Hx as (y & <- & Hy). apply filter_In in Hy as [Hy _]. now apply in_map. }
  (* the final state, in both branches, is the fold of the awaits over [tf] *)
  assert (Hst' : st = fold_left (Fetch.await_one json_ok net) tf (Fetch.mkB res c [])).
  { destruct tf; injection Hst as <-; reflexivity. }
  subst st. clear Hst.
  assert (Hw : forall w, In w (fold_left (Fetch.await_one json_ok net) tf (Fetch.mkB res c [])).(Fetch.b_writes) ->
     In w.1 tf /\ net (Fetch.submissions_url w.1.2) = Fetch.NOk w.2 /\ json_ok w.2 = true).
  { intros w Hw. apply FetchFacts.await_writes in Hw as [[]|Hw]. exact Hw. }
  split.
  { intros cik p content Hwr. destruct (Hw _ Hwr) as (_ & H2 & H3). simpl in *. now split. }
  intros cik Hcik.
  assert (Hcm : In cik (map fst m)) by (apply Hin; now left).
  apply in_map_iff in Hcm as ([cik' p] & Ec & Hq). simpl in Ec. subst cik'.
  exists p. split; [exact (Hp _ Hq)|].
  destruct (Fetch.read_submissions_cache fresh c p) as [x|] eqn:Er.
  - rewrite FetchFacts.await_other.
    + simpl. exact (Hres_hit Hn (cik, p) x Hq Er).
    + intros Hx. apply in_map_iff in Hx as ([cik' p'] & Ec & Hq'). simpl in Ec. subst cik'.
      apply Htf_sub in Hq' as [Hq' Er'].
      assert (E : (cik, p') = (cik, p)) by (apply (FetchFacts.nodup_fst_eq m); auto).
      injection E as ->. simpl in Er'. congruence.
  - assert (Hqt : In (cik, p) tf) by (apply Htf_sub; split; [exact Hq|exact Er]).
    pose proof (FetchFacts.await_self json_ok net tf (Fetch.mkB res c []) (cik, p) Hntf Hqt) as Hs.
    simpl in Hs.
    assert (Hnow : forall content, net (Fetch.submissions_url p) = Fetch.NOk content ->
                   json_ok content = false ->
                   forall w, In w (fold_left (Fetch.await_one json_ok net) tf (Fetch.mkB res c [])).(Fetch.b_writes) -> w.1.2 <> p).
    { intros content En Ej w Hwr Ep. destruct (Hw w Hwr) as (_ & H2 & H3).
      rewrite Ep, En in H2. injection H2 as E2. rewrite <- E2 in H3. congruence. }
    assert (Hnof : net (Fetch.submissions_url p) = Fetch.NFail ->
                   forall w, In w (fold_left (Fetch.await_one json_ok net) tf (Fetch.mkB res c [])).(Fetch.b_writes) -> w.1.2 <> p).
    { intros En w Hwr Ep. destruct (Hw w Hwr) as (_ & H2 & _). rewrite Ep, En in H2. discriminate. }
    destruct (net (Fetch.submissions_url p)) as [content|] eqn:En.
    + destruct (json_ok content) eqn:Ej.
      * split; [exact Hs|].
        exact (FetchFacts.await_writes_self json_ok net tf _ (cik, p) content Hqt En Ej).
      * split; [exact Hs|]. split; [exact (Hnow content eq_refl Ej)|].
        rewrite FetchFacts.await_cache; [reflexivity|exact (Hnow content eq_refl Ej)].
    + split; [exact Hs|]. split; [exact (Hnof eq_refl)|].
      rewrite FetchFacts.await_cache; [reflexivity|exact (Hnof eq_refl)].
Qed.

Lemma C10_bad_json_not_cached_witness :
  exists st, Fetch.fetch_submissions_batch Fetch.py_int Samples.json_sample Samples.fresh_none
               Samples.net_sample ∅ ["1"; "2"] = Some st /\
    (forall cik p content, In (cik, p, content) st.(Fetch.b_writes) ->
       Samples.json_sample content = true /\ Samples.net_sample (Fetch.submissions_url p) = Fetch.NOk content) /\
    (forall cik, In cik ["1"; "2"] -> exists p, Fetch.cik_padded Fetch.py_int cik = Some p /\
       match Fetch.read_submissions_cache Samples.fresh_none ∅ p with
       | Some cached => st.(Fetch.b_results) !! cik = Some (Some cached)
       | None =>
           match Samples.net_sample (Fetch.submissions_url p) with
           | Fetch.NOk content =>
               if Samples.json_sample content
               then st.(Fetch.b_results) !! cik = Some (Some content) /\
                    In (cik, p, content) st.(Fetch.b_writes)
               else st.(Fetch.b_results) !! cik = Some None /\
                    (forall w, In w st.(Fetch.b_writes) -> w.1.2 <> p) /\
                    st.(Fetch.b_cache) !! p = (∅ : Fetch.cache) !! p
           | Fetch.NFail =>
               st.(Fetch.b_results) !! cik = Some None /\
               (forall w, In w st.(Fetch.b_writes) -> w.1.2 <> p) /\
               st.(Fetch.b_cache) !! p = (∅ : Fetch.cache) !! p
           end
       end).
Proof.
  destruct (Fetch.fetch_submissions_batch Fetch.py_int Samples.json_sample Samples.fresh_none
              Samples.net_sample ∅ ["1"; "2"]) as [st|] eqn:E.
  - exists st. split; [reflexivity|].
    exact (C10_bad_json_not_cached Fetch.py_int Samples.json_sample Samples.fresh_none Samples.net_sample
             ∅ ["1"; "2"] st E).
  - exfalso. vm_compute in E. discriminate E.
Defined.

(** The batch above: CIK 1 (an HTML body) gets [None] and no cache write,
    CIK 2 gets its JSON body, which is the only cache write. *)
Example C10_sample_batch :
  option_map (fun st => (st.(Fetch.b_results) !! "1", st.(Fetch.b_results) !! "2",
                         st.(Fetch.b_writes), st.(Fetch.b_cache) !! "0000000001"))
    (Fetch.fetch_submissions_batch Fetch.py_int Samples.json_sample Samples.fresh_none
       Samples.net_sample ∅ ["1"; "2"])
  = Some (Some None, Some (Some "{}"), [("2", "0000000002", "{}")], None).
Proof. vm_compute. reflexivity. Qed.

(* ------------------------------------------------------------------ *)
(** * Further properties of the code *)

(** ** Dates: the calendar arithmetic and [date_plus_days] *)

Module DateFacts.

(** A day-of-year of 365 (a 29 February) only occurs in a leap year of
    the era. *)
Lemma doy365 (doe : Z) : 0 <= doe <= 146096 ->
  let yoe := (doe - doe / 1460 + doe / 36524 - doe / 146096) / 365 in
  doe - (365 * yoe + yoe / 4 - yoe / 100) = 365 ->
  ((yoe + 1) mod 4 = 0 /\ (yoe + 1) mod 100 <> 0) \/ yoe = 399.
Proof. intros H yoe. subst yoe. Z.div_mod_to_equations; lia. Qed.

Lemma leap_era (e r : Z) :
  ((r mod 4 = 0 /\ r mod 100 <> 0) \/ r = 400) -> Date.leap (r + e * 400) = true.
Proof.
  intros H. unfold Date.leap.
  destruct H as [[H1 H2]|H1].
  - replace ((r + e * 400) mod 4) with 0 by (Z.div_mod_to_equations; lia).
    replace ((r + e * 400) mod 100 =? 0) with false. reflexivity.
    symmetry. apply Z.eqb_neq. Z.div_mod_to_equations; lia.
  - subst r. replace ((400 + e * 400) mod 400) with 0 by (Z.div_mod_to_equations; lia).
    now rewrite orb_true_r.
Qed.

Lemma leap_iff (y : Z) : Date.leap y = true <-> (y mod 4 = 0 /\ y mod 100 <> 0) \/ y mod 400 = 0.
Proof.
  unfold Date.leap. rewrite orb_true_iff, andb_true_iff, negb_true_iff, !Z.eqb_eq, Z.eqb_neq.
  reflexivity.
Qed.

(** [civil_from_days] yields a valid date that [days_from_civil] maps back,
    in the 400-year era of its argument. *)
Lemma cfd_spec (z : Z) :
  let '(y, m, d) := Date.civil_from_days z in
  1 <= m <= 12 /\ 1 <= d <= Date.days_in_month y m /\ Date.days_from_civil y m d = z
  /\ (z + 719468) / 146097 * 400 <= y <= (z + 719468) / 146097 * 400 + 400.
Proof.
  unfold Date.civil_from_days.
  set (era := (z + 719468) / 146097).
  set (doe := z + 719468 - era * 146097).
  assert (Hdoe : 0 <= doe <= 146096) by (subst doe era; Z.div_mod_to_equations; lia).
  assert (Hz : z + 719468 = era * 146097 + doe) by (subst doe; ring).
  clearbody era doe.
  set (yoe := (doe - doe / 1460 + doe / 36524 - doe / 146096) / 365).
  pose proof (doy365 doe Hdoe) as Hl. cbv zeta in Hl. fold yoe in Hl.
  assert (Hy : 0 <= yoe <= 399 /\ 0 <= doe - (365 * yoe + yoe / 4 - yoe / 100) <= 365)
    by (subst yoe; Z.div_mod_to_equations; lia).
  clearbody yoe.
  set (doy := doe - (365 * yoe + yoe / 4 - yoe / 100)) in *.
  assert (Hd : doe = 365 * yoe + yoe / 4 - yoe / 100 + doy) by (subst doy; lia).
  clearbody doy.
  set (mp := (5 * doy + 2) / 153).
  assert (Hmp : 0 <= mp <= 11 /\ (153 * mp + 2) / 5 <= doy) by (subst mp; Z.div_mod_to_equations; lia).
  assert (Hmpd : 5 * doy + 2 < 153 * mp + 153) by (subst mp; Z.div_mod_to_equations; lia).
  clearbody mp.
  assert (HL : doy = 365 -> Date.leap (yoe + era * 400 + 1) = true).
  { intros E. replace (yoe + era * 400 + 1) with ((yoe + 1) + era * 400) by ring.
    apply leap_era. destruct (Hl E) as [?|?]; [now left|right; lia]. }
  clear Hl.
  destruct (Date.leap (yoe + era * 400 + 1)) eqn:EL.
  - clear HL. unfold Date.days_from_civil, Date.days_in_month.
    repeat match goal with
    | |- context [?a <=? ?b] => destruct (Z.leb_spec a b)
    | |- context [?a <? ?b] => destruct (Z.ltb_spec a b)
    | |- context [?a >? ?b] => rewrite (Z.gtb_ltb a b); destruct (Z.ltb_spec b a)
    | |- context [?a =? ?b] => destruct (Z.eqb_spec a b)
    | |- context [Date.leap ?y] => replace (Date.leap y) with true by (rewrite <- EL; f_equal; lia)
    end; cbn [orb]; Z.div_mod_to_equations; lia.
  - assert (doy <> 365) by (intro E; discriminate (HL E)). clear HL.
    unfold Date.days_from_civil, Date.days_in_month.
    repeat match goal with
    | |- context [?a <=? ?b] => destruct (Z.leb_spec a b)
    | |- context [?a <? ?b] => destruct (Z.ltb_spec a b)
    | |- context [?a >? ?b] => rewrite (Z.gtb_ltb a b); destruct (Z.ltb_spec b a)
    | |- context [?a =? ?b] => destruct (Z.eqb_spec a b)
    | |- context [Date.leap ?y] => replace (Date.leap y) with false by (rewrite <- EL; f_equal; lia)
    end; cbn [orb]; Z.div_mod_to_equations; lia.
Qed.

(** [days_from_civil] followed by [civil_from_days] is the identity on
    valid dates. *)
Lemma dfc_spec (y m d : Z) : 1 <= m <= 12 -> 1 <= d <= Date.days_in_month y m ->
  Date.civil_from_days (Date.days_from_civil y m d) = (y, m, d).
Proof.
  intros Hm Hd.
  assert (Hlen : d <= 28 \/ (m <> 2 /\ d <= 30) \/ (d = 31 /\ m <> 2 /\ m <> 4 /\ m <> 6 /\ m <> 9 /\ m <> 11)
     \/ (m = 2 /\ d = 29 /\ ((y mod 4 = 0 /\ y mod 100 <> 0) \/ y mod 400 = 0))).
  { unfold Date.days_in_month in Hd.
    destruct (Z.eqb_spec m 2).
    - destruct (Date.leap y) eqn:E; [|lia].
      apply leap_iff in E. lia.
    - destruct (Z.eqb_spec m 4), (Z.eqb_spec m 6), (Z.eqb_spec m 9), (Z.eqb_spec m 11); cbn [orb] in Hd; lia. }
  assert (Hd1 : 1 <= d) by lia. clear Hd.
  unfold Date.days_from_civil.
  set (y' := if m <=? 2 then y - 1 else y).
  assert (Ey : y = if m <=? 2 then y' + 1 else y') by (subst y'; destruct (m <=? 2); lia).
  clearbody y'. subst y.
  set (era := y' / 400). set (yoe := y' - era * 400).
  assert (Hy' : y' = era * 400 + yoe) by (subst yoe; ring).
  assert (Hyoe : 0 <= yoe <= 399) by (subst yoe era; Z.div_mod_to_equations; lia).
  clearbody era yoe. subst y'.
  set (mp := if m >? 2 then m - 3 else m + 9).
  assert (Hmp : (m > 2 /\ mp = m - 3) \/ (m <= 2 /\ mp = m + 9))
    by (subst mp; rewrite Z.gtb_ltb; destruct (Z.ltb_spec 2 m); lia).
  clearbody mp.
  set (doy := (153 * mp + 2) / 5 + d - 1).
  assert (Hdoy : 0 <= doy <= 365 /\ 5 * doy + 2 >= 153 * mp /\ 5 * doy + 2 < 153 * mp + 153
     /\ (doy = 365 -> m = 2 /\ d = 29)).
  { subst doy. destruct Hmp as [[? ->]|[? ->]];
    (assert (m = 1 \/ m = 2 \/ m = 3 \/ m = 4 \/ m = 5 \/ m = 6 \/ m = 7 \/ m = 8 \/ m = 9
             \/ m = 10 \/ m = 11 \/ m = 12) as Hc by lia);
    repeat (destruct Hc as [->|Hc]; [cbn -[Z.div]; Z.div_mod_to_equations; lia|]);
    subst m; cbn -[Z.div]; Z.div_mod_to_equations; lia. }
  assert (Edoy : doy = (153 * mp + 2) / 5 + d - 1) by reflexivity.
  clearbody doy.
  set (doe := yoe * 365 + yoe / 4 - yoe / 100 + doy).
  assert (Hleap : doy = 365 -> ((yoe + 1) mod 4 = 0 /\ (yoe + 1) mod 100 <> 0) \/ yoe = 399).
  { intros E. destruct (proj2 (proj2 (proj2 Hdoy)) E) as [-> ->].
    destruct Hlen as [?|[?|[?|[_ [_ Hl]]]]]; try lia.
    assert (Hm2 : (2 <=? 2) = true) by reflexivity. rewrite Hm2 in Hl.
    Z.div_mod_to_equations; lia. }
  assert (Hdoe : 0 <= doe <= 146096) by (subst doe; Z.div_mod_to_equations; lia).
  assert (Hyoe' : (doe - doe / 1460 + doe / 36524 - doe / 146096) / 365 = yoe)
    by (subst doe; Z.div_mod_to_equations; lia).
  assert (Edoe : doe = yoe * 365 + yoe / 4 - yoe / 100 + doy) by reflexivity.
  clearbody doe.
  unfold Date.civil_from_days.
  replace (era * 146097 + doe - 719468 + 719468) with (era * 146097 + doe) by ring.
  replace ((era * 146097 + doe) / 146097) with era by (Z.div_mod_to_equations; lia).
  replace (era * 146097 + doe - era * 146097) with doe by ring.
  rewrite Hyoe'.
  replace (doe - (365 * yoe + yoe / 4 - yoe / 100)) with doy by (rewrite Edoe; ring).
  replace ((5 * doy + 2) / 153) with mp by (Z.div_mod_to_equations; lia).
  destruct Hmp as [[H1 ->]|[H1 ->]].
  - replace (m - 3 <? 10) with true by (symmetry; apply Z.ltb_lt; lia).
    replace (m <=? 2) with false by (symmetry; apply Z.leb_gt; lia).
    replace (m - 3 + 3 <=? 2) with false by (symmetry; apply Z.leb_gt; lia).
    f_equal; [f_equal|]; lia.
  - replace (m + 9 <? 10) with false by (symmetry; apply Z.ltb_ge; lia).
    replace (m <=? 2) with true by (symmetry; apply Z.leb_le; lia).
    replace (m + 9 - 9 <=? 2) with true by (symmetry; apply Z.leb_le; lia).
    f_equal; [f_equal|]; lia.
Qed.

Lemma digit_char_ok (n : Z) : 0 <= n <= 9 -> Date.digit (Date.digit_char n) = Some n.
Proof.
  intros H. rewrite <- (Z2Nat.id n) by lia.
  assert (Hk : (Z.to_nat n <= 9)%nat) by lia.
  revert Hk. generalize (Z.to_nat n) as k. intros k Hk.
  do 10 (destruct k as [|k]; [reflexivity|]). lia.
Qed.

Lemma digit_inv (c : ascii) (x : Z) : Date.digit c = Some x -> 0 <= x <= 9 /\ Date.digit_char x = c.
Proof.
  unfold Date.digit, Date.digit_char, Py.is_digit_c, Py.code.
  destruct ((48 <=? nat_of_ascii c)%nat && (nat_of_ascii c <=? 57)%nat) eqn:E; [|discriminate].
  intros H. injection H as <-. apply andb_true_iff in E as [E1 E2].
  apply Nat.leb_le in E1, E2. split; [lia|].
  replace (Z.to_nat (Z.of_nat (nat_of_ascii c) - 48 + 48)) with (nat_of_ascii c) by lia.
  apply ascii_nat_embedding.
Qed.

Lemma digits2_ok (a b : Z) : 0 <= a <= 9 -> 0 <= b <= 9 ->
  Date.digits2 (Date.digit_char a) (Date.digit_char b) = Some (10 * a + b).
Proof. intros Ha Hb. unfold Date.digits2. now rewrite (digit_char_ok a Ha), (digit_char_ok b Hb). Qed.

Lemma digits2_inv (a b : ascii) (x : Z) : Date.digits2 a b = Some x ->
  0 <= x <= 99 /\ Date.pad2 x = String a (String b EmptyString).
Proof.
  unfold Date.digits2. destruct (Date.digit a) as [p|] eqn:Ea; [|discriminate].
  destruct (Date.digit b) as [q|] eqn:Eb; [|discriminate]. intros H. injection H as <-.
  apply digit_inv in Ea as [Hp Ea], Eb as [Hq Eb]. split; [lia|].
  unfold Date.pad2. rewrite <- Ea, <- Eb. f_equal; [|f_equal]; f_equal; Z.div_mod_to_equations; lia.
Qed.

(** Formatting a day of the years 0..2400 and parsing it back. *)
Lemma parse_format (z : Z) : 0 <= z + 719468 < 876582 ->
  Date.parse_iso (Date.format_iso z) = Some z.
Proof.
  intros Hz. generalize (cfd_spec z). unfold Date.format_iso.
  destruct (Date.civil_from_days z) as [[y m] d]. intros (Hm & Hd & Hz' & Hyb).
  assert (Hy : 0 <= y <= 2400) by (Z.div_mod_to_equations; lia).
  assert (Hd31 : d <= 31) by (unfold Date.days_in_month in Hd;
    repeat match type of Hd with context [if ?b then _ else _] => destruct b end; lia).
  unfold Date.pad4, Date.pad2. unfold Date.parse_iso. lazy beta iota fix delta [String.append].
  rewrite !digits2_ok by (Z.div_mod_to_equations; lia).
  replace (100 * (10 * (y / 1000) + y / 100 mod 10) + (10 * (y / 10 mod 10) + y mod 10)) with y
    by (Z.div_mod_to_equations; lia).
  replace (10 * (m / 10) + m mod 10) with m by (Z.div_mod_to_equations; lia).
  replace (10 * (d / 10) + d mod 10) with d by (Z.div_mod_to_equations; lia).
  cbn [Ascii.eqb Bool.eqb andb].
  replace (1 <=? m) with true by (symmetry; apply Z.leb_le; lia).
  replace (m <=? 12) with true by (symmetry; apply Z.leb_le; lia).
  replace (1 <=? d) with true by (symmetry; apply Z.leb_le; lia).
  replace (d <=? Date.days_in_month y m) with true by (symmetry; apply Z.leb_le; lia).
  now rewrite Hz'.
Qed.

(** Every string [parse_iso] accepts is the formatting of its day. *)
Lemma format_parse (s : string) (z : Z) : Date.parse_iso s = Some z -> Date.format_iso z = s.
Proof.
  unfold Date.parse_iso.
  destruct s as [|y1 [|y2 [|y3 [|y4 [|h1 [|m1 [|m2 [|h2 [|d1 [|d2 [|c s]]]]]]]]]]]; try discriminate.
  destruct (Date.digits2 y1 y2) as [ya|] eqn:Ea; [|discriminate].
  destruct (Date.digits2 y3 y4) as [yb|] eqn:Eb; [|discriminate].
  destruct (Date.digits2 m1 m2) as [m|] eqn:Em; [|discriminate].
  destruct (Date.digits2 d1 d2) as [d|] eqn:Ed; [|discriminate].
  cbv zeta.
  destruct (Ascii.eqb_spec h1 "-"); [|discriminate].
  destruct (Ascii.eqb_spec h2 "-"); [|discriminate]. subst h1 h2.
  destruct (Z.leb_spec 1 m); [|discriminate].
  destruct (Z.leb_spec m 12); [|discriminate].
  destruct (Z.leb_spec 1 d); [|discriminate].
  destruct (Z.leb_spec d (Date.days_in_month (100 * ya + yb) m)); [|discriminate].
  intros Hs. injection Hs as <-.
  unfold Date.format_iso. rewrite dfc_spec by lia.
  apply digits2_inv in Ea as [Ha Ea], Eb as [Hb Eb], Em as [_ Em], Ed as [_ Ed].
  unfold Date.pad2 in Ea, Eb. injection Ea as Ea1 Ea2. injection Eb as Eb1 Eb2.
  unfold Date.pad4. rewrite Em, Ed. lazy beta iota fix delta [String.append].
  rewrite <- Ea1, <- Ea2, <- Eb1, <- Eb2.
  replace ((100 * ya + yb) / 1000) with (ya / 10) by (Z.div_mod_to_equations; lia).
  replace ((100 * ya + yb) / 100 mod 10) with (ya mod 10) by (Z.div_mod_to_equations; lia).
  replace ((100 * ya + yb) / 10 mod 10) with (yb / 10) by (Z.div_mod_to_equations; lia).
  replace ((100 * ya + yb) mod 10) with (yb mod 10) by (Z.div_mod_to_equations; lia).
  reflexivity.
Qed.

Lemma ts_range (z : Z) : Date.ts_first_day <= z <= Date.ts_last_day -> 0 <= z + 719468 < 876582.
Proof.
  assert (E1 : Date.ts_first_day = -106751) by reflexivity.
  assert (E2 : Date.ts_last_day = 106751) by reflexivity.
  rewrite E1, E2. lia.
Qed.

End DateFacts.

(** The day a "YYYY-MM-DD" string in range denotes is what [pd.to_datetime]
    reads from it. *)
Lemma to_datetime_iso (s : string) (z : Z) :
  Date.parse_iso s = Some z -> Date.ts_first_day <= z <= Date.ts_last_day ->
  Date.to_datetime (Some s) = Some z.
Proof.
  intros Hs Hz. unfold Date.to_datetime. rewrite Hs.
  replace ((Date.ts_first_day <=? z) && (z <=? Date.ts_last_day)) with true; [reflexivity|].
  symmetry. apply andb_true_iff. split; apply Z.leb_le; lia.
Qed.

Lemma date_plus_days_day (s : string) (z n : Z) :
  Date.to_datetime (Some s) = Some z ->
  date_plus_days (Some s) n =
  if Date.timedelta_ok n && (Date.ts_first_day <=? z + n) && (z + n <=? Date.ts_last_day)
  then Date.format_iso (z + n) else "".
Proof. intros Hs. unfold date_plus_days. rewrite Hs. reflexivity. Qed.

Lemma shift_ok_iff (z n : Z) :
  Date.timedelta_ok n && (Date.ts_first_day <=? z + n) && (z + n <=? Date.ts_last_day) = true <->
  -106751 <= n <= 106751 /\ Date.ts_first_day <= z + n <= Date.ts_last_day.
Proof. unfold Date.timedelta_ok. rewrite !andb_true_iff, !Z.leb_le. tauto. Qed.

(** X1: on a "YYYY-MM-DD" date inside pandas' [Timestamp] range,
    [date_plus_days] returns a well-formed date exactly [n] days later when
    [pd.Timedelta(days=n)] exists and that day is in the range too, and ""
    otherwise (the caught overflow). *)
Theorem date_plus_days_shift (s : string) (z n : Z) :
  Date.parse_iso s = Some z ->
  Date.ts_first_day <= z <= Date.ts_last_day ->
  (-106751 <= n <= 106751 /\ Date.ts_first_day <= z + n <= Date.ts_last_day ->
     Date.parse_iso (date_plus_days (Some s) n) = Some (z + n)) /\
  (~ (-106751 <= n <= 106751 /\ Date.ts_first_day <= z + n <= Date.ts_last_day) ->
     date_plus_days (Some s) n = "").
Proof.
  intros Hs Hz. rewrite (date_plus_days_day s z n (to_datetime_iso s z Hs Hz)).
  split.
  - intros Hn. apply shift_ok_iff in Hn as Hb. rewrite Hb.
    apply DateFacts.parse_format, DateFacts.ts_range, Hn.
  - intros Hn. destruct (_ && _ && _) eqn:Hb; [|reflexivity].
    exfalso. apply Hn, shift_ok_iff, Hb.
Qed.

Lemma date_plus_days_shift_witness :
  Date.parse_iso "2025-01-01" = Some (Date.days_from_civil 2025 1 1) /\
  Date.ts_first_day <= Date.days_from_civil 2025 1 1 <= Date.ts_last_day /\
  (-106751 <= 75 <= 106751 /\
     Date.ts_first_day <= Date.days_from_civil 2025 1 1 + 75 <= Date.ts_last_day ->
     Date.parse_iso (date_plus_days (Some "2025-01-01") 75)
       = Some (Date.days_from_civil 2025 1 1 + 75)) /\
  (~ (-106751 <= 75 <= 106751 /\
        Date.ts_first_day <= Date.days_from_civil 2025 1 1 + 75 <= Date.ts_last_day) ->
     date_plus_days (Some "2025-01-01") 75 = "").
Proof.
  assert (Hs : Date.parse_iso "2025-01-01" = Some (Date.days_from_civil 2025 1 1))
    by reflexivity.
  assert (Hz : Date.ts_first_day <= Date.days_from_civil 2025 1 1 <= Date.ts_last_day)
    by (split; apply Z.leb_le; vm_compute; reflexivity).
  split; [exact Hs|]. split; [exact Hz|].
  exact (date_plus_days_shift "2025-01-01" (Date.days_from_civil 2025 1 1) 75 Hs Hz).
Defined.

(** X2: when the day [a] days later is in range and [pd.Timedelta] exists
    for [a], [b] and [a + b], shifting by [a] and then by [b] days is
    shifting by [a + b] days ("" on both sides when the final day is out of
    range). *)
Theorem date_plus_days_compose (s : string) (z a b : Z) :
  Date.parse_iso s = Some z ->
  Date.ts_first_day <= z <= Date.ts_last_day ->
  -106751 <= a <= 106751 -> -106751 <= b <= 106751 -> -106751 <= a + b <= 106751 ->
  Date.ts_first_day <= z + a <= Date.ts_last_day ->
  date_plus_days (Some (date_plus_days (Some s) a)) b = date_plus_days (Some s) (a + b).
Proof.
  intros Hs Hz Ha Hb Hab Hza.
  pose proof (to_datetime_iso s z Hs Hz) as Ht.
  rewrite (date_plus_days_day s z (a + b) Ht), (date_plus_days_day s z a Ht).
  assert (Hta : Date.timedelta_ok a && (Date.ts_first_day <=? z + a) && (z + a <=? Date.ts_last_day) = true)
    by (apply shift_ok_iff; lia).
  rewrite Hta.
  rewrite (date_plus_days_day _ (z + a) b).
  - replace (z + a + b) with (z + (a + b)) by ring. unfold Date.timedelta_ok.
    replace (-106751 <=? b) with true by (symmetry; apply Z.leb_le; lia).
    replace (b <=? 106751) with true by (symmetry; apply Z.leb_le; lia).
    replace (-106751 <=? a + b) with true by (symmetry; apply Z.leb_le; lia).
    replace (a + b <=? 106751) with true by (symmetry; apply Z.leb_le; lia).
    reflexivity.
  - apply to_datetime_iso; [|exact Hza].
    apply DateFacts.parse_format, DateFacts.ts_range, Hza.
Qed.

Lemma date_plus_days_compose_witness :
  Date.parse_iso "2024-12-20" = Some (Date.days_from_civil 2024 12 20) /\
  date_plus_days (Some (date_plus_days (Some "2024-12-20") 12)) 63
  = date_plus_days (Some "2024-12-20") (12 + 63).
Proof.
  assert (Hs : Date.parse_iso "2024-12-20" = Some (Date.days_from_civil 2024 12 20))
    by reflexivity.
  split; [exact Hs|].
  apply (date_plus_days_compose "2024-12-20" (Date.days_from_civil 2024 12 20) 12 63 Hs);
    try lia; split; apply Z.leb_le; vm_compute; reflexivity.
Defined.

(** X3: adding zero days to a "YYYY-MM-DD" string naming a day within
    pandas' [Timestamp] range gives the string back unchanged (the
    "%Y-%m-%d" output of [strftime] reproduces it). *)
Theorem date_plus_days_zero (s : string) (z : Z) :
  Date.parse_iso s = Some z ->
  Date.ts_first_day <= z <= Date.ts_last_day ->
  date_plus_days (Some s) 0 = s.
Proof.
  intros Hs Hz. rewrite (date_plus_days_day s z 0 (to_datetime_iso s z Hs Hz)).
  rewrite Z.add_0_r.
  replace (Date.timedelta_ok 0 && (Date.ts_first_day <=? z) && (z <=? Date.ts_last_day))
    with true; [|symmetry; pose proof (proj2 (shift_ok_iff z 0)) as H;
                 rewrite Z.add_0_r in H; apply H; lia].
  apply DateFacts.format_parse, Hs.
Qed.

Lemma date_plus_days_zero_witness :
  Date.parse_iso "2024-02-29" = Some (Date.days_from_civil 2024 2 29) /\
  date_plus_days (Some "2024-02-29") 0 = "2024-02-29".
Proof.
  assert (Hs : Date.parse_iso "2024-02-29" = Some (Date.days_from_civil 2024 2 29))
    by reflexivity.
  split; [exact Hs|].
  apply (date_plus_days_zero "2024-02-29" (Date.days_from_civil 2024 2 29) Hs).
  split; apply Z.leb_le; vm_compute; reflexivity.
Defined.

(** ** utils.normalize_spacing and clean_fund_name_for_rollup *)

Module SpacingFacts.

Abbreviation L := list_ascii_of_string.

(** The shape [normalize_spacing] leaves: every whitespace character is a
    plain space, no two whitespace characters are adjacent, and neither end
    is whitespace. *)
Definition sp_ok (l : list ascii) : Prop := List.Forall (fun c => Py.is_space_c c = true -> c = " "%char) l.
Definition nd (l : list ascii) : Prop :=
  forall l1 l2 a b, l = l1 ++ a :: b :: l2 -> Py.is_space_c a = false \/ Py.is_space_c b = false.
Definition hd_ok (l : list ascii) : Prop := forall c l', l = c :: l' -> Py.is_space_c c = false.
Definition lst_ok (l : list ascii) : Prop := forall c l', l = l' ++ [c] -> Py.is_space_c c = false.

Lemma L_inj (s t : string) : L s = L t -> s = t.
Proof. intros H. rewrite <- (string_of_list_ascii_of_string s), H. apply string_of_list_ascii_of_string. Qed.

Lemma L_srev (s acc : string) : L (Py.srev s acc) = rev (L s) ++ L acc.
Proof.
  revert acc. induction s as [|c s IH]; intros acc; [reflexivity|].
  simpl. rewrite IH. simpl. now rewrite <- app_assoc.
Qed.

Lemma lstrip_spec (s : string) :
  exists pre, L s = pre ++ L (Py.lstrip s) /\ List.Forall (fun c => Py.is_space_c c = true) pre
              /\ hd_ok (L (Py.lstrip s)).
Proof.
  induction s as [|c s IH].
  - exists []. split; [reflexivity|]. split; [constructor|]. intros ? ? H. discriminate H.
  - simpl. destruct (Py.is_space_c c) eqn:E.
    + destruct IH as (pre & H1 & H2 & H3). exists (c :: pre). simpl. rewrite <- H1.
      split; [reflexivity|]. split; [constructor; assumption|exact H3].
    + exists []. split; [reflexivity|]. split; [constructor|].
      intros c' l' H. simpl in H. injection H as <- _. exact E.
Qed.

Lemma lstrip_id (s : string) : hd_ok (L s) -> Py.lstrip s = s.
Proof.
  destruct s as [|c s]; [reflexivity|]. intros H. simpl.
  now rewrite (H c (L s) eq_refl).
Qed.

Lemma nd_cons (a : ascii) (l : list ascii) :
  nd l -> (Py.is_space_c a = true -> hd_ok l) -> nd (a :: l).
Proof.
  intros Hn Ha l1 l2 x y E. destruct l1 as [|z l1].
  - simpl in E. injection E as -> E. destruct (Py.is_space_c x) eqn:Ex; [right|now left].
    exact (Ha eq_refl y l2 E).
  - injection E as _ E. exact (Hn _ _ _ _ E).
Qed.

Lemma nd_app_r (l1 l2 : list ascii) : nd (l1 ++ l2) -> nd l2.
Proof. intros H k1 k2 a b E. apply (H (l1 ++ k1) k2). rewrite E. now rewrite app_assoc. Qed.

Lemma nd_rev (l : list ascii) : nd l -> nd (rev l).
Proof.
  intros H l1 l2 a b E.
  assert (E' : l = rev l2 ++ b :: a :: rev l1).
  { rewrite <- (rev_involutive l), E. rewrite rev_app_distr. simpl.
    now rewrite <- !app_assoc. }
  destruct (H _ _ _ _ E'); [now right|now left].
Qed.

Lemma sp_ok_app_r (l1 l2 : list ascii) : sp_ok (l1 ++ l2) -> sp_ok l2.
Proof. unfold sp_ok. rewrite List.Forall_app. tauto. Qed.

Lemma sp_ok_rev (l : list ascii) : sp_ok l -> sp_ok (rev l).
Proof. unfold sp_ok. intros H. apply List.Forall_forall. intros x Hx.
  apply in_rev in Hx. exact (proj1 (List.Forall_forall _ _) H x Hx). Qed.

Lemma hd_rev (l : list ascii) : lst_ok l -> hd_ok (rev l).
Proof.
  intros H c l' E. apply (H c (rev l')).
  rewrite <- (rev_involutive l), E. reflexivity.
Qed.

Lemma lst_rev (l : list ascii) : hd_ok l -> lst_ok (rev l).
Proof.
  intros H c l' E. apply (H c (rev l')).
  rewrite <- (rev_involutive l), E, rev_app_distr. reflexivity.
Qed.

Lemma lst_app_r (l1 l2 : list ascii) : lst_ok (l1 ++ l2) -> lst_ok l2.
Proof. intros H c l' E. apply (H c (l1 ++ l')). rewrite E. now rewrite app_assoc. Qed.

Lemma squash_spec (b : bool) (s : string) :
  sp_ok (L (Py.squash_go b s)) /\ nd (L (Py.squash_go b s))
  /\ (b = true -> hd_ok (L (Py.squash_go b s))).
Proof.
  revert b. induction s as [|c s IH]; intros b.
  - split; [constructor|]. split; [|intros _ ? ? E; discriminate E].
    intros [|? ?] ? ? ? E; discriminate E.
  - simpl. destruct (Py.is_space_c c) eqn:Ec.
    + destruct b.
      * exact (IH true).
      * destruct (IH true) as (H1 & H2 & H3). simpl. split; [constructor; [reflexivity|exact H1]|].
        split; [|discriminate]. apply nd_cons; [exact H2|]. intros _. exact (H3 eq_refl).
    + destruct (IH false) as (H1 & H2 & _). simpl.
      split; [constructor; [congruence|exact H1]|]. split.
      * apply nd_cons; [exact H2|congruence].
      * intros _ c' l' E. injection E as <- _. exact Ec.
Qed.

Lemma squash_id (b : bool) (s : string) :
  sp_ok (L s) -> nd (L s) -> (b = true -> hd_ok (L s)) -> Py.squash_go b s = s.
Proof.
  revert b. induction s as [|c s IH]; intros b Hs Hn Hh; [reflexivity|].
  simpl in *. inversion Hs as [|? ? Hc Hs']; subst.
  destruct (Py.is_space_c c) eqn:Ec.
  - destruct b; [pose proof (Hh eq_refl c (L s) eq_refl); congruence|].
    rewrite (Hc eq_refl). f_equal. apply IH; [exact Hs'|exact (nd_app_r [c] _ Hn)|].
    intros _ c' l' E. destruct (Hn [] l' c c') as [H|H]; [simpl; now rewrite E|congruence|exact H].
  - f_equal. apply IH; [exact Hs'|exact (nd_app_r [c] _ Hn)|discriminate].
Qed.

Lemma in_squash (b : bool) (s : string) (c : ascii) :
  In c (L (Py.squash_go b s)) -> In c (L s) \/ c = " "%char.
Proof.
  revert b. induction s as [|d s IH]; intros b H; [destruct H|].
  simpl in H. destruct (Py.is_space_c d), b; simpl in H.
  - destruct (IH _ H); [left; now right|now right].
  - destruct H as [<-|H]; [now right|]. destruct (IH _ H); [left; now right|now right].
  - destruct H as [<-|H]; [left; now left|]. destruct (IH _ H); [left; now right|now right].
  - destruct H as [<-|H]; [left; now left|]. destruct (IH _ H); [left; now right|now right].
Qed.

(** The four stages of [normalize_spacing] as lists. *)
Lemma normalize_shape (s : string) :
  sp_ok (L (normalize_spacing s)) /\ nd (L (normalize_spacing s))
  /\ hd_ok (L (normalize_spacing s)) /\ lst_ok (L (normalize_spacing s))
  /\ (forall c, In c (L (normalize_spacing s)) -> In c (L s) \/ c = " "%char).
Proof.
  unfold normalize_spacing, Py.strip, Py.squash_spaces.
  set (u := Py.squash_go false s).
  destruct (squash_spec false s) as (Hu1 & Hu2 & _). fold u in Hu1, Hu2.
  destruct (lstrip_spec u) as (p1 & Ev & _ & Hv3).
  set (v := Py.lstrip u) in *.
  assert (Hv1 : sp_ok (L v)) by (apply (sp_ok_app_r p1); now rewrite <- Ev).
  assert (Hv2 : nd (L v)) by (apply (nd_app_r p1); now rewrite <- Ev).
  set (w := Py.srev v "").
  assert (Ew : L w = rev (L v)) by (unfold w; rewrite L_srev; apply app_nil_r).
  destruct (lstrip_spec w) as (p2 & Ex & _ & Hx3).
  set (x := Py.lstrip w) in *.
  assert (Hx1 : sp_ok (L x)) by (apply (sp_ok_app_r p2); rewrite <- Ex, Ew; now apply sp_ok_rev).
  assert (Hx2 : nd (L x)) by (apply (nd_app_r p2); rewrite <- Ex, Ew; now apply nd_rev).
  assert (Hx4 : lst_ok (L x)) by (apply (lst_app_r p2); rewrite <- Ex, Ew; now apply lst_rev).
  rewrite L_srev, app_nil_r.
  split; [now apply sp_ok_rev|]. split; [now apply nd_rev|].
  split; [now apply hd_rev|]. split; [now apply lst_rev|].
  intros c Hc. apply in_rev in Hc.
  assert (Hw : In c (L w)) by (rewrite Ex; apply in_or_app; now right).
  rewrite Ew in Hw. apply in_rev in Hw.
  assert (Hu : In c (L u)) by (rewrite Ev; apply in_or_app; now right).
  exact (in_squash false s c Hu).
Qed.

(** A string of that shape is left as it is. *)
Lemma normalize_id (t : string) :
  sp_ok (L t) -> nd (L t) -> hd_ok (L t) -> lst_ok (L t) -> normalize_spacing t = t.
Proof.
  intros H1 H2 H3 H4. unfold normalize_spacing, Py.strip, Py.squash_spaces.
  rewrite (squash_id false t H1 H2 ltac:(discriminate)), (lstrip_id t H3).
  rewrite lstrip_id.
  - apply L_inj. rewrite !L_srev, !app_nil_r. apply rev_involutive.
  - rewrite L_srev, app_nil_r. now apply hd_rev.
Qed.

Lemma in_sfilter (p : ascii -> bool) (s : string) (c : ascii) :
  In c (L (Py.sfilter p s)) -> p c = true.
Proof.
  induction s as [|d s IH]; [intros []|]. simpl.
  destruct (p d) eqn:E; [|exact IH]. intros [<-|H]; [exact E|exact (IH H)].
Qed.

End SpacingFacts.

(** X4: the result of [normalize_spacing] has no whitespace other than
    single spaces, never two whitespace characters in a row, and no
    whitespace at either end. *)
Theorem normalize_spacing_shape (s : string) :
  let t := list_ascii_of_string (normalize_spacing s) in
  List.Forall (fun c => Py.is_space_c c = true -> c = " "%char) t /\
  (forall l1 l2 a b, t = l1 ++ a :: b :: l2 -> Py.is_space_c a = false \/ Py.is_space_c b = false) /\
  (forall c l, t = c :: l \/ t = l ++ [c] -> Py.is_space_c c = false).
Proof.
  destruct (SpacingFacts.normalize_shape s) as (H1 & H2 & H3 & H4 & _).
  split; [exact H1|]. split; [exact H2|].
  intros c l [E|E]; [exact (H3 c l E)|exact (H4 c l E)].
Qed.

(** X5: [normalize_spacing] is idempotent. *)
Theorem normalize_spacing_idempotent (s : string) :
  normalize_spacing (normalize_spacing s) = normalize_spacing s.
Proof.
  destruct (SpacingFacts.normalize_shape s) as (H1 & H2 & H3 & H4 & _).
  exact (SpacingFacts.normalize_id _ H1 H2 H3 H4).
Qed.

(** X6: a name cleaned by [clean_fund_name_for_rollup] contains no
    parenthesis and is already normalized ([normalize_spacing] leaves it
    unchanged). *)
Theorem clean_fund_name_shape (raw : string) :
  (forall c, In c (list_ascii_of_string (clean_fund_name_for_rollup raw)) ->
             c <> "("%char /\ c <> ")"%char) /\
  normalize_spacing (clean_fund_name_for_rollup raw) = clean_fund_name_for_rollup raw.
Proof.
  unfold clean_fund_name_for_rollup.
  set (s0 := Py.sfilter _ _).
  destruct (SpacingFacts.normalize_shape s0) as (H1 & H2 & H3 & H4 & H5). split.
  - intros c Hc. destruct (H5 c Hc) as [Hin | ->]; [|split; discriminate].
    apply SpacingFacts.in_sfilter in Hin. unfold is_paren in Hin.
    split; intros ->; discriminate Hin.
  - exact (SpacingFacts.normalize_id _ H1 H2 H3 H4).
Qed.


(** ** utils.is_html_doc and utils.is_pdf_doc *)

Module UtilsFacts.

Lemma L_append (a b : string) :
  list_ascii_of_string (String.append a b) = list_ascii_of_string a ++ list_ascii_of_string b.
Proof. induction a as [|c a IH]; [reflexivity|]. simpl. now rewrite IH. Qed.

Lemma substring_all (s : string) : substring 0 (String.length s) s = s.
Proof. induction s as [|c s IH]; [reflexivity|]. simpl. now rewrite IH. Qed.

Lemma substring_split (s : string) (m : nat) : (m <= String.length s)%nat ->
  s = String.append (substring 0 m s) (substring m (String.length s - m) s).
Proof.
  revert m. induction s as [|c s IH]; intros m Hm.
  - destruct m; [reflexivity|simpl in Hm; lia].
  - destruct m as [|m].
    + simpl. now rewrite substring_all.
    + cbn [substring String.length] in *.
      change (String.append (String c (substring 0 m s)) ?y)
        with (String c (String.append (substring 0 m s) y)).
      f_equal. apply IH. lia.
Qed.

Lemma endswith_app (s x : string) : Utils.endswith s x = true ->
  exists p, list_ascii_of_string s = list_ascii_of_string p ++ list_ascii_of_string x.
Proof.
  unfold Utils.endswith. intros H. apply andb_true_iff in H as [H1 H2].
  apply Nat.leb_le in H1. apply String.eqb_eq in H2.
  exists (substring 0 (String.length s - String.length x) s).
  rewrite <- L_append. f_equal.
  assert (Hle : (String.length s - String.length x <= String.length s)%nat) by lia.
  rewrite (substring_split s (String.length s - String.length x) Hle) at 1.
  f_equal. rewrite <- H2 at 3. f_equal. lia.
Qed.

Lemma last_char (s x y : string) (cx cy : ascii) :
  Utils.endswith s (String.append x (String cx EmptyString)) = true ->
  Utils.endswith s (String.append y (String cy EmptyString)) = true -> cx = cy.
Proof.
  intros Hx Hy. apply endswith_app in Hx as [p Hp], Hy as [q Hq].
  rewrite Hp, !L_append in Hq. simpl in Hq.
  apply (f_equal (@rev ascii)) in Hq. rewrite !app_assoc, !rev_app_distr in Hq.
  simpl in Hq. now injection Hq.
Qed.

Lemma upper_q (c : ascii) : Ascii.eqb (Py.upper_c c) "?" = Ascii.eqb c "?".
Proof. destruct c as [[] [] [] [] [] [] [] []]; reflexivity. Qed.

Lemma upper_space (c : ascii) : Py.is_space_c (Py.upper_c c) = Py.is_space_c c.
Proof. destruct c as [[] [] [] [] [] [] [] []]; reflexivity. Qed.

Lemma lower_upper (c : ascii) : Py.lower_c (Py.upper_c c) = Py.lower_c c.
Proof. destruct c as [[] [] [] [] [] [] [] []]; reflexivity. Qed.

Lemma before_q_upper (s : string) : Utils.before_q (Py.upper s) = Py.upper (Utils.before_q s).
Proof.
  induction s as [|c s IH]; [reflexivity|]. unfold Py.upper in *. simpl.
  rewrite upper_q. destruct (Ascii.eqb c "?"); [reflexivity|]. simpl. now rewrite IH.
Qed.

Lemma before_q_query (u q : string) : ~ In "?"%char (list_ascii_of_string u) ->
  Utils.before_q (String.append u (String "?" q)) = u.
Proof.
  induction u as [|c u IH]; intros H; [reflexivity|]. simpl.
  destruct (Ascii.eqb_spec c "?") as [->|_]; [destruct H; now left|].
  f_equal. apply IH. intros H'. apply H. now right.
Qed.

Lemma before_q_id (u : string) : ~ In "?"%char (list_ascii_of_string u) ->
  Utils.before_q u = u.
Proof.
  induction u as [|c u IH]; intros H; [reflexivity|]. simpl.
  destruct (Ascii.eqb_spec c "?") as [->|_]; [destruct H; now left|].
  f_equal. apply IH. intros H'. apply H. now right.
Qed.

Lemma lstrip_upper (s : string) : Py.lstrip (Py.upper s) = Py.upper (Py.lstrip s).
Proof.
  induction s as [|c s IH]; [reflexivity|]. unfold Py.upper in *. simpl.
  rewrite upper_space. destruct (Py.is_space_c c); [exact IH|reflexivity].
Qed.

Lemma srev_upper (s acc : string) : Py.srev (Py.upper s) (Py.upper acc) = Py.upper (Py.srev s acc).
Proof.
  revert acc. induction s as [|c s IH]; intros acc; [reflexivity|].
  unfold Py.upper in *. simpl. exact (IH (String c acc)).
Qed.

Lemma strip_upper (s : string) : Py.strip (Py.upper s) = Py.upper (Py.strip s).
Proof.
  unfold Py.strip. rewrite lstrip_upper.
  change EmptyString with (Py.upper EmptyString).
  now rewrite srev_upper, lstrip_upper, srev_upper.
Qed.

Lemma lower_upper_s (s : string) : Utils.lower (Py.upper s) = Utils.lower s.
Proof.
  induction s as [|c s IH]; [reflexivity|]. unfold Utils.lower, Py.upper in *. simpl.
  now rewrite lower_upper, IH.
Qed.

End UtilsFacts.

(** X7: no link is taken both for an HTML document and for a PDF, so step 3
    runs at most one of the primary-document extractors on a filing. *)
Theorem html_pdf_exclusive (url : string) :
  Utils.is_html_doc url && Utils.is_pdf_doc url = false.
Proof.
  unfold Utils.is_html_doc, Utils.is_pdf_doc.
  set (u := Utils.doc_key url).
  destruct (Utils.endswith u ".pdf") eqn:Ep; [|now rewrite andb_false_r].
  destruct (Utils.endswith u ".htm") eqn:Eh.
  - exfalso. assert (E : "f"%char = "m"%char).
    { apply (UtilsFacts.last_char u ".pd" ".ht"); assumption. }
    discriminate E.
  - destruct (Utils.endswith u ".html") eqn:El; [|reflexivity].
    exfalso. assert (E : "f"%char = "l"%char).
    { apply (UtilsFacts.last_char u ".pd" ".htm"); assumption. }
    discriminate E.
Qed.

(** X8: the document kind of a link depends neither on letter case nor on a
    query string: upper-casing the link and appending "?..." to a path
    without "?" changes neither [is_html_doc] nor [is_pdf_doc]. *)
Theorem doc_kind_ignores_case_and_query (u q : string) :
  ~ In "?"%char (list_ascii_of_string u) ->
  Utils.is_html_doc (Py.upper (String.append u (String "?" q))) = Utils.is_html_doc u /\
  Utils.is_pdf_doc (Py.upper (String.append u (String "?" q))) = Utils.is_pdf_doc u.
Proof.
  intros Hq.
  assert (E : Utils.doc_key (Py.upper (String.append u (String "?" q))) = Utils.doc_key u).
  { unfold Utils.doc_key.
    rewrite UtilsFacts.before_q_upper, (UtilsFacts.before_q_query u q Hq), (UtilsFacts.before_q_id u Hq).
    now rewrite UtilsFacts.strip_upper, UtilsFacts.lower_upper_s. }
  unfold Utils.is_html_doc, Utils.is_pdf_doc. now rewrite E.
Qed.

Lemma doc_kind_ignores_case_and_query_witness :
  ~ In "?"%char (list_ascii_of_string "https://www.sec.gov/x/doc.htm") /\
  Utils.is_html_doc (Py.upper (String.append "https://www.sec.gov/x/doc.htm" (String "?" "a=1")))
    = Utils.is_html_doc "https://www.sec.gov/x/doc.htm" /\
  Utils.is_pdf_doc (Py.upper (String.append "https://www.sec.gov/x/doc.htm" (String "?" "a=1")))
    = Utils.is_pdf_doc "https://www.sec.gov/x/doc.htm".
Proof.
  assert (H : ~ In "?"%char (list_ascii_of_string "https://www.sec.gov/x/doc.htm")).
  { simpl. intros H. repeat (destruct H as [H|H]; [discriminate H|]). exact H. }
  split; [exact H|]. exact (doc_kind_ignores_case_and_query _ "a=1" H).
Defined.


(** ** step4.py: fund groups, the per-group row and the final table *)

Module RollupFacts.

Definition no_upper (d : string) : Prop :=
  forall c, In c (list_ascii_of_string d) -> Py.is_upper_c c = false.

Lemma lower_c_not_upper (c : ascii) : Py.is_upper_c (Py.lower_c c) = false.
Proof. destruct c as [[] [] [] [] [] [] [] []]; reflexivity. Qed.

Lemma casefold_no_upper (s : string) : no_upper (Py.casefold s).
Proof.
  unfold no_upper. induction s as [|a s IH]; simpl; [easy|].
  intros c [<-|H]; [apply lower_c_not_upper|now apply IH].
Qed.

Lemma disp_key_no_upper (r : Rollup.xrow) : no_upper (Rollup.disp_key r).
Proof. apply casefold_no_upper. Qed.

Lemma no_upper_tail (c : ascii) (d : string) : no_upper (String c d) -> no_upper d.
Proof. intros H x Hx. apply H. now right. Qed.

Lemma sep_neq (d t x : string) (a : ascii) : Py.is_upper_c a = true -> no_upper d ->
  String.append d (String.append "|T:" t) <> String a x.
Proof.
  intros Ha Hd E. destruct d as [|c d]; simpl in E; injection E as Ec _.
  - subst a. discriminate Ha.
  - subst c. rewrite (Hd a) in Ha; [discriminate|now left].
Qed.

Lemma sep_split (d1 d2 t1 t2 : string) : no_upper d1 -> no_upper d2 ->
  String.append d1 (String.append "|T:" t1) = String.append d2 (String.append "|T:" t2) ->
  d1 = d2 /\ t1 = t2.
Proof.
  revert d2. induction d1 as [|c d1 IH]; intros d2 H1 H2 E.
  - destruct d2 as [|c d2].
    + simpl in E. now injection E.
    + exfalso. simpl in E. injection E as <- E.
      symmetry in E. apply (sep_neq d2 t2 (String ":" t1) "T"); auto.
      now apply no_upper_tail in H2.
  - destruct d2 as [|c' d2].
    + exfalso. simpl in E. injection E as -> E.
      apply (sep_neq d1 t1 (String ":" t2) "T"); auto.
      now apply no_upper_tail in H1.
    + simpl in E. injection E as <- E.
      destruct (IH d2 (no_upper_tail _ _ H1) (no_upper_tail _ _ H2) E) as [-> ->].
      split; reflexivity.
Qed.

Lemma str_sorted_nodup (l : list string) : str_sorted l -> NoDup l.
Proof.
  induction l as [|a l IH]; intros H; [constructor|].
  inversion H as [|? ? H' Ha]; subst. constructor; [|now apply IH].
  rewrite list_elem_of_In. intros Hin.
  pose proof (proj1 (List.Forall_forall _ _) Ha a Hin) as Haa. cbn beta in Haa.
  now rewrite py_lt_irrefl in Haa.
Qed.

Lemma pick_key (g : list Rollup.xrow) (k : string) :
  (Rollup.pick_latest g k).(Rollup.fs_key) = k.
Proof.
  unfold Rollup.pick_latest.
  destruct (Rollup.choose _ _ _) as [[[[[? ?] ?] ?] ?] ?]. reflexivity.
Qed.

Lemma str_leb_total (a b : string) : String.leb a b = false -> String.leb b a = true.
Proof.
  unfold String.leb. rewrite (String.compare_antisym b a).
  destruct (String.compare a b); easy.
Qed.

Lemma lex_trans (x y z : string) (p q r : bool) :
  (if negb (String.eqb x y) then Py.lt x y else p) = true ->
  (if negb (String.eqb y z) then Py.lt y z else q) = true ->
  (x = y -> y = z -> p = true -> q = true -> r = true) ->
  (if negb (String.eqb x z) then Py.lt x z else r) = true.
Proof.
  destruct (String.eqb_spec x y) as [->|Nxy], (String.eqb_spec y z) as [->|Nyz];
    simpl; intros H1 H2 H3; try solve [auto].
  - apply String.eqb_neq in Nxy. rewrite Nxy. exact H1.
  - pose proof (py_lt_trans _ _ _ H1 H2) as Hxz.
    destruct (String.eqb_spec x z) as [->|_]; [|exact Hxz].
    now rewrite py_lt_irrefl in Hxz.
Qed.

Lemma lex_total (x y : string) (p q : bool) :
  (if negb (String.eqb x y) then Py.lt x y else p) = false -> (p = false -> q = true) ->
  (if negb (String.eqb y x) then Py.lt y x else q) = true.
Proof.
  destruct (String.eqb_spec x y) as [->|Nxy]; simpl; intros H1 H2.
  - rewrite ?String.eqb_refl. simpl. auto.
  - destruct (String.eqb_spec y x) as [->|_]; [congruence|]. simpl.
    now apply py_lt_total.
Qed.

Lemma desc_le_trans (a b c : cell) :
  Rollup.desc_le a b = true -> Rollup.desc_le b c = true -> Rollup.desc_le a c = true.
Proof.
  destruct a, b, c; simpl; try easy. intros H1 H2. eapply str_leb_trans; eauto.
Qed.

Lemma desc_le_total (a b : cell) : Rollup.desc_le a b = false -> Rollup.desc_le b a = true.
Proof. destruct a, b; simpl; try easy. apply str_leb_total. Qed.

Lemma roll_le_trans (a b c : Rollup.fund_status) :
  Rollup.roll_le a b = true -> Rollup.roll_le b c = true -> Rollup.roll_le a c = true.
Proof.
  unfold Rollup.roll_le. intros H1 H2. eapply lex_trans; [exact H1|exact H2|].
  intros _ _ H1' H2'. eapply lex_trans; [exact H1'|exact H2'|].
  intros _ _. apply desc_le_trans.
Qed.

Lemma roll_le_total (a b : Rollup.fund_status) :
  Rollup.roll_le a b = false -> Rollup.roll_le b a = true.
Proof.
  unfold Rollup.roll_le. intros H. eapply lex_total; [exact H|].
  intros H'. eapply lex_total; [exact H'|]. apply desc_le_total.
Qed.

Lemma dedup_last_sorted {A K} `{EqDecision K} (key : A -> K) (R : A -> A -> Prop) l :
  StronglySorted R l -> StronglySorted R (dedup_last key l).
Proof.
  induction l as [|a l IH]; intros H; simpl; [constructor|].
  inversion H as [|? ? H' Ha]; subst.
  destruct (existsb _ l); [now apply IH|]. constructor; [now apply IH|].
  apply List.Forall_forall. intros x Hx. apply dedup_last_in in Hx.
  now apply (proj1 (List.Forall_forall _ _) Ha).
Qed.

Lemma filter_nil_existsb {A} (p : A -> bool) (l : list A) :
  List.filter p l = [] <-> existsb p l = false.
Proof.
  induction l as [|a l IH]; simpl; [tauto|].
  destruct (p a); simpl; [split; discriminate|exact IH].
Qed.

Lemma last_opt_none {A} (l : list A) : last_opt l = None <-> l = [].
Proof.
  split; [|now intros ->]. destruct l as [|a l]; [easy|].
  intros H. destruct (last_opt_some (a :: l) a (or_introl eq_refl)) as [y Hy]. congruence.
Qed.

Lemma existsb_perm {A} (p : A -> bool) (l1 l2 : list A) :
  Permutation l1 l2 -> existsb p l1 = existsb p l2.
Proof.
  intros HP. apply eq_true_iff_eq. rewrite !existsb_exists.
  split; intros (x & Hx & Hp); exists x; split; auto.
  - now apply (Permutation_in _ HP).
  - now apply (Permutation_in _ (Permutation_sym HP)).
Qed.

Lemma latest_none (p : Rollup.xrow -> bool) (g : list Rollup.xrow) :
  last_opt (List.filter p (Rollup.sort_fdt g)) = None <-> existsb p g = false.
Proof.
  rewrite last_opt_none, filter_nil_existsb. unfold Rollup.sort_fdt.
  now rewrite (existsb_perm p _ _ (stable_sort_perm _ g)).
Qed.

Lemma fdt_le_refl (a : option Z) : Rollup.fdt_le a a = true.
Proof. destruct a; simpl; [apply Z.leb_refl|reflexivity]. Qed.

End RollupFacts.

(** X9: two extraction rows fall into the same fund group exactly when they
    have the same class id; or, both without class id, the same series id;
    or, both without either, the same case-folded display name and the same
    upper-cased ticker.  The three kinds of group key never collide, since a
    case-folded name has no upper-case letter. *)
Theorem gkey_same_group (r1 r2 : Rollup.xrow) :
  Rollup.gkey r1 = Rollup.gkey r2 <->
  fillna r1.(Rollup.x_class_id) = fillna r2.(Rollup.x_class_id) /\
  (fillna r1.(Rollup.x_class_id) = "" ->
     fillna r1.(Rollup.x_series_id) = fillna r2.(Rollup.x_series_id) /\
     (fillna r1.(Rollup.x_series_id) = "" ->
        Rollup.disp_key r1 = Rollup.disp_key r2 /\ Rollup.tickerU r1 = Rollup.tickerU r2)).
Proof.
  pose proof (RollupFacts.disp_key_no_upper r1) as N1.
  pose proof (RollupFacts.disp_key_no_upper r2) as N2.
  unfold Rollup.gkey. cbv zeta.
  destruct (String.eqb_spec (fillna r1.(Rollup.x_class_id)) "") as [C1|C1];
  destruct (String.eqb_spec (fillna r2.(Rollup.x_class_id)) "") as [C2|C2]; simpl negb.
  - rewrite C1, C2.
    destruct (String.eqb_spec (fillna r1.(Rollup.x_series_id)) "") as [S1|S1];
    destruct (String.eqb_spec (fillna r2.(Rollup.x_series_id)) "") as [S2|S2]; simpl negb.
    + rewrite S1, S2. split.
      * intros E. destruct (RollupFacts.sep_split _ _ _ _ N1 N2 E). tauto.
      * intros (_ & H). destruct (H eq_refl) as (_ & H'). destruct (H' eq_refl) as [-> ->].
        reflexivity.
    + split.
      * intros E. exfalso.
        change (String.append "S:" ?x) with (String "S" (String ":" x)) in E.
        exact (RollupFacts.sep_neq _ _ _ "S" eq_refl N1 E).
      * intros (_ & H). destruct (H eq_refl) as (E & _). congruence.
    + split.
      * intros E. exfalso. symmetry in E.
        change (String.append "S:" ?x) with (String "S" (String ":" x)) in E.
        exact (RollupFacts.sep_neq _ _ _ "S" eq_refl N2 E).
      * intros (_ & H). destruct (H eq_refl) as (E & _). congruence.
    + split.
      * intros E. simpl in E. injection E as E. tauto.
      * intros (_ & H). destruct (H eq_refl) as (-> & _). reflexivity.
  - split.
    + intros E. exfalso.
      change (String.append "C:" ?x) with (String "C" (String ":" x)) in E.
      destruct (String.eqb_spec (fillna r1.(Rollup.x_series_id)) ""); simpl in E.
      * exact (RollupFacts.sep_neq _ _ _ "C" eq_refl N1 E).
      * change (String.append "S:" ?x) with (String "S" (String ":" x)) in E. discriminate E.
    + intros (E & _). congruence.
  - split.
    + intros E. exfalso. symmetry in E.
      change (String.append "C:" ?x) with (String "C" (String ":" x)) in E.
      destruct (String.eqb_spec (fillna r2.(Rollup.x_series_id)) ""); simpl in E.
      * exact (RollupFacts.sep_neq _ _ _ "C" eq_refl N2 E).
      * change (String.append "S:" ?x) with (String "S" (String ":" x)) in E. discriminate E.
    + intros (E & _). congruence.
  - split.
    + intros E. simpl in E. injection E as E. split; [exact E|]. intros H. contradiction.
    + intros (-> & _). reflexivity.
Qed.

(** X10: step 4 builds one status row per fund group: the rows' [Fund Key]s
    are pairwise distinct, and they are exactly the group keys of the input
    rows. *)
Theorem roll_one_row_per_group (rows : list Rollup.xrow) :
  NoDup (map Rollup.fs_key (Rollup.roll rows)) /\
  (forall k, In k (map Rollup.fs_key (Rollup.roll rows)) <->
             exists r, In r rows /\ Rollup.gkey r = k).
Proof.
  assert (E : map Rollup.fs_key (Rollup.roll rows) = Rollup.group_keys rows).
  { unfold Rollup.roll. rewrite map_map.
    erewrite map_ext; [apply map_id|]. intros k. apply RollupFacts.pick_key. }
  rewrite E. split.
  - apply RollupFacts.str_sorted_nodup, group_keys_sorted.
  - intros k. rewrite group_keys_in, in_map_iff. split; intros (r & H1 & H2); eauto.
Qed.

(** X11: the final cross-group pass leaves at most one row per
    (case-folded canonical name, upper-cased ticker) pair, keeps only rows of
    the per-group table, and drops no pair: every pair of the per-group table
    still has a row. *)
Theorem rollup_unique_name_ticker (rows : list Rollup.xrow) :
  NoDup (map Rollup.dedup_key (Rollup.rollup rows)) /\
  (forall f, In f (Rollup.rollup rows) -> In f (Rollup.roll rows)) /\
  (forall f, In f (Rollup.roll rows) ->
     exists f', In f' (Rollup.rollup rows) /\ Rollup.dedup_key f' = Rollup.dedup_key f).
Proof.
  unfold Rollup.rollup, Rollup.final_pass. split; [apply dedup_last_nodup|]. split.
  - intros f Hf. apply dedup_last_in in Hf.
    exact (Permutation_in _ (stable_sort_perm _ _) Hf).
  - intros f Hf. apply dedup_last_keys. exists f. split; [|reflexivity].
    exact (Permutation_in _ (Permutation_sym (stable_sort_perm _ _)) Hf).
Qed.

(** X12: the Fund Status table is ordered: by [Registrant], then [Canonical
    Fund Name], ascending, then by [Latest Prospectus Date] descending with
    empty dates last. *)
Theorem rollup_sorted (rows : list Rollup.xrow) :
  StronglySorted (fun a b => Rollup.roll_le a b = true) (Rollup.rollup rows).
Proof.
  unfold Rollup.rollup, Rollup.final_pass.
  apply RollupFacts.dedup_last_sorted, stable_sort_sorted.
  - apply RollupFacts.roll_le_total.
  - apply RollupFacts.roll_le_trans.
Qed.

(** X13: the latest-prospectus source of a group is "485B" when some row's
    form starts with "485B", else "485A" when some row's starts with "485A",
    else empty; in that last case the latest-prospectus fields are empty and
    the status is "Supplements only" or "No prospectus form found" according
    as some row's form starts with "497" or none does. *)
Theorem pick_latest_source (g : list Rollup.xrow) (k : string) :
  (Rollup.pick_latest g k).(Rollup.fs_lp_src) =
    (if existsb Rollup.is485B g then "485B"
     else if existsb Rollup.is485A g then "485A" else "") /\
  (existsb Rollup.is485B g = false -> existsb Rollup.is485A g = false ->
     (Rollup.pick_latest g k).(Rollup.fs_status) =
       (if existsb Rollup.is497 g then "Supplements only" else "No prospectus form found") /\
     (Rollup.pick_latest g k).(Rollup.fs_lp_form) = Some "" /\
     (Rollup.pick_latest g k).(Rollup.fs_lp_date) = Some "" /\
     (Rollup.pick_latest g k).(Rollup.fs_lp_eff) = Some "" /\
     (Rollup.pick_latest g k).(Rollup.fs_lp_link) = Some "").
Proof.
  pose proof (RollupFacts.latest_none Rollup.is485B g) as LB.
  pose proof (RollupFacts.latest_none Rollup.is485A g) as LA.
  pose proof (RollupFacts.latest_none Rollup.is497 g) as LS.
  unfold Rollup.pick_latest.
  destruct (last_opt (List.filter Rollup.is485B (Rollup.sort_fdt g))) as [rb|] eqn:EB.
  - assert (HB : existsb Rollup.is485B g = true)
      by (destruct (existsb Rollup.is485B g); [reflexivity|]; discriminate (proj2 LB eq_refl)).
    rewrite HB. split; [reflexivity|]. discriminate.
  - rewrite (proj1 LB eq_refl).
    destruct (last_opt (List.filter Rollup.is485A (Rollup.sort_fdt g))) as [ra|] eqn:EA.
    + assert (HA : existsb Rollup.is485A g = true)
        by (destruct (existsb Rollup.is485A g); [reflexivity|]; discriminate (proj2 LA eq_refl)).
      rewrite HA. split; [reflexivity|]. discriminate.
    + rewrite (proj1 LA eq_refl). split; [reflexivity|]. intros _ _.
      destruct (last_opt (List.filter Rollup.is497 (Rollup.sort_fdt g))) as [rs|] eqn:ES.
      * assert (HS : existsb Rollup.is497 g = true)
          by (destruct (existsb Rollup.is497 g); [reflexivity|]; discriminate (proj2 LS eq_refl)).
        rewrite HS. repeat split.
      * rewrite (proj1 LS eq_refl). repeat split.
Qed.

(** X14: the first-seen date, form and link of a non-empty group are those of
    one of its rows with the earliest filing date (a row with an unparsable
    date only when no row has a parsable one). *)
Theorem pick_latest_first_seen (g : list Rollup.xrow) (k : string) :
  g <> [] ->
  exists r, In r g /\
    (forall r', In r' g -> Rollup.fdt_le (Rollup.fdt r) (Rollup.fdt r') = true) /\
    (Rollup.pick_latest g k).(Rollup.fs_first_date) = pystr r.(Rollup.x_filing_date) /\
    (Rollup.pick_latest g k).(Rollup.fs_first_form) = pystr r.(Rollup.x_form) /\
    (Rollup.pick_latest g k).(Rollup.fs_first_link) = pystr r.(Rollup.x_primary_link).
Proof.
  intros Hne.
  pose proof (stable_sort_perm (fun a b => Rollup.fdt_le (Rollup.fdt a) (Rollup.fdt b)) g) as HP.
  pose proof (stable_sort_sorted (fun a b => Rollup.fdt_le (Rollup.fdt a) (Rollup.fdt b))
                (fun a b => fdt_le_total (Rollup.fdt a) (Rollup.fdt b))
                (fun a b c => fdt_le_trans (Rollup.fdt a) (Rollup.fdt b) (Rollup.fdt c)) g) as HS.
  fold (Rollup.sort_fdt g) in HP, HS.
  destruct (Rollup.sort_fdt g) as [|r tl] eqn:Eg.
  - exfalso. apply Hne. now apply Permutation_nil.
  - exists r. split; [exact (Permutation_in _ HP (or_introl eq_refl))|]. split.
    + intros r' Hr'. apply (Permutation_in _ (Permutation_sym HP)) in Hr'.
      destruct Hr' as [<-|Hr']; [apply RollupFacts.fdt_le_refl|].
      inversion HS as [|? ? _ Hall]; subst.
      exact (proj1 (List.Forall_forall _ _) Hall r' Hr').
    + unfold Rollup.pick_latest. rewrite Eg.
      destruct (Rollup.choose _ _ _) as [[[[[? ?] ?] ?] ?] ?].
      repeat split.
Qed.

Lemma pick_latest_first_seen_witness :
  [Samples.p_a; Samples.p_b] <> [] /\
  exists r, In r [Samples.p_a; Samples.p_b] /\
    (forall r', In r' [Samples.p_a; Samples.p_b] ->
       Rollup.fdt_le (Rollup.fdt r) (Rollup.fdt r') = true) /\
    (Rollup.pick_latest [Samples.p_a; Samples.p_b] "C:C7").(Rollup.fs_first_date)
      = pystr r.(Rollup.x_filing_date) /\
    (Rollup.pick_latest [Samples.p_a; Samples.p_b] "C:C7").(Rollup.fs_first_form)
      = pystr r.(Rollup.x_form) /\
    (Rollup.pick_latest [Samples.p_a; Samples.p_b] "C:C7").(Rollup.fs_first_link)
      = pystr r.(Rollup.x_primary_link).
Proof.
  assert (H : [Samples.p_a; Samples.p_b] <> []) by discriminate.
  split; [exact H|]. exact (pick_latest_first_seen _ "C:C7" H).
Defined.


(** ** step5.py: the name history *)

Module HistoryFacts2.
Import History.

(** Keys of [seen_names] are unique and non-empty, each is the case-folded
    cleaned form of its entry's name, and the optional "source" key is
    absent or "PROSPECTUS". *)
Definition kinv (s : seen) : Prop :=
  NoDup (map fst s) /\
  List.Forall (fun p => p.1 = Py.casefold (clean_fund_name_for_rollup p.2.(n_name)) /\
                        p.1 <> "" /\
                        (p.2.(n_source) = None \/ p.2.(n_source) = Some "PROSPECTUS")) s.

Lemma kinv_set_last k d s : kinv s -> kinv (set_last k d s).
Proof.
  intros [Hn Hf]. split; [now rewrite HistoryFacts.set_last_keys|].
  unfold set_last. apply List.Forall_map. revert Hf. apply List.Forall_impl.
  intros p Hp. destruct (String.eqb p.1 k); simpl; auto.
Qed.

Lemma kinv_snoc k i s : mem k s = false -> k = Py.casefold (clean_fund_name_for_rollup i.(n_name)) ->
  k <> "" -> (i.(n_source) = None \/ i.(n_source) = Some "PROSPECTUS") ->
  kinv s -> kinv (s ++ [(k, i)]).
Proof.
  intros Hm Hk Hne Hsrc [Hn Hf]. split.
  - rewrite map_app. simpl. apply NoDup_app. split; [exact Hn|]. split.
    + intros x Hx Hx'. apply list_elem_of_In in Hx. apply list_elem_of_singleton in Hx'.
      subst. exact (HistoryFacts.mem_false_notin _ _ Hm Hx).
    + apply NoDup_singleton.
  - apply List.Forall_app. split; [exact Hf|]. constructor; [|constructor]. auto.
Qed.

Lemma kinv_walk_row s r : kinv s -> kinv (walk_row s r).
Proof.
  intros Hs. unfold walk_row. cbv zeta.
  match goal with
  | |- kinv (if negb (String.eqb ?pn "") && negb (String.eqb ?pr "") then _ else ?s1) =>
      assert (Hs1 : kinv s1); [|generalize dependent s1]
  end.
  { destruct (negb (String.eqb (row_name_key r) "")) eqn:Ek; [|exact Hs].
    destruct (negb (String.eqb (row_name r) "")); [|exact Hs]. simpl.
    destruct (mem (row_name_key r) s) eqn:Em; simpl.
    - now apply kinv_set_last.
    - apply kinv_snoc; auto. apply negb_true_iff, String.eqb_neq in Ek. exact Ek. }
  intros s1 Hs1.
  destruct (negb (String.eqb (row_prosp_clean r) "") && negb (String.eqb (row_prosp_raw r) ""));
    [|exact Hs1].
  destruct (negb (String.eqb (Py.casefold (row_prosp_clean r)) "")
            && negb (mem (Py.casefold (row_prosp_clean r)) s1)) eqn:E1.
  - apply andb_true_iff in E1 as [E0 E1]. apply negb_true_iff in E1.
    apply negb_true_iff, String.eqb_neq in E0.
    apply kinv_snoc; auto.
  - destruct (mem (Py.casefold (row_prosp_clean r)) s1); [now apply kinv_set_last|exact Hs1].
Qed.

Lemma kinv_walk g s : kinv s -> kinv (fold_left walk_row g s).
Proof.
  revert s. induction g as [|r g IH]; intros s Hs; [exact Hs|].
  simpl. apply IH. now apply kinv_walk_row.
Qed.

Lemma out_row_in sid k s o : In o (map (out_row sid k) s) ->
  exists p, In p s /\ o = out_row sid k p.
Proof. intros H. apply in_map_iff in H as (p & <- & Hp). eauto. Qed.

Lemma history_in sid g o : In o (history_for_series sid g) ->
  exists p, In p (walk g) /\ o = out_row sid (match py_max_by (fun p => p.2.(n_last_date)) (walk g)
                                                 with Some (k, _) => k | None => "" end) p.
Proof.
  unfold history_for_series. destruct (py_max_by _ _) as [[k i]|]; [|easy].
  apply out_row_in.
Qed.

Lemma insert_key_in k l x : In x (insert_key k l) <-> k = x \/ In x l.
Proof.
  induction l as [|a l IH]; simpl; [tauto|].
  destruct (String.eqb k a) eqn:E.
  - apply String.eqb_eq in E. subst. simpl. tauto.
  - destruct (Py.lt k a); simpl; [tauto|]. rewrite IH. tauto.
Qed.

Lemma series_keys_in rows k : In k (series_keys rows) ->
  k <> "" /\ exists r, In r rows /\ r.(h_series_id) = Some k.
Proof.
  unfold series_keys. rewrite filter_In. intros [Hk Hne].
  apply negb_true_iff, String.eqb_neq in Hne. split; [exact Hne|].
  clear Hne. induction rows as [|r rows IH]; simpl in Hk; [destruct Hk|].
  destruct (h_series_id r) as [k'|] eqn:Er.
  - apply insert_key_in in Hk as [<-|Hk]; [exists r; split; [now left|exact Er]|].
    destruct (IH Hk) as (r' & Hr' & E). exists r'. split; [now right|exact E].
  - destruct (IH Hk) as (r' & Hr' & E). exists r'. split; [now right|exact E].
Qed.

Lemma hist_le_trans a b c : hist_le a b = true -> hist_le b c = true -> hist_le a c = true.
Proof.
  unfold hist_le. intros H1 H2. eapply RollupFacts.lex_trans; [exact H1|exact H2|].
  intros _ _. apply str_leb_trans.
Qed.

Lemma hist_le_total a b : hist_le a b = false -> hist_le b a = true.
Proof.
  unfold hist_le. intros H. eapply RollupFacts.lex_total; [exact H|].
  apply RollupFacts.str_leb_total.
Qed.

End HistoryFacts2.

(** X15: within the name history of a series, names are pairwise distinct
    after cleaning and case folding (the code keys [seen_names] by that
    form), no name is empty after cleaning, every row carries the series
    id, and the name source is "SGML" or "PROSPECTUS". *)
Theorem history_names_distinct (sid : string) (g : list History.hrow) :
  NoDup (map (fun o => Py.casefold o.(History.o_name_clean)) (History.history_for_series sid g)) /\
  (forall o, In o (History.history_for_series sid g) ->
     o.(History.o_series_id) = sid /\ Py.casefold o.(History.o_name_clean) <> "" /\
     (o.(History.o_name_source) = "SGML" \/ o.(History.o_name_source) = "PROSPECTUS")).
Proof.
  destruct (HistoryFacts2.kinv_walk g [] (conj (NoDup_nil_2) (List.Forall_nil _))) as [Hn Hf].
  fold (History.walk g) in Hn, Hf. split.
  - unfold History.history_for_series. destruct (History.py_max_by _ _) as [[k i]|];
      [|constructor].
    rewrite map_map.
    erewrite map_ext_in; [exact Hn|]. intros p Hp. simpl.
    symmetry. exact (proj1 (proj1 (List.Forall_forall _ _) Hf p Hp)).
  - intros o Ho. apply HistoryFacts2.history_in in Ho as (p & Hp & ->).
    destruct (proj1 (List.Forall_forall _ _) Hf p Hp) as (Hk & Hne & Hsrc).
    simpl. rewrite <- Hk. split; [reflexivity|]. split; [exact Hne|].
    destruct Hsrc as [-> | ->]; auto.
Qed.

(** X16: the Name History table is ordered by [Series ID], then by [First
    Seen Date] (string order), and each of its rows carries a non-empty
    series id that some input row has; rows without a series id contribute
    nothing. *)
Theorem step5_sorted_series (rows : list History.hrow) :
  StronglySorted (fun a b => History.hist_le a b = true) (History.step5 rows) /\
  (forall o, In o (History.step5 rows) ->
     o.(History.o_series_id) <> "" /\
     exists r, In r rows /\ r.(History.h_series_id) = Some o.(History.o_series_id)).
Proof.
  unfold History.step5. split.
  - apply stable_sort_sorted; [apply HistoryFacts2.hist_le_total|apply HistoryFacts2.hist_le_trans].
  - intros o Ho. apply (Permutation_in _ (stable_sort_perm _ _)) in Ho.
    apply in_flat_map in Ho as (k & Hk & Ho).
    apply HistoryFacts2.history_in in Ho as (p & _ & ->). simpl.
    apply HistoryFacts2.series_keys_in in Hk as (Hne & r & Hr & Er).
    split; [exact Hne|]. exists r. split; [|exact Er].
    exact (Permutation_in _ (stable_sort_perm _ _) Hr).
Qed.


(** ** async_client.py: retries, the web cache and padded CIKs *)

Module FetchFacts2.
Import Fetch.

Definition no_cr (s : string) : Prop :=
  List.Forall (fun c => c <> "013"%char) (list_ascii_of_string s).

Lemma un_no_cr_n (n : nat) (s : string) : (String.length s <= n)%nat ->
  no_cr (Web.universal_newlines s).
Proof.
  unfold no_cr. revert s. induction n as [|n IH]; intros s Hl.
  - destruct s; [constructor|simpl in Hl; lia].
  - destruct s as [|c s']; [constructor|]. simpl in Hl. simpl.
    destruct (Ascii.eqb_spec c "013").
    + destruct s' as [|c2 s'']; [constructor; [discriminate|constructor]|].
      simpl in Hl. destruct (Ascii.eqb_spec c2 "010").
      * constructor; [discriminate|]. apply IH. lia.
      * constructor; [discriminate|]. apply IH. simpl. lia.
    + constructor; [exact n0|]. apply IH. lia.
Qed.

Lemma un_id (s : string) : no_cr s -> Web.universal_newlines s = s.
Proof.
  unfold no_cr. induction s as [|c s IH]; intros H; [reflexivity|].
  inversion H as [|? ? Hc Hs]; subst. simpl.
  destruct (Ascii.eqb_spec c "013"); [contradiction|]. now rewrite IH.
Qed.

Lemma un_idem (s : string) :
  Web.universal_newlines (Web.universal_newlines s) = Web.universal_newlines s.
Proof. apply un_id, (un_no_cr_n (String.length s)). lia. Qed.

Lemma read_after_write (h : string -> string) (c : Web.web_cache) (url content : string) :
  Web.read_web_cache h (Web.write_web_cache h c url content) url
  = Some (Web.universal_newlines content).
Proof.
  unfold Web.read_web_cache, Web.write_web_cache.
  now rewrite (lookup_insert_eq (M := gmap string) (c : gmap string string)).
Qed.

(** [int()] on digit strings, and [format(v, "010d")]. *)

Lemma digit_char (d : N) : (d < 10)%N ->
  Py.is_digit_c (ascii_of_nat (N.to_nat d + 48)) = true /\
  N.of_nat (Py.code (ascii_of_nat (N.to_nat d + 48)) - 48) = d.
Proof.
  intros Hd. unfold Py.is_digit_c, Py.code.
  rewrite Ascii.nat_ascii_embedding by lia.
  split; [apply andb_true_iff; split; apply Nat.leb_le; lia|lia].
Qed.

Lemma digit_bound (c : ascii) : Py.is_digit_c c = true -> (N.of_nat (Py.code c - 48) <= 9)%N.
Proof.
  unfold Py.is_digit_c. intros H. apply andb_true_iff in H as [H1 H2].
  apply Nat.leb_le in H1, H2. lia.
Qed.

Lemma len_app (s t : string) :
  String.length (String.append s t) = (String.length s + String.length t)%nat.
Proof. induction s as [|c s IH]; simpl; [reflexivity|now rewrite IH]. Qed.

Lemma append_nil (s : string) : String.append s EmptyString = s.
Proof.
  induction s as [|c s IH]; [reflexivity|].
  change (String c (String.append s EmptyString) = String c s). now rewrite IH.
Qed.

Lemma srev_srev (s acc b : string) :
  Py.srev (Py.srev s acc) b = Py.srev acc (String.append s b).
Proof.
  revert acc. induction s as [|c s IH]; intros acc; [reflexivity|]. simpl. now rewrite IH.
Qed.

Lemma sall_srev (p : ascii -> bool) (s acc : string) :
  Py.sall p (Py.srev s acc) = Py.sall p s && Py.sall p acc.
Proof.
  revert acc. induction s as [|c s IH]; intros acc; [reflexivity|].
  simpl. rewrite IH. simpl. destruct (p c), (Py.sall p s), (Py.sall p acc); reflexivity.
Qed.

Lemma sall_app (p : ascii -> bool) (s t : string) :
  Py.sall p (String.append s t) = Py.sall p s && Py.sall p t.
Proof. induction s as [|c s IH]; [reflexivity|]. simpl. rewrite IH. apply andb_assoc. Qed.

Lemma sfilter_all (p : ascii -> bool) (s : string) : Py.sall p s = true -> Py.sfilter p s = s.
Proof.
  induction s as [|c s IH]; [reflexivity|]. simpl. intros H.
  apply andb_true_iff in H as [H1 H2]. rewrite H1. now rewrite IH.
Qed.

Lemma lstrip_c_id (s : string) :
  Py.sall (fun c => negb (c_space c)) s = true -> lstrip_c s = s.
Proof.
  destruct s as [|c s]; [reflexivity|]. simpl. intros H.
  apply andb_true_iff in H as [H _]. destruct (c_space c); [discriminate|reflexivity].
Qed.

(** Text without C blanks is its own [strip]. *)
Lemma strip_c_id (s : string) :
  Py.sall (fun c => negb (c_space c)) s = true -> strip_c s = s.
Proof.
  intros H. unfold strip_c. rewrite (lstrip_c_id s H).
  rewrite lstrip_c_id by (rewrite sall_srev, H; reflexivity).
  rewrite srev_srev. exact (append_nil s).
Qed.

Lemma digit_not_space (c : ascii) : Py.is_digit_c c = true -> c_space c = false.
Proof.
  unfold Py.is_digit_c, c_space. intros H. apply andb_true_iff in H as [H1 H2].
  apply Nat.leb_le in H1, H2. apply orb_false_iff. split.
  - apply andb_false_iff. right. apply Nat.leb_gt. lia.
  - apply Nat.eqb_neq. lia.
Qed.

Lemma digits_no_space (s : string) : Py.sall Py.is_digit_c s = true ->
  Py.sall (fun c => negb (c_space c)) s = true.
Proof.
  induction s as [|c s IH]; [reflexivity|]. simpl. intros H.
  apply andb_true_iff in H as [H1 H2]. rewrite (digit_not_space c H1). simpl. now apply IH.
Qed.

Lemma zeros_digits (j : nat) : Py.sall Py.is_digit_c (zeros j) = true.
Proof. induction j as [|j IH]; [reflexivity|]. exact IH. Qed.

Lemma zeros_len (j : nat) : String.length (zeros j) = j.
Proof. induction j as [|j IH]; simpl; congruence. Qed.

Lemma decimal_digits (f : nat) (n : N) (acc : string) :
  Py.sall Py.is_digit_c acc = true -> Py.sall Py.is_digit_c (decimal f n acc) = true.
Proof.
  revert n acc. induction f as [|f IH]; intros n acc H; [exact H|]. cbn [decimal].
  assert (Hd : Py.sall Py.is_digit_c (String (ascii_of_nat (N.to_nat (n mod 10) + 48)) acc) = true).
  { cbn [Py.sall]. rewrite (proj1 (digit_char (n mod 10) ltac:(apply N.mod_lt; lia))). exact H. }
  destruct (n <? 10)%N; [exact Hd|now apply IH].
Qed.

Lemma decimal_len (f : nat) (n : N) (acc : string) :
  (String.length (decimal f n acc) <= f + String.length acc)%nat.
Proof.
  revert n acc. induction f as [|f IH]; intros n acc; [simpl; lia|]. cbn [decimal].
  destruct (n <? 10)%N; [simpl; lia|].
  pose proof (IH (n / 10)%N (String (ascii_of_nat (N.to_nat (n mod 10) + 48)) acc)) as H.
  simpl in H. lia.
Qed.

Lemma int_zero (s : string) (b : bool) (acc : N) :
  int_digits (String "0" s) b acc = int_digits s true (10 * acc)%N.
Proof. simpl. f_equal. lia. Qed.

Lemma int_zeros (j : nat) (s : string) :
  int_digits (String.append (zeros j) s) true 0 = int_digits s true 0.
Proof.
  induction j as [|j IH]; [reflexivity|].
  change (int_digits (String "0" (String.append (zeros j) s)) true 0 = int_digits s true 0).
  rewrite int_zero. exact IH.
Qed.

(** On text that starts with a digit, [int_digits] does not depend on
    whether a digit came before. *)
Lemma int_first_digit (s : string) (acc : N) :
  Py.sall Py.is_digit_c s = true -> s <> EmptyString ->
  int_digits s false acc = int_digits s true acc.
Proof.
  destruct s as [|c s]; intros H Hne; [contradiction|].
  simpl in H. apply andb_true_iff in H as [H _]. simpl. now rewrite H.
Qed.

Lemma dec_val (f : nat) (n : N) (acc : string) (x : N) :
  (1 <= f)%nat -> (n < 10 ^ N.of_nat f)%N ->
  exists k, int_digits (decimal f n acc) true x = int_digits acc true (x * 10 ^ k + n)%N.
Proof.
  revert n acc x. induction f as [|f IH]; intros n acc x Hf Hn; [lia|].
  cbn [decimal]. destruct (digit_char (n mod 10)) as [Hd Hv]; [apply N.mod_lt; lia|].
  destruct (n <? 10)%N eqn:E.
  - apply N.ltb_lt in E. exists 1%N. cbn [int_digits]. rewrite Hd, Hv.
    rewrite N.mod_small by exact E. f_equal. lia.
  - apply N.ltb_ge in E.
    assert (Hf' : (1 <= f)%nat).
    { destruct f; [|lia]. simpl in Hn. lia. }
    assert (Hn' : (n / 10 < 10 ^ N.of_nat f)%N).
    { apply N.Div0.div_lt_upper_bound.
      replace (N.of_nat (S f)) with (N.succ (N.of_nat f)) in Hn by lia.
      rewrite N.pow_succ_r' in Hn. lia. }
    destruct (IH (n / 10)%N (String (ascii_of_nat (N.to_nat (n mod 10) + 48)) acc) x Hf' Hn')
      as [k Hk]. exists (N.succ k). rewrite Hk.
    cbn [int_digits]. rewrite Hd, Hv. f_equal.
    rewrite N.pow_succ_r'. pose proof (N.div_mod n 10 ltac:(lia)). nia.
Qed.

Lemma dec_fuel (f1 f2 : nat) (n : N) (acc : string) :
  (1 <= f1)%nat -> (1 <= f2)%nat -> (n < 10 ^ N.of_nat f1)%N -> (n < 10 ^ N.of_nat f2)%N ->
  decimal f1 n acc = decimal f2 n acc.
Proof.
  revert f2 n acc. induction f1 as [|f1 IH]; intros f2 n acc H1 H2 Hn1 Hn2; [lia|].
  destruct f2 as [|f2]; [lia|]. simpl.
  destruct (n <? 10)%N eqn:E; [reflexivity|]. apply N.ltb_ge in E.
  assert (Hsmall : forall f, (n < 10 ^ N.of_nat (S f))%N -> (1 <= f)%nat /\ (n / 10 < 10 ^ N.of_nat f)%N).
  { intros f Hf. replace (N.of_nat (S f)) with (N.succ (N.of_nat f)) in Hf by lia.
    rewrite N.pow_succ_r' in Hf. split.
    - destruct f; [simpl in Hf; lia|lia].
    - apply N.Div0.div_lt_upper_bound. lia. }
  destruct (Hsmall f1 Hn1), (Hsmall f2 Hn2). now apply IH.
Qed.

Lemma size_pow (n : N) : (n < 10 ^ N.of_nat (S (N.to_nat (N.size n))))%N.
Proof.
  pose proof (N.size_gt n) as H.
  assert (H2 : (2 ^ N.size n <= 10 ^ N.size n)%N) by (apply N.pow_le_mono_l; lia).
  rewrite Nat2N.inj_succ, N2Nat.id, N.pow_succ_r'. lia.
Qed.

Lemma digits_of_val (n : N) : int_digits (digits_of n) true 0 = Some n.
Proof.
  unfold digits_of.
  destruct (dec_val (S (N.to_nat (N.size n))) n "" 0 ltac:(lia) (size_pow n)) as [k Hk].
  rewrite Hk. cbn [int_digits]. f_equal; lia.
Qed.

Lemma digits_of_len (n : N) (K : nat) : (n < 10 ^ N.of_nat K)%N ->
  (String.length (digits_of n) <= Nat.max 1 K)%nat.
Proof.
  intros H. destruct K as [|K].
  - simpl in H. assert (n = 0%N) by lia. subst n. apply Nat.leb_le. vm_compute. reflexivity.
  - unfold digits_of.
    rewrite (dec_fuel (S (N.to_nat (N.size n))) (S K) n "")
      by first [lia | apply size_pow | exact H].
    pose proof (decimal_len (S K) n "") as L. simpl in L |- *. lia.
Qed.

(** The value read by [int_digits] is below [10 ^ d] for [d] digits. *)
Lemma int_digits_bound (s : string) (b : bool) (acc n : N) : int_digits s b acc = Some n ->
  (n < (acc + 1) * 10 ^ N.of_nat (String.length (Py.sfilter Py.is_digit_c s)))%N.
Proof.
  revert b acc. induction s as [|c s IH]; intros b acc H; cbn [int_digits] in H.
  - destruct b; [|discriminate]. injection H as <-. simpl. lia.
  - destruct (Py.is_digit_c c) eqn:Hc.
    + pose proof (digit_bound c Hc) as Hb. apply IH in H. cbn [Py.sfilter]. rewrite Hc.
      cbn [String.length].
      set (K := String.length (Py.sfilter Py.is_digit_c s)) in *.
      replace (N.of_nat (S K)) with (N.succ (N.of_nat K)) by lia.
      rewrite N.pow_succ_r'. set (P := (10 ^ N.of_nat K)%N) in *. nia.
    + destruct (Ascii.eqb c "_" && b); [|discriminate]. apply IH in H.
      cbn [Py.sfilter]. rewrite Hc. exact H.
Qed.

Lemma int_body_bound (t : string) (n : N) : int_body t = Some n ->
  (String.length (digits_of n) <= 4300)%nat.
Proof.
  unfold int_body. destruct (int_max_str_digits <? _)%nat eqn:E; [discriminate|].
  apply Nat.ltb_ge in E. unfold int_max_str_digits in E. intros H.
  apply int_digits_bound in H. rewrite N.add_0_l, N.mul_1_l in H.
  pose proof (digits_of_len _ _ H). lia.
Qed.

(** A number [int] reads has at most [int_max_str_digits] digits. *)
Lemma py_int_bound (a : string) (v : Z) : py_int a = Some v ->
  (String.length (digits_of (Z.to_N (Z.abs v))) <= 4300)%nat.
Proof.
  unfold py_int. destruct (strip_c a) as [|c t]; [discriminate|].
  destruct (Ascii.eqb c "-"); [|destruct (Ascii.eqb c "+")];
    destruct (int_body _) as [n|] eqn:E; try discriminate;
    intros H; simpl in H; injection H as <-; apply int_body_bound in E.
  - rewrite Z.abs_opp, Z.abs_eq, N2Z.id by lia. exact E.
  - rewrite Z.abs_eq, N2Z.id by lia. exact E.
  - rewrite Z.abs_eq, N2Z.id by lia. exact E.
Qed.

Lemma zfill_len (w : nat) (s : string) :
  String.length (zfill w s) = (w - String.length s + String.length s)%nat.
Proof. unfold zfill. now rewrite len_app, zeros_len. Qed.

Lemma zfill_digits (w : nat) (n : N) : Py.sall Py.is_digit_c (zfill w (digits_of n)) = true.
Proof. unfold zfill. rewrite sall_app, zeros_digits. now apply decimal_digits. Qed.

Lemma int_body_zfill (w : nat) (n : N) :
  (1 <= w <= 4300)%nat -> (String.length (digits_of n) <= 4300)%nat ->
  int_body (zfill w (digits_of n)) = Some n.
Proof.
  intros Hw Hd. unfold int_body. rewrite sfilter_all by apply zfill_digits.
  rewrite zfill_len.
  replace (int_max_str_digits <? _)%nat with false
    by (symmetry; apply Nat.ltb_ge; unfold int_max_str_digits; lia).
  rewrite int_first_digit; [|apply zfill_digits|].
  - unfold zfill. rewrite int_zeros. apply digits_of_val.
  - intros E. pose proof (zfill_len w (digits_of n)) as L. rewrite E in L. simpl in L. lia.
Qed.

Lemma format_len (v : Z) : (10 <= String.length (format_010d v))%nat.
Proof. unfold format_010d. destruct (v <? 0); [cbn [String.length]|]; rewrite zfill_len; lia. Qed.

(** [int(format(v, "010d")) == v]. *)
Lemma py_int_format (v : Z) : (String.length (digits_of (Z.to_N (Z.abs v))) <= 4300)%nat ->
  py_int (format_010d v) = Some v.
Proof.
  intros Hd. unfold format_010d. destruct (v <? 0) eqn:Hv.
  - apply Z.ltb_lt in Hv. rewrite Z.abs_neq in Hd by lia.
    remember (zfill 9 (digits_of (Z.to_N (- v)))) as t eqn:Et.
    assert (Ht : int_body t = Some (Z.to_N (- v))) by (subst t; apply int_body_zfill; lia).
    assert (Hs : Py.sall (fun c => negb (c_space c)) t = true)
      by (subst t; apply digits_no_space, zfill_digits).
    unfold py_int. rewrite strip_c_id by (simpl; exact Hs).
    cbv beta iota. rewrite Ascii.eqb_refl, Ht. simpl. f_equal.
    rewrite Z2N.id by lia. lia.
  - apply Z.ltb_ge in Hv. rewrite Z.abs_eq in Hd by lia.
    remember (zfill 10 (digits_of (Z.to_N v))) as t eqn:Et.
    assert (Ht : int_body t = Some (Z.to_N v)) by (subst t; apply int_body_zfill; lia).
    assert (Hd' : Py.sall Py.is_digit_c t = true) by (subst t; apply zfill_digits).
    unfold py_int. rewrite strip_c_id by (apply digits_no_space, Hd').
    destruct t as [|c t']; [vm_compute in Ht; discriminate Ht|].
    cbn [Py.sall] in Hd'. apply andb_true_iff in Hd' as [Hc _].
    cbv beta iota.
    destruct (Ascii.eqb_spec c "-") as [->|_]; [vm_compute in Hc; discriminate Hc|].
    destruct (Ascii.eqb_spec c "+") as [->|_]; [vm_compute in Hc; discriminate Hc|].
    rewrite Ht. simpl. f_equal. apply Z2N.id. lia.
Qed.

End FetchFacts2.

(** X17: [_fetch_url] against a server that answers 429 to the first [k]
    requests, each with a Retry-After header [int] reads (10 seconds when
    the header is absent): while permits of the semaphore remain, it sends a
    request and sleeps for the Retry-After value after each 429.  With at
    most [k] free permits it sends one request per permit and then waits on
    the semaphore forever.  With more permits it sends [k + 1] requests: the
    result is that of the last answer, an HTTP error for a status of 400 or
    more and the body below 400, or [ValueError] for a 429 whose Retry-After
    is not an integer. *)
Theorem fetch_url_retries (k permits : nat) (server : nat -> Fetch.response) (n : nat)
  (sleeps : nat -> Z) :
  (forall i, (i < k)%nat -> (server (n + i)%nat).(Fetch.r_status) = 429 /\
     Fetch.retry_after (server (n + i)%nat) = Some (sleeps (n + i)%nat)) ->
  ((permits <= k)%nat ->
     Fetch.fetch_url permits server n =
       (None, firstn (2 * permits)
                (flat_map (fun i => [Fetch.ERequest; Fetch.ESleep (sleeps i)]) (seq n k)))) /\
  ((k < permits)%nat -> (server (n + k)%nat).(Fetch.r_status) <> 429 ->
     Fetch.fetch_url permits server n =
       (Some (if 400 <=? (server (n + k)%nat).(Fetch.r_status)
              then Fetch.HttpError (server (n + k)%nat).(Fetch.r_status)
              else Fetch.Ok (server (n + k)%nat).(Fetch.r_body)),
        flat_map (fun i => [Fetch.ERequest; Fetch.ESleep (sleeps i)]) (seq n k)
        ++ [Fetch.ERequest])) /\
  ((k < permits)%nat -> (server (n + k)%nat).(Fetch.r_status) = 429 ->
     Fetch.retry_after (server (n + k)%nat) = None ->
     Fetch.fetch_url permits server n =
       (Some Fetch.ValueError,
        flat_map (fun i => [Fetch.ERequest; Fetch.ESleep (sleeps i)]) (seq n k)
        ++ [Fetch.ERequest])).
Proof.
  revert permits n. induction k as [|k IH]; intros permits n H.
  - split; [|split].
    + intros Hp. destruct permits; [reflexivity|lia].
    + intros Hp Hs. destruct permits as [|p]; [lia|]. rewrite Nat.add_0_r in Hs |- *.
      cbn [Fetch.fetch_url]. apply Z.eqb_neq in Hs. rewrite Hs.
      destruct (400 <=? _); reflexivity.
    + intros Hp Hs Hr. destruct permits as [|p]; [lia|]. rewrite Nat.add_0_r in Hs, Hr.
      cbn [Fetch.fetch_url]. rewrite Hs, Z.eqb_refl, Hr. reflexivity.
  - destruct (H 0%nat ltac:(lia)) as [Hs0 Hr0]. rewrite Nat.add_0_r in Hs0, Hr0.
    assert (H' : forall i, (i < k)%nat -> (server (S n + i)%nat).(Fetch.r_status) = 429 /\
                   Fetch.retry_after (server (S n + i)%nat) = Some (sleeps (S n + i)%nat)).
    { intros i Hi. replace (S n + i)%nat with (n + S i)%nat by lia. apply H. lia. }
    destruct permits as [|p].
    + split; [intros _; reflexivity|split; intros Hp; lia].
    + destruct (IH p (S n) H') as (IH1 & IH2 & IH3).
      replace (n + S k)%nat with (S n + k)%nat by lia.
      cbn [Fetch.fetch_url]. rewrite Hs0, Z.eqb_refl, Hr0.
      cbn [seq flat_map app].
      split; [|split].
      * intros Hp. rewrite IH1 by lia.
        replace (2 * S p)%nat with (S (S (2 * p))) by lia. reflexivity.
      * intros Hp Hs. rewrite IH2 by first [lia | exact Hs]. reflexivity.
      * intros Hp Hs Hr. rewrite IH3 by first [lia | assumption]. reflexivity.
Qed.

Lemma fetch_url_retries_witness :
  (forall i, (i < 2)%nat -> (Samples.server_429_twice (0 + i)%nat).(Fetch.r_status) = 429 /\
     Fetch.retry_after (Samples.server_429_twice (0 + i)%nat) = Some ((fun _ : nat => 1) (0 + i)%nat)) /\
  Fetch.fetch_url 8 Samples.server_429_twice 0
  = (Some (Fetch.Ok "x"),
     [Fetch.ERequest; Fetch.ESleep 1; Fetch.ERequest; Fetch.ESleep 1; Fetch.ERequest]).
Proof.
  assert (H1 : forall i, (i < 2)%nat -> (Samples.server_429_twice (0 + i)%nat).(Fetch.r_status) = 429 /\
     Fetch.retry_after (Samples.server_429_twice (0 + i)%nat) = Some ((fun _ : nat => 1) (0 + i)%nat)).
  { intros i Hi. destruct i as [|[|i]]; [| |lia]; split; vm_compute; reflexivity. }
  split; [exact H1|].
  destruct (fetch_url_retries 2 8 Samples.server_429_twice 0 (fun _ => 1) H1) as (_ & H2 & _).
  rewrite H2; [reflexivity|lia|].
  intros E. vm_compute in E. discriminate E.
Defined.

(** X18: after a [fetch] that returns a text, fetching the same URL again
    sends no request, returns that text with line endings read back in
    universal-newlines mode ("\r\n" and "\r" as "\n"), and leaves the web
    cache as it is; a [fetch] that returns no text leaves the cache
    unchanged. *)
Theorem web_fetch_then_hit (hash_url : string -> string) (permits : nat)
  (server : nat -> Fetch.response) (n : nat) (c : Web.web_cache) (url : string)
  (permits' : nat) (server' : nat -> Fetch.response) (n' : nat) :
  match Web.fetch hash_url permits server n c url with
  | (Some (Fetch.Ok content), _, c') =>
      Web.fetch hash_url permits' server' n' c' url
      = (Some (Fetch.Ok (Web.universal_newlines content)), [], c')
  | (_, _, c') => c' = c
  end.
Proof.
  unfold Web.fetch at 1.
  destruct (Web.read_web_cache hash_url c url) as [cached|] eqn:Ec.
  - unfold Web.fetch. rewrite Ec. unfold Web.read_web_cache in Ec.
    destruct (c !! hash_url url) as [raw|]; [|discriminate]. injection Ec as <-.
    now rewrite FetchFacts2.un_idem.
  - destruct (Fetch.fetch_url permits server n) as [res tr].
    destruct res as [[content|st|]|]; try reflexivity.
    unfold Web.fetch. now rewrite FetchFacts2.read_after_write.
Qed.

(** X19: when [int] reads a CIK, its padded form [f"{int(cik):010d}"] has
    at least ten characters (a negative number keeps its sign in the ten),
    [int] reads the same number from it, and padding it again changes
    nothing: the padded form is a fixed point of the padding. *)
Theorem pad_cik_spec (a p : string) :
  Fetch.pad_cik a = Some p ->
  (10 <= String.length p)%nat /\ Fetch.py_int p = Fetch.py_int a /\ Fetch.pad_cik p = Some p.
Proof.
  unfold Fetch.pad_cik. destruct (Fetch.py_int a) as [v|] eqn:Ev; [|discriminate].
  intros Hp. simpl in Hp. injection Hp as <-.
  pose proof (FetchFacts2.py_int_format v (FetchFacts2.py_int_bound a v Ev)) as Hf.
  split; [apply FetchFacts2.format_len|]. rewrite Hf. split; reflexivity.
Qed.

Lemma pad_cik_spec_witness :
  Fetch.pad_cik " +320_193 " = Some "0000320193" /\
  (10 <= String.length "0000320193")%nat /\
  Fetch.py_int "0000320193" = Fetch.py_int " +320_193 " /\
  Fetch.pad_cik "0000320193" = Some "0000320193".
Proof.
  assert (H : Fetch.pad_cik " +320_193 " = Some "0000320193") by (vm_compute; reflexivity).
  split; [exact H|]. exact (pad_cik_spec " +320_193 " "0000320193" H).
Defined.

(** A negative CIK keeps its sign within the ten characters. *)
Example pad_cik_negative : Fetch.pad_cik "-5" = Some "-000000005".
Proof. vm_compute. reflexivity. Qed.


(** ** step3.py: the per-filing rows, the row key, the header date and the
    ticker search; body_extractors.py: the columnar fallback *)

(** [_extract_ticker_for_series_from_texts].  The three regular expressions
    are parameters: [paren_search s_norm t] is group 1 of
    [rx_paren.search(t)] for the normalised name [s_norm];
    [name_spans s_norm t] the (start, end) of each match of
    [re.finditer(re.escape(s_norm), t, IGNORECASE)]; [label_search w] group 2
    of [label_rx.search(w)]. *)
Module TickerSearch.
Section Search.

Variable paren_search : string -> string -> option string.
Variable name_spans : string -> string -> list (nat * nat).
Variable label_search : string -> option string.

(** The first loop: the first text whose parenthesised candidate validates. *)
Fixpoint paren_pass (s_norm : string) (texts : list string) : option (string * string) :=
  match texts with
  | [] => None
  | t :: ts =>
      match paren_search s_norm t with
      | Some g =>
          let cand := Py.upper g in
          if Ticker.valid_ticker cand then Some (cand, "TITLE-PAREN") else paren_pass s_norm ts
      | None => paren_pass s_norm ts
      end
  end.

(** The inner loop over the matches of the name in one text: the window
    [t[max(0, start - 600) : min(len(t), end + 600)]]. *)
Fixpoint window_pass (t : string) (spans : list (nat * nat)) : option (string * string) :=
  match spans with
  | [] => None
  | (st, en) :: ms =>
      let start := (st - 600)%nat in
      let end_ := Nat.min (String.length t) (en + 600) in
      let window := substring start (end_ - start) t in
      match label_search window with
      | Some g =>
          let cand := Py.upper g in
          if Ticker.valid_ticker cand then Some (cand, "LABEL-WINDOW") else window_pass t ms
      | None => window_pass t ms
      end
  end.

(** The second loop, skipping empty texts. *)
Fixpoint label_pass (s_norm : string) (texts : list string) : option (string * string) :=
  match texts with
  | [] => None
  | t :: ts =>
      if String.eqb t "" then label_pass s_norm ts
      else match window_pass t (name_spans s_norm t) with
           | Some r => Some r
           | None => label_pass s_norm ts
           end
  end.

Definition ticker_for_series (series_name : string) (texts : list string) : string * string :=
  if String.eqb series_name "" then ("", "")
  else
    let s_norm := normalize_spacing series_name in
    match paren_pass s_norm texts with
    | Some r => r
    | None => match label_pass s_norm texts with Some r => r | None => ("", "") end
    end.

End Search.
End TickerSearch.

Module ExtractFacts.

Lemma upper_c_idem (c : ascii) : Py.upper_c (Py.upper_c c) = Py.upper_c c.
Proof. destruct c as [[] [] [] [] [] [] [] []]; reflexivity. Qed.

Lemma upper_idem (s : string) : Py.upper (Py.upper s) = Py.upper s.
Proof.
  unfold Py.upper. induction s as [|c s IH]; [reflexivity|]. simpl. now rewrite upper_c_idem, IH.
Qed.

Definition found (r : string * string) (tag : string) : Prop :=
  Ticker.valid_ticker r.1 = true /\ Py.upper r.1 = r.1 /\ r.2 = tag.

Lemma paren_pass_ok ps s texts r :
  TickerSearch.paren_pass ps s texts = Some r -> found r "TITLE-PAREN".
Proof.
  induction texts as [|t ts IH]; simpl; [discriminate|].
  destruct (ps s t) as [g|]; [|exact IH].
  destruct (Ticker.valid_ticker (Py.upper g)) eqn:Ev; [|exact IH].
  intros [= <-]. split; [exact Ev|]. split; [apply upper_idem|reflexivity].
Qed.

Lemma window_pass_ok ls t spans r :
  TickerSearch.window_pass ls t spans = Some r -> found r "LABEL-WINDOW".
Proof.
  induction spans as [|[st en] ms IH]; simpl; [discriminate|].
  destruct (ls _) as [g|]; [|exact IH].
  destruct (Ticker.valid_ticker (Py.upper g)) eqn:Ev; [|exact IH].
  intros [= <-]. split; [exact Ev|]. split; [apply upper_idem|reflexivity].
Qed.

Lemma label_pass_ok sp ls s texts r :
  TickerSearch.label_pass sp ls s texts = Some r -> found r "LABEL-WINDOW".
Proof.
  induction texts as [|t ts IH]; simpl; [discriminate|].
  destruct (String.eqb t ""); [exact IH|].
  destruct (TickerSearch.window_pass ls t (sp s t)) as [r'|] eqn:E.
  - intros [= <-]. exact (window_pass_ok _ _ _ _ E).
  - exact IH.
Qed.

(** A boolean test for two adjacent whitespace characters. *)
Fixpoint two_spaces (s : string) : bool :=
  match s with
  | String a ((String b _) as s') => (Py.is_space_c a && Py.is_space_c b) || two_spaces s'
  | _ => false
  end.

Lemma two_spaces_nd (s : string) : two_spaces s = false -> SpacingFacts.nd (list_ascii_of_string s).
Proof.
  induction s as [|a s IH]; intros H l1 l2 x y E.
  - destruct l1; discriminate E.
  - destruct s as [|b s].
    + destruct l1 as [|z [|w l1]]; simpl in E; inversion E.
    + change (two_spaces (String a (String b s)))
        with ((Py.is_space_c a && Py.is_space_c b) || two_spaces (String b s)) in H.
      apply orb_false_iff in H as [Hab Hs].
      destruct l1 as [|z l1]; simpl in E.
      * injection E as -> -> _. apply andb_false_iff in Hab. exact Hab.
      * injection E as _ E2. exact (IH Hs l1 l2 x y E2).
Qed.

Lemma nd_strip (s : string) : SpacingFacts.nd (list_ascii_of_string s) ->
  SpacingFacts.nd (list_ascii_of_string (Py.strip s)).
Proof.
  intros H. unfold Py.strip. rewrite SpacingFacts.L_srev, app_nil_r.
  apply SpacingFacts.nd_rev.
  destruct (SpacingFacts.lstrip_spec (Py.srev (Py.lstrip s) "")) as (pre & E & _ & _).
  apply (SpacingFacts.nd_app_r pre). rewrite <- E.
  rewrite SpacingFacts.L_srev, app_nil_r. apply SpacingFacts.nd_rev.
  destruct (SpacingFacts.lstrip_spec s) as (pre' & E' & _ & _).
  apply (SpacingFacts.nd_app_r pre'). rewrite <- E'. exact H.
Qed.

Lemma split2_single (s : string) : SpacingFacts.nd (list_ascii_of_string s) ->
  Ticker.split2_go false s = (s, []).
Proof.
  induction s as [|c s IH]; intros H; [reflexivity|].
  assert (Ht : SpacingFacts.nd (list_ascii_of_string s)) by exact (SpacingFacts.nd_app_r [c] _ H).
  simpl. destruct (Py.is_space_c c) eqn:Ec.
  - destruct s as [|c2 s'].
    + reflexivity.
    + assert (Hc2 : Py.is_space_c c2 = false).
      { destruct (H [] (list_ascii_of_string s') c c2 eq_refl) as [E|E]; [congruence|exact E]. }
      rewrite Hc2, (IH Ht). reflexivity.
  - rewrite (IH Ht). reflexivity.
Qed.

Lemma no_bar_split (a1 a2 r1 r2 : string) :
  ~ In "|"%char (list_ascii_of_string a1) -> ~ In "|"%char (list_ascii_of_string a2) ->
  String.append a1 (String "|" r1) = String.append a2 (String "|" r2) -> a1 = a2 /\ r1 = r2.
Proof.
  revert a2. induction a1 as [|c a1 IH]; intros a2 H1 H2 E; destruct a2 as [|c' a2]; simpl in E.
  - now injection E.
  - injection E as Ec _. subst c'. exfalso. apply H2. now left.
  - injection E as Ec _. subst c. exfalso. apply H1. now left.
  - injection E as <- E.
    destruct (IH a2 (fun H => H1 (or_intror H)) (fun H => H2 (or_intror H)) E) as [-> ->].
    split; reflexivity.
Qed.

End ExtractFacts.

(** X21: the plain-text columnar fallback needs a run of two or more
    whitespace characters between the name and the ticker: a line with no
    two adjacent whitespace characters gives no row. *)
Theorem columnar_line_single_spaces (from ln : string) :
  ExtractFacts.two_spaces ln = false -> Ticker.columnar_line from ln = None.
Proof.
  intros H. unfold Ticker.columnar_line, Ticker.split2.
  rewrite (ExtractFacts.split2_single _ (ExtractFacts.nd_strip _ (ExtractFacts.two_spaces_nd _ H))).
  reflexivity.
Qed.

Lemma columnar_line_single_spaces_witness :
  ExtractFacts.two_spaces "Alpha Fund ALPH" = false /\
  Ticker.columnar_line "PRIMARY-HTML" "Alpha Fund ALPH" = None.
Proof.
  assert (H : ExtractFacts.two_spaces "Alpha Fund ALPH" = false) by reflexivity.
  split; [exact H|]. exact (columnar_line_single_spaces "PRIMARY-HTML" _ H).
Defined.

(** X22: the effective date read from the SGML header is either empty or
    the eight digits found after "EFFECTIVENESS DATE:", written YYYY-MM-DD,
    which parse as a calendar day within pandas' timestamp range. *)
Theorem hdr_effective_date (txt : string) :
  Hdr.extract_effectiveness_from_hdr txt = "" \/
  exists d z, Hdr.search txt = Some d /\
    Hdr.extract_effectiveness_from_hdr txt =
      String.append (substring 0 4 d)
        (String "-" (String.append (substring 4 2 d) (String "-" (substring 6 2 d)))) /\
    Date.parse_iso (Hdr.extract_effectiveness_from_hdr txt) = Some z /\
    Date.ts_first_day <= z <= Date.ts_last_day.
Proof.
  unfold Hdr.extract_effectiveness_from_hdr.
  destruct (Hdr.search txt) as [d|] eqn:Es; [|now left].
  destruct (Hdr.to_datetime_ymd d) as [z|] eqn:Et; [|now left].
  right. exists d, z. split; [reflexivity|].
  unfold Hdr.to_datetime_ymd in Et.
  destruct (Date.parse_iso _) as [z0|] eqn:Ep; [|discriminate].
  destruct ((Date.ts_first_day <=? z0) && (z0 <=? Date.ts_last_day)) eqn:Er; [|discriminate].
  injection Et as <-. apply andb_true_iff in Er as [E1 E2].
  apply Z.leb_le in E1, E2.
  rewrite (DateFacts.format_parse _ _ Ep). split; [reflexivity|]. split; [exact Ep|]. lia.
Qed.

(** X23: the ticker search for a series returns ("", "") for an empty
    name; otherwise either ("", "") or an upper-case ticker accepted by
    [_valid_ticker], tagged "TITLE-PAREN" or "LABEL-WINDOW" by the loop that
    found it, whatever the regular expressions match. *)
Theorem ticker_for_series_valid (paren_search : string -> string -> option string)
  (name_spans : string -> string -> list (nat * nat)) (label_search : string -> option string)
  (series_name : string) (texts : list string) :
  let r := TickerSearch.ticker_for_series paren_search name_spans label_search series_name texts in
  (series_name = "" -> r = ("", "")) /\
  (r = ("", "") \/
   (Ticker.valid_ticker r.1 = true /\ Py.upper r.1 = r.1 /\
    (r.2 = "TITLE-PAREN" \/ r.2 = "LABEL-WINDOW"))).
Proof.
  cbv zeta. unfold TickerSearch.ticker_for_series.
  destruct (String.eqb_spec series_name "") as [->|Hn].
  - split; [reflexivity|now left].
  - split; [intros; contradiction|].
    destruct (TickerSearch.paren_pass _ _ _) as [r|] eqn:Ep.
    + right. destruct (ExtractFacts.paren_pass_ok _ _ _ _ Ep) as (H1 & H2 & H3). auto.
    + destruct (TickerSearch.label_pass _ _ _ _) as [r|] eqn:El; [|now left].
      right. destruct (ExtractFacts.label_pass_ok _ _ _ _ _ El) as (H1 & H2 & H3). auto.
Qed.

(** X24: when neither row's accession number, class id nor class name
    contains "|", the string [__key] of step 3 identifies the same rows as
    the key tuple (Accession Number, Class-Contract ID, Class Contract Name,
    Class Symbol) of the accumulated row set. *)
Theorem str_key_tuple_key (x y : Extract.erow) :
  ~ In "|"%char (list_ascii_of_string x.(Extract.e_accession)) ->
  ~ In "|"%char (list_ascii_of_string x.(Extract.e_class_id)) ->
  ~ In "|"%char (list_ascii_of_string x.(Extract.e_class_name)) ->
  ~ In "|"%char (list_ascii_of_string y.(Extract.e_accession)) ->
  ~ In "|"%char (list_ascii_of_string y.(Extract.e_class_id)) ->
  ~ In "|"%char (list_ascii_of_string y.(Extract.e_class_name)) ->
  Extract.str_key x = Extract.str_key y <-> Extract.tuple_key x = Extract.tuple_key y.
Proof.
  intros Hx1 Hx2 Hx3 Hy1 Hy2 Hy3. unfold Extract.str_key, Extract.tuple_key. split.
  - intros E.
    destruct (ExtractFacts.no_bar_split _ _ _ _ Hx1 Hy1 E) as [-> E'].
    destruct (ExtractFacts.no_bar_split _ _ _ _ Hx2 Hy2 E') as [-> E''].
    destruct (ExtractFacts.no_bar_split _ _ _ _ Hx3 Hy3 E'') as [-> ->].
    reflexivity.
  - intros [= -> -> -> ->]. reflexivity.
Qed.

Lemma str_key_tuple_key_witness :
  let x := Extract.none_row Samples.f1 Samples.v_html in
  let y := Extract.enrich Samples.no_ticker Samples.f1 Samples.v_html
             (Extract.mkS "S1" "Alpha Fund" "C1" "Alpha Fund" "ALPH" "SGML-TXT") in
  (~ In "|"%char (list_ascii_of_string x.(Extract.e_accession)) /\
   ~ In "|"%char (list_ascii_of_string x.(Extract.e_class_id)) /\
   ~ In "|"%char (list_ascii_of_string x.(Extract.e_class_name)) /\
   ~ In "|"%char (list_ascii_of_string y.(Extract.e_accession)) /\
   ~ In "|"%char (list_ascii_of_string y.(Extract.e_class_id)) /\
   ~ In "|"%char (list_ascii_of_string y.(Extract.e_class_name))) /\
  (Extract.str_key x = Extract.str_key y <-> Extract.tuple_key x = Extract.tuple_key y).
Proof.
  cbv zeta.
  assert (N1 : ~ In "|"%char (list_ascii_of_string
                 (Extract.none_row Samples.f1 Samples.v_html).(Extract.e_accession))).
  { vm_compute. intros Hi. repeat (destruct Hi as [Hi|Hi]; [discriminate Hi|]). exact Hi. }
  assert (N2 : ~ In "|"%char (list_ascii_of_string
                 (Extract.none_row Samples.f1 Samples.v_html).(Extract.e_class_id))).
  { vm_compute. intros Hi. exact Hi. }
  assert (N3 : ~ In "|"%char (list_ascii_of_string
                 (Extract.none_row Samples.f1 Samples.v_html).(Extract.e_class_name))).
  { vm_compute. intros Hi. exact Hi. }
  assert (N4 : ~ In "|"%char (list_ascii_of_string
                 (Extract.enrich Samples.no_ticker Samples.f1 Samples.v_html
                    (Extract.mkS "S1" "Alpha Fund" "C1" "Alpha Fund" "ALPH" "SGML-TXT")).(Extract.e_accession))).
  { vm_compute. intros Hi. repeat (destruct Hi as [Hi|Hi]; [discriminate Hi|]). exact Hi. }
  assert (N5 : ~ In "|"%char (list_ascii_of_string
                 (Extract.enrich Samples.no_ticker Samples.f1 Samples.v_html
                    (Extract.mkS "S1" "Alpha Fund" "C1" "Alpha Fund" "ALPH" "SGML-TXT")).(Extract.e_class_id))).
  { vm_compute. intros Hi. repeat (destruct Hi as [Hi|Hi]; [discriminate Hi|]). exact Hi. }
  assert (N6 : ~ In "|"%char (list_ascii_of_string
                 (Extract.enrich Samples.no_ticker Samples.f1 Samples.v_html
                    (Extract.mkS "S1" "Alpha Fund" "C1" "Alpha Fund" "ALPH" "SGML-TXT")).(Extract.e_class_name))).
  { vm_compute. intros Hi. repeat (destruct Hi as [Hi|Hi]; [discriminate Hi|]). exact Hi. }
  split; [tauto|]. exact (str_key_tuple_key _ _ N1 N2 N3 N4 N5 N6).
Defined.

